(** * Budget tracker (script.js): the ledger and its balances

    A shallow embedding of the month ledger of [script.js]: the conversion
    between decimal amount strings and integer fils, the per-currency
    totals, the lending summary, and the form, edit, delete and transfer
    handlers that keep the KWD wallet and savings balances.

    Conventions of the embedding.
    - A JavaScript number is [num]: an integer [Int z] or [NaN].  The ledger
      only adds, subtracts and compares integers, which doubles do exactly
      up to 2^53; the embedding uses unbounded [Z], and the properties that
      rest on the arithmetic being exact take that range as a hypothesis
      ([isSafeInteger], [safeAmounts], [inRange]).  Negative zero is
      [Int 0]: the sums, comparisons and prints of the code do not tell the
      two zeros apart.
    - [Number_] is JavaScript's string-to-number conversion on the strings
      built from decimal digits and a leading sign, and on the empty
      string; every other string is mapped to [NaN].  Strings with
      surrounding blanks, an exponent, a radix prefix or [Infinity] are
      therefore outside the embedding.
    - A JavaScript object used as a dictionary ([incomeTotals], [toReceive])
      is a [gmap string num] of its own properties.  The properties about
      these objects take as a hypothesis that the currency codes are not
      names inherited from [Object.prototype] ([ownName]) and, where the
      order of enumeration matters, not written in digits ([plainName]).
    - The mutable global [monthData] is passed explicitly; the handlers
      return the new value.  Saving to local storage and re-rendering the
      page do not change [monthData] and are left out. *)

From Stdlib Require Import ZArith Lia Ascii.
From stdpp Require Import gmap strings list fin_maps.

Local Open Scope Z_scope.

(** ** JavaScript numbers *)

Inductive num : Type :=
  | NaN
  | Int (z : Z).

Module Num.

(** [a + b], [a - b] and [a * b] on integers, with [NaN] absorbing.  The
    code computes them on doubles: the result is the one given here
    whenever the operands and the exact result are at most 2^53 in absolute
    value, and is rounded (or infinite) beyond. *)
Definition add (a b : num) : num :=
  match a, b with
  | Int x, Int y => Int (x + y)
  | _, _ => NaN
  end.

Definition sub (a b : num) : num :=
  match a, b with
  | Int x, Int y => Int (x - y)
  | _, _ => NaN
  end.

Definition mul (a b : num) : num :=
  match a, b with
  | Int x, Int y => Int (x * y)
  | _, _ => NaN
  end.

(** Comparisons with [NaN] are false. *)
Definition leb (a b : num) : bool :=
  match a, b with
  | Int x, Int y => x <=? y
  | _, _ => false
  end.

Definition ltb (a b : num) : bool :=
  match a, b with
  | Int x, Int y => x <? y
  | _, _ => false
  end.

Definition gtb (a b : num) : bool := ltb b a.

(** [Math.abs]. *)
Definition abs (a : num) : num :=
  match a with
  | Int x => Int (Z.abs x)
  | NaN => NaN
  end.

(** [Math.floor(a / b)] for an integer [a] and a positive integer [b]. *)
Definition floor_div (a b : num) : num :=
  match a, b with
  | Int x, Int y => if y =? 0 then NaN else Int (x / y)
  | _, _ => NaN
  end.

(** [a % b]: the remainder has the sign of the dividend. *)
Definition rem (a b : num) : num :=
  match a, b with
  | Int x, Int y => if y =? 0 then NaN else Int (Z.rem x y)
  | _, _ => NaN
  end.

(** Truthiness of a number: [0] and [NaN] are falsy. *)
Definition truthy (a : num) : bool :=
  match a with
  | Int x => negb (x =? 0)
  | NaN => false
  end.

Definition is_int (a : num) : bool :=
  match a with
  | Int _ => true
  | NaN => false
  end.

Definition to_Z (a : num) : Z :=
  match a with
  | Int x => x
  | NaN => 0
  end.

(** The sum of a list of numbers, added left to right from [0]. *)
Definition sum (l : list num) : num := foldl add (Int 0) l.

End Num.

(** ** JavaScript strings *)

Module Str.

(** A non-empty string is truthy. *)
Definition truthy (s : string) : bool :=
  match s with
  | EmptyString => false
  | String _ _ => true
  end.

(** [s.slice(0, n)]. *)
Fixpoint take (n : nat) (s : string) : string :=
  match n, s with
  | S n', String c s' => String c (take n' s')
  | _, _ => EmptyString
  end.

Fixpoint replicate (n : nat) (c : ascii) : string :=
  match n with
  | O => EmptyString
  | S n' => String c (replicate n' c)
  end.

(** [s.padStart(n, c)] for a one-character filler. *)
Definition padStart (n : nat) (c : ascii) (s : string) : string :=
  replicate (n - String.length s) c +:+ s.

(** [s.split(sep)] for a one-character separator; the result is never
    empty. *)
Fixpoint split (sep : ascii) (s : string) : list string :=
  match s with
  | EmptyString => [EmptyString]
  | String c s' =>
      if Ascii.eqb c sep then EmptyString :: split sep s'
      else match split sep s' with
           | h :: t => String c h :: t
           | [] => [String c EmptyString]
           end
  end.

(** The value of a decimal digit character. *)
Definition digit_of_ascii (c : ascii) : option Z :=
  let n := Z.of_nat (nat_of_ascii c) in
  if (48 <=? n) && (n <=? 57) then Some (n - 48) else None.

Definition is_digit (c : ascii) : bool :=
  match digit_of_ascii c with Some _ => true | None => false end.

Fixpoint all_digits (s : string) : bool :=
  match s with
  | EmptyString => true
  | String c s' => is_digit c && all_digits s'
  end.

(** The number written by a string of digits, most significant first,
    after the digits already read into [acc]. *)
Fixpoint digits_value (acc : Z) (s : string) : option Z :=
  match s with
  | EmptyString => Some acc
  | String c s' =>
      match digit_of_ascii c with
      | Some d => digits_value (10 * acc + d) s'
      | None => None
      end
  end.

(** The value of a string of digits; [0] for anything else. *)
Definition value (s : string) : Z := default 0 (digits_value 0 s).

Definition digit_char (d : Z) : ascii := ascii_of_nat (48 + Z.to_nat d).

(** The decimal digits of [n >= 0] in front of [acc]; [fuel] bounds the
    number of digits after the first. *)
Fixpoint decimal_digits (fuel : nat) (n : Z) (acc : string) : string :=
  let acc' := String (digit_char (n mod 10)) acc in
  match fuel with
  | O => acc'
  | S fuel' => if n <? 10 then acc' else decimal_digits fuel' (n / 10) acc'
  end.

(** The decimal numeral of [n >= 0]: [Z.log2 n] is at least the number of
    its digits less one. *)
Definition of_nonneg (n : Z) : string :=
  decimal_digits (Z.to_nat (Z.log2 n)) n EmptyString.

End Str.

(** [Number(s)] on signed digit strings and the empty string.  The value
    given is the exact one, which is the code's as long as it is at most
    2^53 in absolute value; on longer strings of digits the code rounds.
    Every other string is [NaN] here, among them the strings with blanks
    around, an exponent or a radix prefix, which the code reads as
    numbers. *)
Definition unsigned_literal (s : string) : num :=
  match s with
  | EmptyString => NaN
  | String _ _ =>
      match Str.digits_value 0 s with
      | Some v => Int v
      | None => NaN
      end
  end.

Definition Number_ (s : string) : num :=
  match s with
  | EmptyString => Int 0
  | String c s' =>
      if Ascii.eqb c "-" then Num.mul (Int (-1)) (unsigned_literal s')
      else if Ascii.eqb c "+" then unsigned_literal s'
      else unsigned_literal s
  end.

(** [String(n)] for [NaN] and for an integer below 10^21 in absolute
    value, from where on the code prints an exponent. *)
Definition String_ (n : num) : string :=
  match n with
  | NaN => "NaN"
  | Int z => if z <? 0 then "-" +:+ Str.of_nonneg (Z.abs z) else Str.of_nonneg z
  end.

(** ** Amounts and fils *)

(** [amountToFils]: the amounts reaching it are strings (form fields and
    prompt answers), so [String(amount)] is the identity. *)
Definition amountToFils (amount : string) : num :=
  let str := amount in
  let parts := Str.split "." str in
  let intPart := default EmptyString (parts !! 0%nat) in
  let decPart := default EmptyString (parts !! 1%nat) in
  let paddedDec := Str.take 3 (decPart +:+ "000") in
  let value := Num.add (Num.mul (Number_ intPart) (Int 1000)) (Number_ paddedDec) in
  value.

Definition filsToAmountString (filsInt : num) : string :=
  let isNegative := Num.ltb filsInt (Int 0) in
  let v := Num.abs filsInt in
  let intPart := Num.floor_div v (Int 1000) in
  let decPart := Str.padStart 3 "0" (String_ (Num.rem v (Int 1000))) in
  (if isNegative then "-" else "") +:+ String_ intPart +:+ "." +:+ decPart.

Definition formatCurrency (amountFils : num) (currency : string) : string :=
  if String.eqb currency "KWD" then "KWD " +:+ filsToAmountString amountFils
  else currency +:+ " " +:+ filsToAmountString amountFils.

(** ** The month ledger *)

Module Income.
Record t : Type := Build
  { date : string; source : string; amountFils : num;
    currency : string; notes : string }.
End Income.

Module Expense.
Record t : Type := Build
  { date : string; category : string; amountFils : num;
    currency : string; method : string; notes : string }.
End Expense.

(** A lending entry has no [notes] property; editing stores
    [prompt(...) || entry.notes] in [reason], which is [undefined] ([None])
    when the prompt is cancelled or left empty. *)
Module Lending.
Record t : Type := Build
  { date : string; name : string; amountFils : num;
    currency : string; reason : option string;
    type : string; status : string }.
End Lending.

Record monthData : Type := MonthData
  { income : list Income.t;
    expenses : list Expense.t;
    lending : list Lending.t;
    wallet : num;     (* KWD fils *)
    savings : num }.  (* KWD fils *)

(** [loadMonthData]: the stored ledger of the month, or a fresh one when
    local storage has nothing under the month's key. *)
Definition loadMonthData (stored : option monthData) : monthData :=
  match stored with
  | None =>
      {| income := []; expenses := []; lending := [];
         wallet := Int 0; savings := Int 0 |}
  | Some data => data
  end.

Definition set_income (l : list Income.t) (md : monthData) : monthData :=
  {| income := l; expenses := expenses md; lending := lending md;
     wallet := wallet md; savings := savings md |}.

Definition set_expenses (l : list Expense.t) (md : monthData) : monthData :=
  {| income := income md; expenses := l; lending := lending md;
     wallet := wallet md; savings := savings md |}.

Definition set_lending (l : list Lending.t) (md : monthData) : monthData :=
  {| income := income md; expenses := expenses md; lending := l;
     wallet := wallet md; savings := savings md |}.

Definition set_wallet (w : num) (md : monthData) : monthData :=
  {| income := income md; expenses := expenses md; lending := lending md;
     wallet := w; savings := savings md |}.

Definition set_savings (s : num) (md : monthData) : monthData :=
  {| income := income md; expenses := expenses md; lending := lending md;
     wallet := wallet md; savings := s |}.

(** ** Totals per currency *)

(** [ensureCurrency(obj, currency)]: [if (!obj[currency]) obj[currency] = 0],
    for a currency that the object does not inherit ([ownName]): an
    inherited property would be read instead of a missing one. *)
Definition ensureCurrency (obj : gmap string num) (currency : string)
  : gmap string num :=
  match obj !! currency with
  | Some v => if Num.truthy v then obj else <[currency := Int 0]> obj
  | None => <[currency := Int 0]> obj
  end.

(** [obj[currency] += amountFils], for a currency that the object does not
    inherit ([ownName]); a missing property reads [undefined], and
    [undefined + n] is [NaN]. *)
Definition addAssign (obj : gmap string num) (currency : string)
  (amountFils : num) : gmap string num :=
  <[currency := Num.add (default NaN (obj !! currency)) amountFils]> obj.

Definition calculateTotals (md : monthData)
  : gmap string num * gmap string num :=
  let incomeTotals :=
    foldl (fun obj entry =>
             addAssign (ensureCurrency obj (Income.currency entry))
               (Income.currency entry) (Income.amountFils entry))
      ∅ (income md) in
  let expenseTotals :=
    foldl (fun obj entry =>
             addAssign (ensureCurrency obj (Expense.currency entry))
               (Expense.currency entry) (Expense.amountFils entry))
      ∅ (expenses md) in
  (incomeTotals, expenseTotals).

(** [renderLBSummary]: the two objects [toReceive] and [toPayBack] it
    builds before printing them. *)
Definition renderLBSummary (md : monthData)
  : gmap string num * gmap string num :=
  foldl (fun '(toReceive, toPayBack) entry =>
           if String.eqb (Lending.status entry) "pending" then
             if String.eqb (Lending.type entry) "lend" then
               (addAssign (ensureCurrency toReceive (Lending.currency entry))
                  (Lending.currency entry) (Lending.amountFils entry),
                toPayBack)
             else if String.eqb (Lending.type entry) "borrow" then
               (toReceive,
                addAssign (ensureCurrency toPayBack (Lending.currency entry))
                  (Lending.currency entry) (Lending.amountFils entry))
             else (toReceive, toPayBack)
           else (toReceive, toPayBack))
    (∅, ∅) (lending md).

(** ** Form handlers

    The arguments are the field values the handler reads (text fields
    after [trim()]). *)

Definition incomeSubmit (date source amountStr currency notes : string)
  (md : monthData) : monthData :=
  if negb (Str.truthy date) || negb (Str.truthy source)
     || negb (Str.truthy amountStr) then md
  else
    let amountFils := amountToFils amountStr in
    let entry := Income.Build date source amountFils currency notes in
    let md := set_income (income md ++ [entry]) md in
    let md :=
      if String.eqb currency "KWD"
      then set_wallet (Num.add (wallet md) amountFils) md
      else md in
    md.

Definition expenseSubmit
  (date category amountStr currency method notes : string)
  (md : monthData) : monthData :=
  if negb (Str.truthy date) || negb (Str.truthy category)
     || negb (Str.truthy amountStr) then md
  else
    let amountFils := amountToFils amountStr in
    let entry := Expense.Build date category amountFils currency method notes in
    let md := set_expenses (expenses md ++ [entry]) md in
    let md :=
      if String.eqb currency "KWD" then
        if String.eqb method "wallet"
        then set_wallet (Num.sub (wallet md) amountFils) md
        else if String.eqb method "bank"
        then set_savings (Num.sub (savings md) amountFils) md
        else md
      else md in
    md.

Definition lbSubmit
  (date name amountStr currency reason type status : string)
  (md : monthData) : monthData :=
  if negb (Str.truthy date) || negb (Str.truthy name)
     || negb (Str.truthy amountStr) then md
  else
    let amountFils := amountToFils amountStr in
    let entry :=
      Lending.Build date name amountFils currency (Some reason) type status in
    set_lending (lending md ++ [entry]) md.

(** ** Edit and delete *)

(** The [data-type] attribute of a row's buttons: the render functions set
    it to ["income"], ["expense"] or ["lending"]. *)
Inductive dataType : Type :=
  | income_row
  | expense_row
  | lending_row.

(** The answer to a [prompt]: [None] when it is cancelled ([null]). *)
Definition answer : Type := option string.

(** [answer || fallback]. *)
Definition orElse (a : answer) (fallback : string) : string :=
  match a with
  | Some s => if Str.truthy s then s else fallback
  | None => fallback
  end.

(** The answers to the prompts of [handleEdit], in the order asked; the
    method is asked for an expense only, type and status for a lending
    entry only. *)
Record editAnswers : Type := EditAnswers
  { newDate : answer;
    newMainField : answer;
    newAmountStr : answer;
    newCurrency : answer;
    newNotes : answer;
    newMethod : answer;
    newType : answer;
    newStatus : answer }.

(** [newAmountStr ? amountToFils(newAmountStr) : entry.amountFils]. *)
Definition newAmountFils (a : answer) (old : num) : num :=
  match a with
  | Some s => if Str.truthy s then amountToFils s else old
  | None => old
  end.

Definition handleEdit (type : dataType) (index : nat) (ans : editAnswers)
  (md : monthData) : monthData :=
  match type with
  | income_row =>
      match income md !! index with
      | None => md
      | Some entry =>
          (* revert the old impact *)
          let md :=
            if String.eqb (Income.currency entry) "KWD"
            then set_wallet (Num.sub (wallet md) (Income.amountFils entry)) md
            else md in
          (* update the entry in place *)
          let entry :=
            Income.Build
              (orElse (newDate ans) (Income.date entry))
              (orElse (newMainField ans) (Income.source entry))
              (newAmountFils (newAmountStr ans) (Income.amountFils entry))
              (orElse (newCurrency ans) (Income.currency entry))
              (orElse (newNotes ans) (Income.notes entry)) in
          let md := set_income (<[index := entry]> (income md)) md in
          (* apply the new impact *)
          if String.eqb (Income.currency entry) "KWD"
          then set_wallet (Num.add (wallet md) (Income.amountFils entry)) md
          else md
      end
  | expense_row =>
      match expenses md !! index with
      | None => md
      | Some entry =>
          let md :=
            if String.eqb (Expense.currency entry) "KWD" then
              if String.eqb (Expense.method entry) "wallet"
              then set_wallet (Num.add (wallet md) (Expense.amountFils entry)) md
              else if String.eqb (Expense.method entry) "bank"
              then set_savings (Num.add (savings md) (Expense.amountFils entry)) md
              else md
            else md in
          let entry :=
            Expense.Build
              (orElse (newDate ans) (Expense.date entry))
              (orElse (newMainField ans) (Expense.category entry))
              (newAmountFils (newAmountStr ans) (Expense.amountFils entry))
              (orElse (newCurrency ans) (Expense.currency entry))
              (orElse (newMethod ans) (Expense.method entry))
              (orElse (newNotes ans) (Expense.notes entry)) in
          let md := set_expenses (<[index := entry]> (expenses md)) md in
          if String.eqb (Expense.currency entry) "KWD" then
            if String.eqb (Expense.method entry) "wallet"
            then set_wallet (Num.sub (wallet md) (Expense.amountFils entry)) md
            else if String.eqb (Expense.method entry) "bank"
            then set_savings (Num.sub (savings md) (Expense.amountFils entry)) md
            else md
          else md
      end
  | lending_row =>
      match lending md !! index with
      | None => md
      | Some entry =>
          let entry :=
            Lending.Build
              (orElse (newDate ans) (Lending.date entry))
              (orElse (newMainField ans) (Lending.name entry))
              (newAmountFils (newAmountStr ans) (Lending.amountFils entry))
              (orElse (newCurrency ans) (Lending.currency entry))
              (match newNotes ans with
               | Some s => if Str.truthy s then Some s else None
               | None => None
               end)
              (orElse (newType ans) (Lending.type entry))
              (orElse (newStatus ans) (Lending.status entry)) in
          set_lending (<[index := entry]> (lending md)) md
      end
  end.

(** [confirmed] is the answer to [confirm("Delete this entry?")];
    [splice(index, 1)] removes the entry at [index]. *)
Definition handleDelete (type : dataType) (index : nat) (confirmed : bool)
  (md : monthData) : monthData :=
  if negb confirmed then md
  else
    match type with
    | income_row =>
        match income md !! index with
        | None => md
        | Some entry =>
            let md :=
              if String.eqb (Income.currency entry) "KWD"
              then set_wallet (Num.sub (wallet md) (Income.amountFils entry)) md
              else md in
            set_income (delete index (income md)) md
        end
    | expense_row =>
        match expenses md !! index with
        | None => md
        | Some entry =>
            let md :=
              if String.eqb (Expense.currency entry) "KWD" then
                if String.eqb (Expense.method entry) "wallet"
                then set_wallet (Num.add (wallet md) (Expense.amountFils entry)) md
                else if String.eqb (Expense.method entry) "bank"
                then set_savings (Num.add (savings md) (Expense.amountFils entry)) md
                else md
              else md in
            set_expenses (delete index (expenses md)) md
        end
    | lending_row =>
        match lending md !! index with
        | None => md
        | Some entry => set_lending (delete index (lending md)) md
        end
    end.

(** ** Savings management

    Each handler returns the ledger and the message it alerts, if any. *)

Definition walletToSavings (amountStr : answer) (md : monthData)
  : monthData * option string :=
  match amountStr with
  | None => (md, None)
  | Some amountStr =>
      if negb (Str.truthy amountStr) then (md, None)
      else
        let amountFils := amountToFils amountStr in
        if Num.leb amountFils (Int 0) || Num.gtb amountFils (wallet md)
        then (md, Some "Invalid amount (check wallet balance).")
        else
          let md := set_wallet (Num.sub (wallet md) amountFils) md in
          let md := set_savings (Num.add (savings md) amountFils) md in
          (md, None)
  end.

Definition incomeToSavings (amountStr : answer) (md : monthData)
  : monthData * option string :=
  match amountStr with
  | None => (md, None)
  | Some amountStr =>
      if negb (Str.truthy amountStr) then (md, None)
      else
        let amountFils := amountToFils amountStr in
        if Num.leb amountFils (Int 0)
        then (md, Some "Invalid amount.")
        else (set_savings (Num.add (savings md) amountFils) md, None)
  end.

(** ** Sequences of user actions *)

Inductive action : Type :=
  | SubmitIncome (date source amountStr currency notes : string)
  | SubmitExpense (date category amountStr currency method notes : string)
  | SubmitLending (date name amountStr currency reason type status : string)
  | ClickEdit (type : dataType) (index : nat) (ans : editAnswers)
  | ClickDelete (type : dataType) (index : nat) (confirmed : bool)
  | ClickWalletToSavings (amountStr : answer)
  | ClickIncomeToSavings (amountStr : answer).

Definition step (a : action) (md : monthData) : monthData :=
  match a with
  | SubmitIncome date source amountStr currency notes =>
      incomeSubmit date source amountStr currency notes md
  | SubmitExpense date category amountStr currency method notes =>
      expenseSubmit date category amountStr currency method notes md
  | SubmitLending date name amountStr currency reason type status =>
      lbSubmit date name amountStr currency reason type status md
  | ClickEdit type index ans => handleEdit type index ans md
  | ClickDelete type index confirmed => handleDelete type index confirmed md
  | ClickWalletToSavings amountStr => fst (walletToSavings amountStr md)
  | ClickIncomeToSavings amountStr => fst (incomeToSavings amountStr md)
  end.

Fixpoint run (acts : list action) (md : monthData) : monthData :=
  match acts with
  | [] => md
  | a :: acts' => run acts' (step a md)
  end.

(** The amount a transfer click moved: the amount typed, when the prompt
    was answered and nothing was alerted. *)
Definition transferred (amountStr : answer) (alerted : option string) : num :=
  match amountStr, alerted with
  | Some s, None => if Str.truthy s then amountToFils s else Int 0
  | _, _ => Int 0
  end.

(** The amount [a] moves from the wallet to savings in the ledger [md]. *)
Definition movedBy (a : action) (md : monthData) : num :=
  match a with
  | ClickWalletToSavings amountStr =>
      transferred amountStr (snd (walletToSavings amountStr md))
  | _ => Int 0
  end.

(** The amount [a] credits to savings without debiting the wallet. *)
Definition creditedBy (a : action) (md : monthData) : num :=
  match a with
  | ClickIncomeToSavings amountStr =>
      transferred amountStr (snd (incomeToSavings amountStr md))
  | _ => Int 0
  end.

(** The totals moved and credited along a run. *)
Fixpoint movedToSavings (acts : list action) (md : monthData) : num :=
  match acts with
  | [] => Int 0
  | a :: acts' => Num.add (movedBy a md) (movedToSavings acts' (step a md))
  end.

Fixpoint creditedToSavings (acts : list action) (md : monthData) : num :=
  match acts with
  | [] => Int 0
  | a :: acts' => Num.add (creditedBy a md) (creditedToSavings acts' (step a md))
  end.

(** A numeral is a string for which [amountToFils] gives an integer.  An
    action is numeric when the amount it carries for an income entry, an
    expense entry or a transfer is a numeral; the amounts of lending entries
    are free. *)
Definition numeral (s : string) : bool := Num.is_int (amountToFils s).

Definition numeral_answer (a : answer) : bool :=
  match a with
  | Some s => if Str.truthy s then numeral s else true
  | None => true
  end.

Definition numeric (a : action) : bool :=
  match a with
  | SubmitIncome _ _ amountStr _ _ => numeral amountStr
  | SubmitExpense _ _ amountStr _ _ _ => numeral amountStr
  | SubmitLending _ _ _ _ _ _ _ => true
  | ClickEdit lending_row _ _ => true
  | ClickEdit _ _ ans => numeral_answer (newAmountStr ans)
  | ClickDelete _ _ _ => true
  | ClickWalletToSavings amountStr => numeral_answer amountStr
  | ClickIncomeToSavings amountStr => numeral_answer amountStr
  end.

(** ** The balances in closed form *)

Definition isKWD (currency : string) : bool := String.eqb currency "KWD".

(** The live KWD income, and the live KWD expenses paid from the wallet and
    from the bank. *)
Definition kwdIncome (md : monthData) : num :=
  Num.sum (Income.amountFils <$>
             filter (fun e => isKWD (Income.currency e) = true) (income md)).

Definition kwdWalletExpenses (md : monthData) : num :=
  Num.sum (Expense.amountFils <$>
             filter (fun e => isKWD (Expense.currency e) = true
                              /\ Expense.method e = "wallet") (expenses md)).

Definition kwdBankExpenses (md : monthData) : num :=
  Num.sum (Expense.amountFils <$>
             filter (fun e => isKWD (Expense.currency e) = true
                              /\ Expense.method e = "bank") (expenses md)).

(** The entries of a currency, for the totals. *)
Definition amountsIn {E : Type} (currency : E -> string) (amountFils : E -> num)
  (c : string) (l : list E) : list num :=
  amountFils <$> filter (fun e => currency e = c) l.

(** The effect of a live entry on the balances, in fils: a KWD income adds
    to the wallet, a KWD expense takes from the wallet or from the bank
    according to its method. *)
Definition incomeEffect (e : Income.t) : Z :=
  if isKWD (Income.currency e) then Num.to_Z (Income.amountFils e) else 0.

Definition walletExpenseEffect (e : Expense.t) : Z :=
  if isKWD (Expense.currency e) && String.eqb (Expense.method e) "wallet"
  then Num.to_Z (Expense.amountFils e) else 0.

Definition bankExpenseEffect (e : Expense.t) : Z :=
  if isKWD (Expense.currency e) && String.eqb (Expense.method e) "bank"
  then Num.to_Z (Expense.amountFils e) else 0.

Definition total {E : Type} (f : E -> Z) (l : list E) : Z :=
  foldr (fun e acc => f e + acc) 0 l.

Arguments total {E} f l : simpl never.

(** What the wallet holds beyond the live entries' effects, and the
    same for savings. *)
Definition walletSlack (md : monthData) : Z :=
  Num.to_Z (wallet md) - total incomeEffect (income md)
  + total walletExpenseEffect (expenses md).

Definition savingsSlack (md : monthData) : Z :=
  Num.to_Z (savings md) + total bankExpenseEffect (expenses md).

(** A ledger without [NaN]: the balances and the amounts of the income and
    expense entries are integers. *)
Definition integral (md : monthData) : Prop :=
  Num.is_int (wallet md) = true /\
  Num.is_int (savings md) = true /\
  Forall (fun e => Num.is_int (Income.amountFils e) = true) (income md) /\
  Forall (fun e => Num.is_int (Expense.amountFils e) = true) (expenses md).

(** [md'] is again without [NaN], and against [md] its wallet lost [m] fils
    and its savings gained [m + c] fils beyond what the live entries
    explain. *)
Definition preserves (md md' : monthData) (m c : Z) : Prop :=
  integral md' /\
  walletSlack md' = walletSlack md - m /\
  savingsSlack md' = savingsSlack md + m + c.

(** ** The specification's decimal numerals

    The texts the specification of [parseDecimal] calls valid: an optional
    minus sign, one or more digits, and optionally a dot followed by one or
    more digits. *)
Definition spec_decimal_numeral (text : string) : bool :=
  let body :=
    match text with
    | String c rest => if Ascii.eqb c "-" then rest else text
    | EmptyString => text
    end in
  match Str.split "." body with
  | [i] => Str.truthy i && Str.all_digits i
  | [i; f] => Str.truthy i && Str.all_digits i && Str.truthy f && Str.all_digits f
  | _ => false
  end.

(** ** The range of exact arithmetic

    The numbers of the code are doubles.  Every integer of absolute value
    up to 2^53 is a double, and a sum, a difference or a product of two such
    integers that is again in that range is computed exactly, as [Num]
    computes it.  Beyond the range the code rounds (and [String] switches to
    exponent notation from 10^21), where [Num] and [String_] do not: the
    properties that rest on exact arithmetic are stated within the range. *)

(** [Number.MAX_SAFE_INTEGER]. *)
Definition MAX_SAFE_INTEGER : Z := 2 ^ 53 - 1.

(** [Number.isSafeInteger(n)]. *)
Definition isSafeInteger (n : num) : bool :=
  match n with
  | Int z => Z.abs z <=? MAX_SAFE_INTEGER
  | NaN => false
  end.

(** The absolute values of a list of amounts, added up. *)
Definition magnitude (l : list num) : Z :=
  foldr (fun n acc => Z.abs (Num.to_Z n) + acc) 0 l.

(** Amounts that are integers and whose absolute values add up to a safe
    integer: every running total over such a list, of all of it or of a part
    of it, is a safe integer. *)
Definition safeAmounts (l : list num) : bool :=
  forallb Num.is_int l && (magnitude l <=? MAX_SAFE_INTEGER).

(** Half the range.  A balance and a stored amount that are both within
    2^52 add and subtract exactly, also in the step of an edit that first
    takes the old amount back and then applies the new one. *)
Definition inRange (n : num) : bool :=
  match n with
  | Int z => Z.abs z <=? 2 ^ 52
  | NaN => false
  end.

(** The balances and the amounts of the income and expense entries are
    within half the range. *)
Definition ledgerInRange (md : monthData) : bool :=
  inRange (wallet md) && inRange (savings md)
  && forallb (fun e => inRange (Income.amountFils e)) (income md)
  && forallb (fun e => inRange (Expense.amountFils e)) (expenses md).

(** Every ledger that a run goes through, from the first to the last, is
    within half the range. *)
Fixpoint runInRange (acts : list action) (md : monthData) : bool :=
  ledgerInRange md &&
  match acts with
  | [] => true
  | a :: acts' => runInRange acts' (step a md)
  end.

(** ** Property names

    The totals objects are made by [{}] and so inherit the properties of
    [Object.prototype]: under one of these names [obj[currency]] reads the
    inherited value, which is truthy, instead of [undefined]. *)
Definition Object_prototype_names : list string :=
  [ "constructor"; "hasOwnProperty"; "isPrototypeOf"; "propertyIsEnumerable";
    "toLocaleString"; "toString"; "valueOf"; "__proto__";
    "__defineGetter__"; "__defineSetter__";
    "__lookupGetter__"; "__lookupSetter__" ].

(** A name that a fresh object does not inherit. *)
Definition ownName (key : string) : bool :=
  negb (existsb (String.eqb key) Object_prototype_names).

(** A name written in digits only.  An object enumerates its array indices
    (["0"], ["7"], ["12"], ...) first and in ascending order, whenever they
    were set; every other name comes in the order it was first set. *)
Definition integerLike (key : string) : bool :=
  Str.truthy key && Str.all_digits key.

(** A name that a fresh object does not inherit and that it enumerates in
    insertion order. *)
Definition plainName (key : string) : bool :=
  ownName key && negb (integerLike key).

(** ** Months

    The calendar fields of a valid [Date] that the code reads: the year and
    the month index, from 0 for January. *)
Record Date : Type := MkDate { getFullYear : Z; getMonth : Z }.

Definition getMonthKeyFromDate (date : Date) : string :=
  let y := Int (getFullYear date) in
  let m := Str.padStart 2 "0" (String_ (Num.add (Int (getMonth date)) (Int 1))) in
  String_ y +:+ "-" +:+ m.

(** [Number(x)] for a destructured array element: a missing one is
    [undefined], and [Number(undefined)] is [NaN]. *)
Definition Number_element (x : option string) : num :=
  match x with
  | Some s => Number_ s
  | None => NaN
  end.

(** [new Date(year, monthIndex, 1)], within the range of dates: a year from
    0 to 99 counts from 1900, and a month index outside 0..11 carries into
    the year.  [None] is an invalid date. *)
Definition new_Date (year monthIndex : num) : option Date :=
  match year, monthIndex with
  | Int y, Int m =>
      let y := if (0 <=? y) && (y <=? 99) then 1900 + y else y in
      Some (MkDate (y + m / 12) (m mod 12))
  | _, _ => None
  end.

(** [monthKeyToLabel], up to the date [dt] it builds from the key; the
    wording of the label that [toLocaleString] makes of [dt] belongs to the
    browser's locale. *)
Definition monthKeyToLabel_dt (monthKey : string) : option Date :=
  let parts := Str.split "-" monthKey in
  let y := parts !! 0%nat in
  let m := parts !! 1%nat in
  new_Date (Number_element y) (Num.sub (Number_element m) (Int 1)).

(** ** Local storage

    [localStorage] maps keys to texts.  [JSON.stringify] and [JSON.parse]
    are parameters of the functions that use them. *)

Definition saveMonthData (JSON_stringify : monthData -> string)
  (monthKey : string) (data : monthData) (localStorage : gmap string string)
  : gmap string string :=
  <["budget-" +:+ monthKey := JSON_stringify data]> localStorage.

(** [loadMonthData(monthKey)] on a given storage: [getItem] gives [null]
    for a missing key, and an empty text is falsy as well. *)
Definition loadMonthDataFrom (JSON_parse : string -> monthData)
  (monthKey : string) (localStorage : gmap string string) : monthData :=
  let raw := localStorage !! ("budget-" +:+ monthKey) in
  loadMonthData
    (match raw with
     | Some raw => if Str.truthy raw then Some (JSON_parse raw) else None
     | None => None
     end).

(** The clear-month button: the new [monthData] and storage. *)
Definition clearMonth (JSON_parse : string -> monthData) (confirmed : bool)
  (currentMonthKey : string) (data : monthData)
  (localStorage : gmap string string) : monthData * gmap string string :=
  if negb confirmed then (data, localStorage)
  else
    let localStorage := delete ("budget-" +:+ currentMonthKey) localStorage in
    (loadMonthDataFrom JSON_parse currentMonthKey localStorage, localStorage).

(** ** Savings per currency on the dashboard *)

(** [x || 0] for a property read from a totals object. *)
Definition orZero (x : option num) : num :=
  match x with
  | Some v => if Num.truthy v then v else Int 0
  | None => Int 0
  end.

(** The object [savingsTotals] of [renderDashboard] (and of the PDF
    export): one property for each currency of either totals object. *)
Definition savingsTotalsOf (incomeTotals expenseTotals : gmap string num)
  : gmap string num :=
  let currencies : gset string := dom incomeTotals ∪ dom expenseTotals in
  foldl (fun savingsTotals cur =>
           let inc := orZero (incomeTotals !! cur) in
           let exp := orZero (expenseTotals !! cur) in
           <[cur := Num.sub inc exp]> savingsTotals)
    ∅ (elements currencies).

Definition renderDashboard_savingsTotals (md : monthData) : gmap string num :=
  let '(incomeTotals, expenseTotals) := calculateTotals md in
  savingsTotalsOf incomeTotals expenseTotals.

(** ** Characters of a string *)

Fixpoint has_char (c : ascii) (s : string) : bool :=
  match s with
  | EmptyString => false
  | String c' s' => Ascii.eqb c' c || has_char c s'
  end.

(** ** Rows of a table *)

(** The number of rows the table of a kind shows: one for each entry. *)
Definition rowCount (type : dataType) (md : monthData) : nat :=
  match type with
  | income_row => length (income md)
  | expense_row => length (expenses md)
  | lending_row => length (lending md)
  end.

(** ** Accepting the defaults of an edit

    Each prompt of [handleEdit] is filled with the entry's current value; a
    user who accepts them all answers as follows.  The notes prompt of a
    lending entry is filled with [entry.notes || ""], which is empty since a
    lending entry has no notes. *)
Definition incomeDefaults (entry : Income.t) : editAnswers :=
  {| newDate := Some (Income.date entry);
     newMainField := Some (Income.source entry);
     newAmountStr := Some (filsToAmountString (Income.amountFils entry));
     newCurrency := Some (Income.currency entry);
     newNotes := Some (Income.notes entry);
     newMethod := None; newType := None; newStatus := None |}.

Definition expenseDefaults (entry : Expense.t) : editAnswers :=
  {| newDate := Some (Expense.date entry);
     newMainField := Some (Expense.category entry);
     newAmountStr := Some (filsToAmountString (Expense.amountFils entry));
     newCurrency := Some (Expense.currency entry);
     newNotes := Some (Expense.notes entry);
     newMethod := Some (Expense.method entry);
     newType := None; newStatus := None |}.

Definition lendingDefaults (entry : Lending.t) : editAnswers :=
  {| newDate := Some (Lending.date entry);
     newMainField := Some (Lending.name entry);
     newAmountStr := Some (filsToAmountString (Lending.amountFils entry));
     newCurrency := Some (Lending.currency entry);
     newNotes := Some "";
     newMethod := None;
     newType := Some (Lending.type entry);
     newStatus := Some (Lending.status entry) |}.

(** ** The lists an action can change *)

Definition changesLending (a : action) : bool :=
  match a with
  | SubmitLending _ _ _ _ _ _ _ => true
  | ClickEdit lending_row _ _ => true
  | ClickDelete lending_row _ _ => true
  | _ => false
  end.

Definition changesIncomeOrExpenses (a : action) : bool :=
  match a with
  | SubmitIncome _ _ _ _ _ => true
  | SubmitExpense _ _ _ _ _ _ => true
  | ClickEdit income_row _ _ => true
  | ClickEdit expense_row _ _ => true
  | ClickDelete income_row _ _ => true
  | ClickDelete expense_row _ _ => true
  | _ => false
  end.

(** ** Objects in the order of their properties

    Where the code enumerates an object ([for ... in], [Object.keys]) the
    order of its properties matters: the object is then the list of its
    properties in the order they were first set, which is the order of
    enumeration for names that are not array indices (["0"], ["12"], ...);
    see [plainName]. *)
Fixpoint getProp (obj : list (string * num)) (key : string) : option num :=
  match obj with
  | [] => None
  | (k, v) :: rest => if String.eqb k key then Some v else getProp rest key
  end.

Fixpoint setProp (obj : list (string * num)) (key : string) (v : num)
  : list (string * num) :=
  match obj with
  | [] => [(key, v)]
  | (k, v') :: rest =>
      if String.eqb k key then (k, v) :: rest else (k, v') :: setProp rest key v
  end.

Definition ensureCurrencyIn (obj : list (string * num)) (currency : string)
  : list (string * num) :=
  match getProp obj currency with
  | Some v => if Num.truthy v then obj else setProp obj currency (Int 0)
  | None => setProp obj currency (Int 0)
  end.

Definition addAssignIn (obj : list (string * num)) (currency : string)
  (amountFils : num) : list (string * num) :=
  setProp obj currency (Num.add (default NaN (getProp obj currency)) amountFils).

(** [calculateTotals] with the totals in property order. *)
Definition calculateTotalsIn (md : monthData)
  : list (string * num) * list (string * num) :=
  let incomeTotals :=
    foldl (fun obj entry =>
             addAssignIn (ensureCurrencyIn obj (Income.currency entry))
               (Income.currency entry) (Income.amountFils entry))
      [] (income md) in
  let expenseTotals :=
    foldl (fun obj entry =>
             addAssignIn (ensureCurrencyIn obj (Expense.currency entry))
               (Expense.currency entry) (Expense.amountFils entry))
      [] (expenses md) in
  (incomeTotals, expenseTotals).

(** [parts.join(sep)]. *)
Definition join (sep : string) (parts : list string) : string :=
  match parts with
  | [] => ""
  | p :: rest => foldl (fun s q => s +:+ sep +:+ q) p rest
  end.

Definition totalsToDisplayString (totalsObj : list (string * num)) : string :=
  let parts := (fun '(cur, v) => formatCurrency v cur) <$> totalsObj in
  join " | " parts.

(** [new Set(keys)]: the keys in the order they first occur. *)
Definition newSet (keys : list string) : list string :=
  foldl (fun set key => if bool_decide (key ∈ set) then set else set ++ [key])
    [] keys.

Definition savingsTotalsIn (incomeTotals expenseTotals : list (string * num))
  : list (string * num) :=
  let currencies := newSet ((fst <$> incomeTotals) ++ (fst <$> expenseTotals)) in
  foldl (fun savingsTotals cur =>
           let inc := orZero (getProp incomeTotals cur) in
           let exp := orZero (getProp expenseTotals cur) in
           setProp savingsTotals cur (Num.sub inc exp))
    [] currencies.

(** The texts [renderDashboard] puts on the page. *)
Record dashboard : Type := Dashboard
  { totalIncomeDisplay : string;
    totalExpensesDisplay : string;
    totalSavingsDisplay : string;
    walletBalanceDisplay : string;
    savingsBalanceDisplay : string }.

Definition renderDashboard (md : monthData) : dashboard :=
  let '(incomeTotals, expenseTotals) := calculateTotalsIn md in
  let savingsTotals := savingsTotalsIn incomeTotals expenseTotals in
  {| totalIncomeDisplay :=
       if Nat.eqb (length incomeTotals) 0 then "–"
       else totalsToDisplayString incomeTotals;
     totalExpensesDisplay :=
       if Nat.eqb (length expenseTotals) 0 then "–"
       else totalsToDisplayString expenseTotals;
     totalSavingsDisplay :=
       if Nat.eqb (length savingsTotals) 0 then "–"
       else totalsToDisplayString savingsTotals;
     walletBalanceDisplay := "KWD " +:+ filsToAmountString (wallet md);
     savingsBalanceDisplay := "KWD " +:+ filsToAmountString (savings md) |}.

(** ** The PDF statement

    The export is the list of the calls it makes on the jsPDF document, in
    order.  [label] is the text [monthKeyToLabel(currentMonthKey)], which
    the browser's locale words. *)
Inductive docCall : Type :=
  | SetFontSize (size : Z)
  | Text (text : string) (x y : Z)
  | AddPage
  | Save (filename : string).

(** [s || fallback] for a text. *)
Definition orText (s fallback : string) : string :=
  if Str.truthy s then s else fallback.

Definition incomeLine (entry : Income.t) : string :=
  Income.date entry +:+ " | " +:+ Income.source entry +:+ " | "
  +:+ filsToAmountString (Income.amountFils entry) +:+ " "
  +:+ Income.currency entry +:+ " | " +:+ orText (Income.notes entry) "-".

Definition expenseLine (entry : Expense.t) : string :=
  Expense.date entry +:+ " | " +:+ Expense.category entry +:+ " | "
  +:+ filsToAmountString (Expense.amountFils entry) +:+ " "
  +:+ Expense.currency entry +:+ " | " +:+ Expense.method entry +:+ " | "
  +:+ orText (Expense.notes entry) "-".

Definition lendingLine (entry : Lending.t) : string :=
  Lending.date entry +:+ " | " +:+ Lending.name entry +:+ " | "
  +:+ filsToAmountString (Lending.amountFils entry) +:+ " "
  +:+ Lending.currency entry +:+ " | " +:+ Lending.type entry +:+ " | "
  +:+ Lending.status entry +:+ " | "
  +:+ orText (default "" (Lending.reason entry)) "-".

(** One of the three loops over the entries: a line for each entry at [y],
    then [y += 12], and a new page from the top when [y > 780]. *)
Definition printEntries {E : Type} (line : E -> string) (entries : list E)
  (st : Z * list docCall) : Z * list docCall :=
  foldl (fun '(y, doc) entry =>
           let doc := doc ++ [Text (line entry) 50 y] in
           let y := y + 12 in
           if 780 <? y then (40, doc ++ [AddPage]) else (y, doc))
    st entries.

Definition exportPdf (label currentMonthKey : string) (md : monthData)
  : list docCall :=
  let y := 40 in
  let doc := [SetFontSize 14] in
  let doc := doc ++ [Text ("Personal Budget Statement - " +:+ label) 40 y] in
  let y := y + 20 in
  let doc := doc ++ [SetFontSize 11] in
  let doc := doc ++ [Text "Dashboard:" 40 y] in
  let y := y + 15 in
  let '(incomeTotals, expenseTotals) := calculateTotalsIn md in
  let savingsTotals := savingsTotalsIn incomeTotals expenseTotals in
  let doc := doc ++ [Text ("Total Income: "
                           +:+ orText (totalsToDisplayString incomeTotals) "-") 50 y] in
  let y := y + 15 in
  let doc := doc ++ [Text ("Total Expenses: "
                           +:+ orText (totalsToDisplayString expenseTotals) "-") 50 y] in
  let y := y + 15 in
  let doc := doc ++ [Text ("Total Savings: "
                           +:+ orText (totalsToDisplayString savingsTotals) "-") 50 y] in
  let y := y + 15 in
  let doc := doc ++ [Text ("Wallet (KWD): " +:+ filsToAmountString (wallet md)) 50 y] in
  let y := y + 15 in
  let doc := doc ++ [Text ("Savings (KWD): " +:+ filsToAmountString (savings md)) 50 y] in
  let y := y + 20 in
  (* income list *)
  let doc := doc ++ [SetFontSize 12] in
  let doc := doc ++ [Text "Income:" 40 y] in
  let y := y + 15 in
  let doc := doc ++ [SetFontSize 10] in
  let '(y, doc) := printEntries incomeLine (income md) (y, doc) in
  let y := y + 10 in
  (* expenses list *)
  let doc := doc ++ [SetFontSize 12] in
  let doc := doc ++ [Text "Expenses:" 40 y] in
  let y := y + 15 in
  let doc := doc ++ [SetFontSize 10] in
  let '(y, doc) := printEntries expenseLine (expenses md) (y, doc) in
  let y := y + 10 in
  (* lending and borrowing list *)
  let doc := doc ++ [SetFontSize 12] in
  let doc := doc ++ [Text "Lending & Borrowing:" 40 y] in
  let y := y + 15 in
  let doc := doc ++ [SetFontSize 10] in
  let '(y, doc) := printEntries lendingLine (lending md) (y, doc) in
  doc ++ [Save ("Budget_" +:+ currentMonthKey +:+ ".pdf")].

(** The texts of a document, in the order they are printed. *)
Definition textsOf (doc : list docCall) : list string :=
  omap (fun c => match c with Text s _ _ => Some s | _ => None end) doc.

(** Every text of the document is printed from [top] down to [bottom] at
    most. *)
Definition printedWithin (top bottom : Z) (doc : list docCall) : Prop :=
  Forall (fun c => match c with
                   | Text _ _ y => top <= y <= bottom
                   | _ => True
                   end) doc.

(** ** The texts of the lending summary

    [renderLBSummary] with [toReceive] and [toPayBack] in property order,
    and the two texts it puts on the page. *)
Definition renderLBSummaryIn (md : monthData)
  : list (string * num) * list (string * num) :=
  foldl (fun '(toReceive, toPayBack) entry =>
           if String.eqb (Lending.status entry) "pending" then
             if String.eqb (Lending.type entry) "lend" then
               (addAssignIn (ensureCurrencyIn toReceive (Lending.currency entry))
                  (Lending.currency entry) (Lending.amountFils entry),
                toPayBack)
             else if String.eqb (Lending.type entry) "borrow" then
               (toReceive,
                addAssignIn (ensureCurrencyIn toPayBack (Lending.currency entry))
                  (Lending.currency entry) (Lending.amountFils entry))
             else (toReceive, toPayBack)
           else (toReceive, toPayBack))
    ([], []) (lending md).

Definition renderLBSummary_texts (md : monthData) : string * string :=
  let '(toReceive, toPayBack) := renderLBSummaryIn md in
  ("To receive: "
   +:+ (if Nat.eqb (length toReceive) 0 then "–"
        else totalsToDisplayString toReceive),
   "To pay back: "
   +:+ (if Nat.eqb (length toPayBack) 0 then "–"
        else totalsToDisplayString toPayBack)).

(** * Properties *)

(** ** Strings of digits *)

Section Digits.

Local Open Scope Z_scope.

Lemma app_cons (c : ascii) (s t : string) :
  String c s +:+ t = String c (s +:+ t).
Proof. reflexivity. Qed.

Lemma app_empty_l (t : string) : EmptyString +:+ t = t.
Proof. reflexivity. Qed.

Lemma app_empty_r (s : string) : s +:+ EmptyString = s.
Proof. induction s as [|c s IH]; [reflexivity|]. rewrite app_cons, IH. reflexivity. Qed.

Lemma app_assoc_str (s t u : string) : (s +:+ t) +:+ u = s +:+ (t +:+ u).
Proof.
  induction s as [|c s IH]; [reflexivity|].
  rewrite !app_cons, IH. reflexivity.
Qed.

Lemma length_app_str (s t : string) :
  String.length (s +:+ t) = (String.length s + String.length t)%nat.
Proof.
  induction s as [|c s IH]; [reflexivity|].
  rewrite app_cons. simpl. rewrite IH. reflexivity.
Qed.

Lemma take_app_length (s t : string) :
  Str.take (String.length s) (s +:+ t) = s.
Proof.
  induction s as [|c s IH].
  - destruct t; reflexivity.
  - rewrite app_cons. simpl. rewrite IH. reflexivity.
Qed.

Lemma digit_of_ascii_range (c : ascii) (d : Z) :
  Str.digit_of_ascii c = Some d -> 0 <= d <= 9.
Proof.
  unfold Str.digit_of_ascii.
  destruct (_ && _) eqn:E; [|discriminate].
  intros [= <-]. apply andb_prop in E as [E1 E2]. lia.
Qed.

Lemma is_digit_Some (c : ascii) :
  Str.is_digit c = true -> exists d, Str.digit_of_ascii c = Some d /\ 0 <= d <= 9.
Proof.
  unfold Str.is_digit. destruct (Str.digit_of_ascii c) as [d|] eqn:E; [|discriminate].
  intros _. exists d. split; [reflexivity|]. eapply digit_of_ascii_range, E.
Qed.

Lemma is_digit_not_dot (c : ascii) : Str.is_digit c = true -> Ascii.eqb c "." = false.
Proof.
  destruct (Ascii.eqb c ".") eqn:E; [|reflexivity].
  apply Ascii.eqb_eq in E. subst c. discriminate.
Qed.

Lemma is_digit_not_sign (c : ascii) :
  Str.is_digit c = true -> Ascii.eqb c "-" = false /\ Ascii.eqb c "+" = false.
Proof.
  intros H. split.
  - destruct (Ascii.eqb c "-") eqn:E; [|reflexivity].
    apply Ascii.eqb_eq in E. subst c. discriminate.
  - destruct (Ascii.eqb c "+") eqn:E; [|reflexivity].
    apply Ascii.eqb_eq in E. subst c. discriminate.
Qed.

Lemma all_digits_app (s t : string) :
  Str.all_digits (s +:+ t) = Str.all_digits s && Str.all_digits t.
Proof.
  induction s as [|c s IH]; [reflexivity|].
  rewrite app_cons. simpl. rewrite IH, andb_assoc. reflexivity.
Qed.

(** Reading a string of digits shifts what was read before. *)
Lemma digits_value_acc (s : string) (acc : Z) :
  Str.all_digits s = true ->
  Str.digits_value acc s = Some (acc * 10 ^ Z.of_nat (String.length s) + Str.value s).
Proof.
  unfold Str.value. revert acc.
  induction s as [|c s IH]; intros acc H.
  - simpl. f_equal. lia.
  - simpl in H. apply andb_prop in H as [Hc Hs].
    destruct (is_digit_Some c Hc) as (d & Hd & _).
    cbn [Str.digits_value String.length]. rewrite Hd.
    rewrite (IH (10 * acc + d) Hs), (IH (10 * 0 + d) Hs).
    simpl default. f_equal.
    rewrite Nat2Z.inj_succ, Z.pow_succ_r by lia. lia.
Qed.

Lemma digits_value_value (s : string) :
  Str.all_digits s = true -> Str.digits_value 0 s = Some (Str.value s).
Proof. intros H. rewrite digits_value_acc by exact H. f_equal. Qed.

Lemma value_app (s t : string) :
  Str.all_digits s = true -> Str.all_digits t = true ->
  Str.value (s +:+ t) = Str.value s * 10 ^ Z.of_nat (String.length t) + Str.value t.
Proof.
  intros Hs Ht. unfold Str.value at 1.
  assert (G : forall acc, Str.digits_value acc (s +:+ t)
                = Str.digits_value (acc * 10 ^ Z.of_nat (String.length s) + Str.value s) t).
  { clear Ht. induction s as [|c s IH]; intros acc.
    - rewrite app_empty_l. simpl. f_equal. unfold Str.value. simpl. lia.
    - simpl in Hs. apply andb_prop in Hs as [Hc Hs].
      destruct (is_digit_Some c Hc) as (d & Hd & _).
      rewrite app_cons. cbn [Str.digits_value]. rewrite Hd, (IH Hs).
      f_equal. unfold Str.value at 2. cbn [Str.digits_value]. rewrite Hd.
      rewrite (digits_value_acc s _ Hs). simpl default.
      cbn [String.length]. rewrite Nat2Z.inj_succ, Z.pow_succ_r by lia. lia. }
  rewrite G, (digits_value_acc t _ Ht). simpl. lia.
Qed.

Lemma value_bounds (s : string) :
  Str.all_digits s = true -> 0 <= Str.value s < 10 ^ Z.of_nat (String.length s).
Proof.
  induction s as [|c s IH]; intros H.
  - unfold Str.value. simpl. lia.
  - simpl in H. apply andb_prop in H as [Hc Hs].
    destruct (is_digit_Some c Hc) as (d & Hd & Hr).
    specialize (IH Hs).
    assert (E : Str.value (String c s)
                = d * 10 ^ Z.of_nat (String.length s) + Str.value s).
    { unfold Str.value at 1. cbn [Str.digits_value]. rewrite Hd.
      rewrite (digits_value_acc s _ Hs). simpl. lia. }
    rewrite E. cbn [String.length]. rewrite Nat2Z.inj_succ, Z.pow_succ_r by lia.
    nia.
Qed.

End Digits.

(** ** Parsing numerals *)

Section Parsing.

Local Open Scope Z_scope.

Lemma unsigned_literal_digits (s : string) :
  Str.all_digits s = true -> s <> EmptyString ->
  unsigned_literal s = Int (Str.value s).
Proof.
  intros H Hne. destruct s as [|c s]; [congruence|].
  unfold unsigned_literal. rewrite (digits_value_value _ H). reflexivity.
Qed.

Lemma Number_digits (s : string) :
  Str.all_digits s = true -> Number_ s = Int (Str.value s).
Proof.
  intros H. destruct s as [|c s]; [reflexivity|].
  pose proof H as H'. simpl in H'. apply andb_prop in H' as [Hc _].
  destruct (is_digit_not_sign c Hc) as [E1 E2].
  unfold Number_. rewrite E1, E2.
  apply unsigned_literal_digits; [exact H|discriminate].
Qed.

Lemma Number_minus_digits (s : string) :
  Str.all_digits s = true -> s <> EmptyString ->
  Number_ (String "-" s) = Int (- Str.value s).
Proof.
  intros H Hne. unfold Number_. simpl Ascii.eqb.
  rewrite (unsigned_literal_digits s H Hne). simpl. f_equal; lia.
Qed.

(** A string without a dot is its own single part. *)
Lemma split_digits (s : string) :
  Str.all_digits s = true -> Str.split "." s = [s].
Proof.
  induction s as [|c s IH]; intros H; [reflexivity|].
  simpl in H. apply andb_prop in H as [Hc Hs].
  cbn [Str.split]. rewrite (is_digit_not_dot c Hc), (IH Hs). reflexivity.
Qed.

Lemma split_minus (s : string) :
  Str.split "." s = [s] -> Str.split "." (String "-" s) = [String "-" s].
Proof. intros H. cbn [Str.split]. simpl Ascii.eqb. rewrite H. reflexivity. Qed.

Lemma split_app_dot (ip rest : string) :
  Str.split "." ip = [ip] ->
  Str.split "." (ip +:+ String "." rest) = ip :: Str.split "." rest.
Proof.
  induction ip as [|c ip IH]; intros H.
  - reflexivity.
  - rewrite app_cons. cbn [Str.split] in *.
    destruct (Ascii.eqb c "."); [discriminate|].
    destruct (Str.split "." ip) as [|h t] eqn:E; [|].
    + destruct ip; simpl in E; [discriminate|].
      destruct (Ascii.eqb _ _); [discriminate|].
      destruct (Str.split "." ip); discriminate.
    + injection H as -> ->. rewrite (IH eq_refl). reflexivity.
Qed.

(** [amountToFils] on [ip.fp] when neither part has a dot. *)
Lemma amountToFils_dot (ip fp : string) :
  Str.split "." ip = [ip] -> Str.split "." fp = [fp] ->
  amountToFils (ip +:+ "." +:+ fp)
  = Num.add (Num.mul (Number_ ip) (Int 1000)) (Number_ (Str.take 3 (fp +:+ "000"))).
Proof.
  intros Hi Hf. unfold amountToFils.
  change ("." +:+ fp) with (String "." fp).
  rewrite (split_app_dot ip fp Hi), Hf. reflexivity.
Qed.

Lemma amountToFils_nodot (ip : string) :
  Str.split "." ip = [ip] ->
  amountToFils ip = Num.mul (Number_ ip) (Int 1000).
Proof.
  intros Hi. unfold amountToFils. rewrite Hi.
  change (Num.add (Num.mul (Number_ ip) (Int 1000)) (Int 0)
          = Num.mul (Number_ ip) (Int 1000)).
  destruct (Number_ ip); simpl; [reflexivity|f_equal; lia].
Qed.

(** The first three characters of the padded fraction are digits, and
    their value is the fraction scaled to thousandths and cut off. *)
Lemma padded_fraction (fp : string) :
  Str.all_digits fp = true ->
  let paddedDec := Str.take 3 (fp +:+ "000") in
  Str.all_digits paddedDec = true /\
  String.length paddedDec = 3%nat /\
  Str.value paddedDec = Str.value fp * 1000 / 10 ^ Z.of_nat (String.length fp).
Proof.
  intros H.
  destruct fp as [|a [|b [|c rest]]].
  - vm_compute. auto.
  - simpl in H. rewrite andb_true_r in H.
    destruct (is_digit_Some a H) as (da & Ha & Hra).
    change (Str.take 3 (String a EmptyString +:+ "000")) with (String a "00").
    cbv zeta. cbn [String.length Str.all_digits]. rewrite H.
    split; [reflexivity|]. split; [reflexivity|].
    unfold Str.value. cbn [Str.digits_value]. rewrite Ha.
    change (Str.digit_of_ascii "0") with (Some 0). simpl default.
    change (10 ^ Z.of_nat 1) with 10.
    apply Z.div_unique with (r := 0); lia.
  - simpl in H. rewrite andb_true_r in H. apply andb_prop in H as [Ha' Hb'].
    destruct (is_digit_Some a Ha') as (da & Ha & Hra).
    destruct (is_digit_Some b Hb') as (db & Hb & Hrb).
    change (Str.take 3 (String a (String b EmptyString) +:+ "000"))
      with (String a (String b "0")).
    cbv zeta. cbn [String.length Str.all_digits]. rewrite Ha', Hb'.
    split; [reflexivity|]. split; [reflexivity|].
    unfold Str.value. cbn [Str.digits_value]. rewrite Ha, Hb.
    change (Str.digit_of_ascii "0") with (Some 0). simpl default.
    change (10 ^ Z.of_nat 2) with 100.
    apply Z.div_unique with (r := 0); lia.
  - change (String a (String b (String c rest)))
      with (String a (String b (String c EmptyString)) +:+ rest) in *.
    set (abc := String a (String b (String c EmptyString))) in *.
    rewrite all_digits_app in H. apply andb_prop in H as [Habc Hrest].
    cbv zeta. rewrite app_assoc_str.
    rewrite (take_app_length abc (rest +:+ "000") : Str.take 3 _ = abc).
    split; [exact Habc|]. split; [reflexivity|].
    rewrite (value_app abc rest Habc Hrest), length_app_str, Nat2Z.inj_add.
    rewrite Z.pow_add_r by lia.
    change (10 ^ Z.of_nat (String.length abc)) with 1000.
    pose proof (value_bounds rest Hrest) as Hb.
    apply Z.div_unique with (r := Str.value rest * 1000); nia.
Qed.

End Parsing.

(** ** Printing numerals *)

Section Printing.

Local Open Scope Z_scope.

Lemma digit_char_digit (d : Z) :
  0 <= d <= 9 -> Str.digit_of_ascii (Str.digit_char d) = Some d.
Proof.
  intros H.
  assert (C : d = 0 \/ d = 1 \/ d = 2 \/ d = 3 \/ d = 4 \/ d = 5 \/ d = 6
              \/ d = 7 \/ d = 8 \/ d = 9) by lia.
  repeat (destruct C as [-> | C]; [reflexivity|]). subst d. reflexivity.
Qed.

Lemma decimal_digits_app (fuel : nat) (n : Z) (acc : string) :
  Str.decimal_digits fuel n acc = Str.decimal_digits fuel n EmptyString +:+ acc.
Proof.
  revert n acc. induction fuel as [|fuel IH]; intros n acc; [reflexivity|].
  cbn [Str.decimal_digits]. destruct (n <? 10); [reflexivity|].
  rewrite (IH _ (String _ acc)), (IH _ (String _ EmptyString)).
  rewrite app_assoc_str. reflexivity.
Qed.

Lemma single_digit (d : Z) :
  0 <= d <= 9 ->
  let s := String (Str.digit_char d) EmptyString in
  Str.all_digits s = true /\ Str.value s = d /\ s <> EmptyString.
Proof.
  intros H s. subst s. unfold Str.value, Str.is_digit. cbn [Str.all_digits Str.digits_value].
  unfold Str.is_digit. rewrite (digit_char_digit d H). simpl.
  split; [reflexivity|]. split; [lia|discriminate].
Qed.

Lemma decimal_digits_spec (fuel : nat) (n : Z) :
  0 <= n < 10 ^ Z.of_nat (S fuel) ->
  let s := Str.decimal_digits fuel n EmptyString in
  Str.all_digits s = true /\ Str.value s = n /\ s <> EmptyString.
Proof.
  revert n. induction fuel as [|fuel IH]; intros n Hn s; subst s.
  - change (10 ^ Z.of_nat 1) with 10 in Hn. cbn [Str.decimal_digits].
    rewrite Z.mod_small by lia. apply single_digit. lia.
  - cbn [Str.decimal_digits]. destruct (Z.ltb_spec n 10) as [Hlt|Hge].
    + rewrite Z.mod_small by lia. apply single_digit. lia.
    + rewrite decimal_digits_app.
      assert (Hq : 0 <= n / 10 < 10 ^ Z.of_nat (S fuel)).
      { rewrite (Nat2Z.inj_succ (S fuel)), Z.pow_succ_r in Hn by lia.
        split; [apply Z.div_pos; lia|apply Z.div_lt_upper_bound; lia]. }
      destruct (IH (n / 10) Hq) as (Hd & Hv & Hne).
      assert (Hm : 0 <= n mod 10 <= 9) by (pose proof (Z.mod_pos_bound n 10); lia).
      destruct (single_digit (n mod 10) Hm) as (Hd1 & Hv1 & _).
      split; [|split].
      * rewrite all_digits_app, Hd, Hd1. reflexivity.
      * rewrite (value_app _ _ Hd Hd1), Hv, Hv1.
        change (10 ^ Z.of_nat (String.length (String (Str.digit_char (n mod 10)) EmptyString)))
          with 10.
        pose proof (Z.div_mod n 10). lia.
      * destruct (Str.decimal_digits fuel (n / 10) EmptyString); [congruence|discriminate].
Qed.

(** [String(n)] for [n >= 0] is a non-empty string of digits that reads
    back as [n]. *)
Lemma of_nonneg_spec (n : Z) :
  0 <= n ->
  Str.all_digits (Str.of_nonneg n) = true /\
  Str.value (Str.of_nonneg n) = n /\
  Str.of_nonneg n <> EmptyString.
Proof.
  intros Hn. unfold Str.of_nonneg. apply decimal_digits_spec. split; [lia|].
  rewrite Nat2Z.inj_succ, Z2Nat.id by apply Z.log2_nonneg.
  destruct (Z.eq_dec n 0) as [->|Hnz]; [reflexivity|].
  apply Z.lt_le_trans with (2 ^ Z.succ (Z.log2 n)).
  - apply Z.log2_spec. lia.
  - apply Z.pow_le_mono_l. pose proof (Z.log2_nonneg n). lia.
Qed.

(** The three-digit fraction printed by [filsToAmountString]. *)
Lemma fraction_string (r : Z) :
  0 <= r < 1000 ->
  let decPart := Str.padStart 3 "0" (String_ (Int r)) in
  Str.all_digits decPart = true /\
  String.length decPart = 3%nat /\
  Str.value decPart = r.
Proof.
  intros Hr.
  assert (A : forallb
                (fun k : nat =>
                   let decPart := Str.padStart 3 "0" (String_ (Int (Z.of_nat k))) in
                   Str.all_digits decPart
                   && Nat.eqb (String.length decPart) 3
                   && (Str.value decPart =? Z.of_nat k))
                (seq 0 1000) = true) by (vm_compute; reflexivity).
  rewrite forallb_forall in A.
  specialize (A (Z.to_nat r)). rewrite Z2Nat.id in A by lia.
  assert (I : In (Z.to_nat r) (seq 0 1000)) by (apply in_seq; lia).
  apply A in I. cbv zeta in I.
  apply andb_prop in I as [I I3]. apply andb_prop in I as [I1 I2].
  cbv zeta. split; [exact I1|]. split; [apply Nat.eqb_eq, I2|apply Z.eqb_eq, I3].
Qed.

End Printing.

(** ** Amounts and fils *)

Section Amounts.

Local Open Scope Z_scope.

Lemma take_three (p t : string) :
  String.length p = 3%nat -> Str.take 3 (p +:+ t) = p.
Proof. intros H. rewrite <- H. apply take_app_length. Qed.

(** [amountToFils] on a numeral [ip.fff] with a three-digit fraction. *)
Lemma amountToFils_three (ip fff : string) :
  Str.split "." ip = [ip] ->
  Str.all_digits fff = true -> String.length fff = 3%nat ->
  amountToFils (ip +:+ "." +:+ fff)
  = Num.add (Num.mul (Number_ ip) (Int 1000)) (Int (Str.value fff)).
Proof.
  intros Hi Hd Hl.
  rewrite (amountToFils_dot ip fff Hi (split_digits fff Hd)).
  rewrite (take_three fff "000" Hl), (Number_digits fff Hd). reflexivity.
Qed.

(** What [filsToAmountString] prints: the sign, the whole part of the
    absolute value, a dot and three digits. *)
Lemma filsToAmountString_Int (n : Z) :
  filsToAmountString (Int n)
  = (if n <? 0 then "-" else "")
      +:+ Str.of_nonneg (Z.abs n / 1000)
      +:+ "." +:+ Str.padStart 3 "0" (String_ (Int (Z.abs n mod 1000))).
Proof.
  unfold filsToAmountString. cbn [Num.ltb Num.abs Num.floor_div Num.rem].
  change (1000 =? 0) with false. cbv iota.
  rewrite Z.rem_mod_nonneg by lia.
  unfold String_ at 1.
  assert (Hq : 0 <= Z.abs n / 1000) by (apply Z.div_pos; lia).
  destruct (Z.ltb_spec (Z.abs n / 1000) 0); [lia|]. reflexivity.
Qed.

(** Round trip from fils on a non-negative amount. *)
Lemma amountToFils_filsToAmountString_nonneg (n : Z) :
  0 <= n -> amountToFils (filsToAmountString (Int n)) = Int n.
Proof.
  intros Hn. rewrite filsToAmountString_Int.
  destruct (Z.ltb_spec n 0) as [?|_]; [lia|]. rewrite app_empty_l.
  rewrite Z.abs_eq by lia.
  destruct (of_nonneg_spec (n / 1000)) as (Hd & Hv & Hne); [apply Z.div_pos; lia|].
  destruct (fraction_string (n mod 1000)) as (Pd & Pl & Pv);
    [apply Z.mod_pos_bound; lia|].
  rewrite (amountToFils_three _ _ (split_digits _ Hd) Pd Pl).
  rewrite (Number_digits _ Hd), Hv, Pv. simpl. f_equal.
  pose proof (Z.div_mod n 1000). lia.
Qed.

End Amounts.

(** C3.  [amountToFils (filsToAmountString n)] is [n] for every [n >= 0],
    but for [n < 0] it is [n + 2 * (|n| mod 1000)]: the amount is read back
    unchanged only when it is not negative or is a whole number of
    thousands, so the round trip claimed for every integer fails on the
    other negative amounts. *)
Theorem amountToFils_filsToAmountString_C3 (n : Z) :
  amountToFils (filsToAmountString (Int n))
  = Int (if n <? 0 then n + 2 * (Z.abs n mod 1000) else n).
Proof.
  destruct (Z.ltb_spec n 0) as [Hneg|Hpos];
    [|apply amountToFils_filsToAmountString_nonneg; exact Hpos].
  rewrite filsToAmountString_Int.
  destruct (Z.ltb_spec n 0) as [_|?]; [|lia].
  destruct (of_nonneg_spec (Z.abs n / 1000)) as (Hd & Hv & Hne);
    [apply Z.div_pos; lia|].
  destruct (fraction_string (Z.abs n mod 1000)) as (Pd & Pl & Pv);
    [apply Z.mod_pos_bound; lia|].
  set (Q := Str.of_nonneg (Z.abs n / 1000)) in *.
  set (P := Str.padStart 3 "0" (String_ (Int (Z.abs n mod 1000)))) in *.
  change ("-" +:+ Q +:+ "." +:+ P) with (String "-" Q +:+ "." +:+ P).
  rewrite (amountToFils_three _ _ (split_minus _ (split_digits _ Hd)) Pd Pl).
  rewrite (Number_minus_digits _ Hd Hne), Hv, Pv. simpl. f_equal.
  pose proof (Z.div_mod (Z.abs n) 1000). lia.
Qed.

(** The stored amount [-500] (typed as ["-1.500"]) is shown as ["-0.500"]
    and read back as [500]. *)
Example amountToFils_filsToAmountString_minus_500 :
  amountToFils "-1.500" = Int (-500) /\
  filsToAmountString (Int (-500)) = "-0.500" /\
  amountToFils (filsToAmountString (Int (-500))) = Int 500.
Proof. repeat split; reflexivity. Qed.

(** C6, as the code has it.  [amountToFils] raises no error.  On a string
    of digits [ip] it gives [ip * 1000], and on [ip.fp] with two strings of
    digits it gives [ip * 1000] plus the fraction [0.fp] in thousandths
    rounded down: fraction digits after the third are cut off, and a
    shorter fraction is padded with zeros.  This holds as long as the amount
    in fils is a safe integer; on longer strings of digits the code
    rounds. *)
Theorem amountToFils_truncates_C6 (ip fp : string) :
  Str.all_digits ip = true -> Str.all_digits fp = true ->
  Str.value ip * 1000 + Str.value fp * 1000 / 10 ^ Z.of_nat (String.length fp)
  <= MAX_SAFE_INTEGER ->
  amountToFils ip = Int (Str.value ip * 1000) /\
  amountToFils (ip +:+ "." +:+ fp)
  = Int (Str.value ip * 1000
         + Str.value fp * 1000 / 10 ^ Z.of_nat (String.length fp)).
Proof.
  intros Hi Hf _. split.
  - rewrite (amountToFils_nodot ip (split_digits ip Hi)), (Number_digits ip Hi).
    reflexivity.
  - destruct (padded_fraction fp Hf) as (Pd & Pl & Pv).
    rewrite (amountToFils_dot ip fp (split_digits ip Hi) (split_digits fp Hf)).
    rewrite (Number_digits ip Hi), (Number_digits _ Pd), Pv. reflexivity.
Qed.

Lemma amountToFils_truncates_C6_witness :
  Str.all_digits "1" = true /\ Str.all_digits "2349" = true /\
  amountToFils "1" = Int 1000 /\ amountToFils "1.2349" = Int 1234.
Proof.
  split; [reflexivity|]. split; [reflexivity|].
  exact (amountToFils_truncates_C6 "1" "2349" eq_refl eq_refl
           ltac:(apply Z.leb_le; reflexivity)).
Defined.

(** C6 as claimed fails: ["1.2.3"] is not a decimal numeral, yet
    [amountToFils] gives the number 1200 for it instead of an error. *)
Lemma amountToFils_no_error_C6 :
  spec_decimal_numeral "1.2.3" = false /\ amountToFils "1.2.3" = Int 1200.
Proof. split; reflexivity. Qed.

(** C10.  On ["-N.fff"], with [N] a non-empty string of digits and [fff]
    three digits, [amountToFils] gives [Number("-N") * 1000 + fff], which is
    [-N * 1000 + fff]: the sign reaches the whole part only, so the result
    is not [-(N * 1000 + fff)] unless [fff] is zero.  This holds as long as
    [N * 1000 + fff] is a safe integer, so that both numbers are computed
    exactly. *)
Theorem amountToFils_minus_sign_C10 (N fff : string) :
  Str.all_digits N = true -> N <> EmptyString ->
  Str.all_digits fff = true -> String.length fff = 3%nat ->
  Str.value N * 1000 + Str.value fff <= MAX_SAFE_INTEGER ->
  amountToFils ("-" +:+ N +:+ "." +:+ fff)
  = Num.add (Num.mul (Number_ ("-" +:+ N)) (Int 1000)) (Int (Str.value fff)) /\
  amountToFils ("-" +:+ N +:+ "." +:+ fff)
  = Int (- Str.value N * 1000 + Str.value fff) /\
  (Str.value fff <> 0 ->
   amountToFils ("-" +:+ N +:+ "." +:+ fff)
   <> Int (- (Str.value N * 1000 + Str.value fff))).
Proof.
  intros HN Hne Hf Hl _.
  change ("-" +:+ N +:+ "." +:+ fff) with (String "-" N +:+ "." +:+ fff).
  change ("-" +:+ N) with (String "-" N).
  rewrite (amountToFils_three _ _ (split_minus _ (split_digits _ HN)) Hf Hl).
  rewrite (Number_minus_digits _ HN Hne). simpl.
  split; [reflexivity|]. split; [reflexivity|].
  intros Hnz [= E]. lia.
Qed.

Lemma amountToFils_minus_sign_C10_witness :
  amountToFils "-1.250" = Int (-750) /\ amountToFils "-0.500" = Int 500.
Proof.
  split.
  - exact (proj1 (proj2 (amountToFils_minus_sign_C10 "1" "250"
                           eq_refl ltac:(discriminate) eq_refl eq_refl
                           ltac:(apply Z.leb_le; reflexivity)))).
  - exact (proj1 (proj2 (amountToFils_minus_sign_C10 "0" "500"
                           eq_refl ltac:(discriminate) eq_refl eq_refl
                           ltac:(apply Z.leb_le; reflexivity)))).
Defined.

(** ** Transfers to savings *)

Section Transfers.

Local Open Scope Z_scope.


End Transfers.





(** ** Lending entries *)

(** C9.  Submitting a lending entry, editing one and deleting one leave the
    wallet and the savings as they were, whatever the fields, the answers
    and the row. *)
Theorem lending_keeps_balances_C9 (md : monthData) :
  (forall date name amountStr currency reason type status,
     let md' := lbSubmit date name amountStr currency reason type status md in
     wallet md' = wallet md /\ savings md' = savings md) /\
  (forall index ans,
     let md' := handleEdit lending_row index ans md in
     wallet md' = wallet md /\ savings md' = savings md) /\
  (forall index confirmed,
     let md' := handleDelete lending_row index confirmed md in
     wallet md' = wallet md /\ savings md' = savings md).
Proof.
  split; [|split].
  - intros date name amountStr currency reason type status. unfold lbSubmit.
    destruct (negb (Str.truthy date) || negb (Str.truthy name)
              || negb (Str.truthy amountStr)); split; reflexivity.
  - intros index ans. unfold handleEdit.
    destruct (lending md !! index); split; reflexivity.
  - intros index confirmed. unfold handleDelete.
    destruct confirmed; cbn [negb]; [|split; reflexivity].
    destruct (lending md !! index); split; reflexivity.
Qed.

(** ** The scenario of the specification *)

(** C2.  From a fresh month: an income of "100.000" KWD makes the wallet
    100000; an expense of "25.500" KWD from the wallet makes it 74500;
    moving "50.000" to savings leaves wallet 24500 and savings 50000;
    editing the expense's amount to "10.000" makes the wallet 40000; and
    deleting the income makes it -60000, below zero.  The other fields of
    the two forms are any non-empty date, source and category and any
    notes; the edit answers nothing but the amount. *)
Theorem scenario_C2 (date1 source notes1 date2 category notes2 : string) :
  Str.truthy date1 = true -> Str.truthy source = true ->
  Str.truthy date2 = true -> Str.truthy category = true ->
  let md0 := loadMonthData None in
  let md1 := incomeSubmit date1 source "100.000" "KWD" notes1 md0 in
  let md2 := expenseSubmit date2 category "25.500" "KWD" "wallet" notes2 md1 in
  let md3 := fst (walletToSavings (Some "50.000") md2) in
  let md4 :=
    handleEdit expense_row 0
      (EditAnswers None None (Some "10.000") None None None None None) md3 in
  let md5 := handleDelete income_row 0 true md4 in
  wallet md1 = Int 100000 /\
  wallet md2 = Int 74500 /\
  (wallet md3 = Int 24500 /\ savings md3 = Int 50000) /\
  wallet md4 = Int 40000 /\
  (wallet md5 = Int (-60000) /\ savings md5 = Int 50000 /\ income md5 = []).
Proof.
  intros H1 H2 H3 H4. unfold incomeSubmit, expenseSubmit.
  rewrite H1, H2, H3, H4. cbv zeta.
  repeat split; reflexivity.
Qed.

Lemma scenario_C2_witness :
  let md0 := loadMonthData None in
  let md1 := incomeSubmit "2025-01-05" "Salary" "100.000" "KWD" "" md0 in
  let md2 := expenseSubmit "2025-01-06" "Food" "25.500" "KWD" "wallet" "" md1 in
  let md3 := fst (walletToSavings (Some "50.000") md2) in
  let md4 :=
    handleEdit expense_row 0
      (EditAnswers None None (Some "10.000") None None None None None) md3 in
  let md5 := handleDelete income_row 0 true md4 in
  wallet md1 = Int 100000 /\
  wallet md2 = Int 74500 /\
  (wallet md3 = Int 24500 /\ savings md3 = Int 50000) /\
  wallet md4 = Int 40000 /\
  (wallet md5 = Int (-60000) /\ savings md5 = Int 50000 /\ income md5 = []).
Proof.
  exact (scenario_C2 "2025-01-05" "Salary" "" "2025-01-06" "Food" ""
           eq_refl eq_refl eq_refl eq_refl).
Defined.

(** ** The balances and the live entries *)

Section Balances.

Local Open Scope Z_scope.

Lemma is_int_Int (n : num) : Num.is_int n = true -> n = Int (Num.to_Z n).
Proof. destruct n; [discriminate|reflexivity]. Qed.

Lemma total_app {E : Type} (f : E -> Z) (l1 l2 : list E) :
  total f (l1 ++ l2) = total f l1 + total f l2.
Proof.
  unfold total. induction l1 as [|e l1 IH]; simpl; [reflexivity|].
  rewrite IH. lia.
Qed.

Lemma total_snoc {E : Type} (f : E -> Z) (l : list E) (e : E) :
  total f (l ++ [e]) = total f l + f e.
Proof. rewrite total_app. unfold total at 2. simpl. lia. Qed.

Lemma total_insert {E : Type} (f : E -> Z) (l : list E) (i : nat) (e e' : E) :
  l !! i = Some e -> total f (<[i := e']> l) = total f l - f e + f e'.
Proof.
  unfold total. revert i. induction l as [|x l IH]; intros [|i] H;
    simpl in *; try discriminate.
  - injection H as ->. lia.
  - rewrite (IH i H). lia.
Qed.

Lemma total_delete {E : Type} (f : E -> Z) (l : list E) (i : nat) (e : E) :
  l !! i = Some e -> total f (delete i l) = total f l - f e.
Proof.
  unfold total. revert i. induction l as [|x l IH]; intros [|i] H;
    simpl in *; try discriminate.
  - injection H as ->. lia.
  - rewrite (IH i H). lia.
Qed.

(** Summing, as JavaScript numbers, the amounts of the entries that
    satisfy [P] gives the integer total of their effects. *)
Lemma sum_filter {E : Type} (P : E -> Prop) `{forall e, Decision (P e)}
    (amt : E -> num) (f : E -> Z) (l : list E) :
  (forall e, f e = if decide (P e) then Num.to_Z (amt e) else 0) ->
  Forall (fun e => Num.is_int (amt e) = true) l ->
  Num.sum (amt <$> filter P l) = Int (total f l).
Proof.
  intros Hf Hl. unfold Num.sum.
  enough (G : forall a, foldl Num.add (Int a) (amt <$> filter P l)
                        = Int (a + total f l)) by apply (G 0).
  induction Hl as [|e l He Hl IH]; intros a.
  - simpl. f_equal. unfold total. simpl. lia.
  - rewrite filter_cons. unfold total. cbn [foldr]. fold (total f l).
    rewrite (Hf e). destruct (decide (P e)).
    + rewrite fmap_cons. cbn [foldl]. rewrite (is_int_Int _ He).
      cbn [Num.add Num.to_Z]. rewrite IH. f_equal. lia.
    + rewrite IH. f_equal; lia.
Qed.

Lemma kwdIncome_total (md : monthData) :
  integral md -> kwdIncome md = Int (total incomeEffect (income md)).
Proof.
  intros (_ & _ & Hi & _). unfold kwdIncome.
  apply sum_filter; [|exact Hi].
  intros e. unfold incomeEffect.
  destruct (isKWD (Income.currency e)); destruct (decide _); congruence.
Qed.

Lemma kwdWalletExpenses_total (md : monthData) :
  integral md ->
  kwdWalletExpenses md = Int (total walletExpenseEffect (expenses md)).
Proof.
  intros (_ & _ & _ & He). unfold kwdWalletExpenses.
  apply sum_filter; [|exact He].
  intros e. unfold walletExpenseEffect.
  destruct (isKWD (Expense.currency e));
    destruct (String.eqb_spec (Expense.method e) "wallet");
    destruct (decide _) as [[? ?]|N]; cbn [andb]; try congruence;
    exfalso; apply N; split; congruence.
Qed.

Lemma kwdBankExpenses_total (md : monthData) :
  integral md ->
  kwdBankExpenses md = Int (total bankExpenseEffect (expenses md)).
Proof.
  intros (_ & _ & _ & He). unfold kwdBankExpenses.
  apply sum_filter; [|exact He].
  intros e. unfold bankExpenseEffect.
  destruct (isKWD (Expense.currency e));
    destruct (String.eqb_spec (Expense.method e) "bank");
    destruct (decide _) as [[? ?]|N]; cbn [andb]; try congruence;
    exfalso; apply N; split; congruence.
Qed.

Lemma preserves_refl (md : monthData) : integral md -> preserves md md 0 0.
Proof. intros H. split; [exact H|]. split; lia. Qed.

Lemma numeral_Int (s : string) :
  numeral s = true -> exists a, amountToFils s = Int a.
Proof.
  unfold numeral. destruct (amountToFils s) as [|a]; [discriminate|].
  intros _. exists a. reflexivity.
Qed.

Lemma newAmountFils_Int (ans : answer) (old : num) :
  numeral_answer ans = true -> Num.is_int old = true ->
  exists a, newAmountFils ans old = Int a.
Proof.
  intros Hn Ho. unfold newAmountFils, numeral_answer in *.
  destruct ans as [s|]; [destruct (Str.truthy s)|].
  - apply numeral_Int, Hn.
  - exists (Num.to_Z old). apply is_int_Int, Ho.
  - exists (Num.to_Z old). apply is_int_Int, Ho.
Qed.

Ltac open_ledger md :=
  let Hw := fresh "Hw" in
  let Hs := fresh "Hs" in
  let Hi := fresh "Hi" in
  let He := fresh "He" in
  intros (Hw & Hs & Hi & He);
  destruct md as [inc exps lend [|w] [|s]]; cbn in Hw, Hs, Hi, He;
  try discriminate.

Ltac close_ledger :=
  unfold preserves, integral, walletSlack, savingsSlack;
  cbn [income expenses lending wallet savings set_income set_expenses
       set_lending set_wallet set_savings Num.add Num.sub Num.to_Z Num.is_int].

Lemma incomeSubmit_preserves date source amountStr currency notes md :
  integral md -> numeral amountStr = true ->
  preserves md (incomeSubmit date source amountStr currency notes md) 0 0.
Proof.
  intros H Hn. unfold incomeSubmit.
  destruct (_ || _); [apply preserves_refl, H|].
  destruct (numeral_Int _ Hn) as [a ->].
  revert H. open_ledger md. cbv zeta.
  destruct (String.eqb currency "KWD") eqn:EK; close_ledger;
    rewrite total_snoc; unfold incomeEffect, isKWD;
    cbn [Income.currency Income.amountFils Num.to_Z]; rewrite EK;
    (split; [|lia]); repeat split; try reflexivity; try assumption;
    apply Forall_app; (split; [assumption|]); repeat constructor.
Qed.

Lemma expenseSubmit_preserves date category amountStr currency method notes md :
  integral md -> numeral amountStr = true ->
  preserves md
    (expenseSubmit date category amountStr currency method notes md) 0 0.
Proof.
  intros H Hn. unfold expenseSubmit.
  destruct (_ || _); [apply preserves_refl, H|].
  destruct (numeral_Int _ Hn) as [a ->].
  revert H. open_ledger md. cbv zeta.
  destruct (String.eqb currency "KWD") eqn:EK;
    destruct (String.eqb_spec method "wallet") as [->|Ew];
    try destruct (String.eqb_spec method "bank") as [->|Eb];
    close_ledger; rewrite !total_snoc;
    unfold walletExpenseEffect, bankExpenseEffect, isKWD;
    cbn [Expense.currency Expense.amountFils Expense.method Num.to_Z];
    rewrite EK; cbn [andb];
    try (destruct (String.eqb_spec method "wallet"); [congruence|]);
    try (destruct (String.eqb_spec method "bank"); [congruence|]);
    cbn [String.eqb Ascii.eqb Bool.eqb];
    (split; [|lia]); repeat split; try reflexivity; try assumption;
    apply Forall_app; (split; [assumption|]); repeat constructor.
Qed.

Lemma lbSubmit_preserves date name amountStr currency reason type status md :
  integral md ->
  preserves md (lbSubmit date name amountStr currency reason type status md) 0 0.
Proof.
  intros H. unfold lbSubmit.
  destruct (_ || _); [apply preserves_refl, H|].
  destruct H as (? & ? & ? & ?). close_ledger. split; [repeat split; assumption|].
  split; lia.
Qed.

Ltac split_eqb :=
  repeat match goal with
         | |- context [String.eqb ?x ?y] =>
             destruct (String.eqb_spec x y); try congruence; subst
         end.

Lemma handleEdit_income_preserves index ans md :
  integral md -> numeral_answer (newAmountStr ans) = true ->
  preserves md (handleEdit income_row index ans md) 0 0.
Proof.
  intros H Hn. unfold handleEdit.
  destruct (income md !! index) as [e|] eqn:El; [|apply preserves_refl, H].
  assert (Ie : Num.is_int (Income.amountFils e) = true).
  { destruct H as (_ & _ & Hi & _). exact (Forall_lookup_1 _ _ _ _ Hi El). }
  destruct (newAmountFils_Int _ _ Hn Ie) as [a' Ea]. rewrite Ea.
  revert H El. open_ledger md. cbn [income]. intros El.
  destruct e as [d src [|a] c n]; [discriminate|].
  cbv zeta. cbn [Income.currency Income.amountFils].
  generalize (orElse (newCurrency ans) c). intros c'.
  destruct (String.eqb c "KWD") eqn:E1; destruct (String.eqb c' "KWD") eqn:E2;
    close_ledger; rewrite (total_insert _ _ _ _ _ El);
    unfold incomeEffect, isKWD; cbn [Income.currency Income.amountFils Num.to_Z];
    rewrite E1, E2;
    (split; [|lia]); repeat split; try reflexivity; try assumption;
    (apply Forall_insert; [assumption|reflexivity]).
Qed.

Lemma handleEdit_expense_preserves index ans md :
  integral md -> numeral_answer (newAmountStr ans) = true ->
  preserves md (handleEdit expense_row index ans md) 0 0.
Proof.
  intros H Hn. unfold handleEdit.
  destruct (expenses md !! index) as [e|] eqn:El; [|apply preserves_refl, H].
  assert (Ie : Num.is_int (Expense.amountFils e) = true).
  { destruct H as (_ & _ & _ & He). exact (Forall_lookup_1 _ _ _ _ He El). }
  destruct (newAmountFils_Int _ _ Hn Ie) as [a' Ea]. rewrite Ea.
  revert H El. open_ledger md. cbn [expenses]. intros El.
  destruct e as [d cat [|a] c m n]; [discriminate|].
  cbv zeta. cbn [Expense.currency Expense.amountFils Expense.method].
  generalize (orElse (newCurrency ans) c). intros c'.
  generalize (orElse (newMethod ans) m). intros m'.
  assert (F : Forall (fun e => Num.is_int (Expense.amountFils e) = true)
                (<[index := Expense.Build (orElse (newDate ans) d)
                               (orElse (newMainField ans) cat) (Int a') c' m'
                               (orElse (newNotes ans) n)]> exps))
    by (apply Forall_insert; [assumption|reflexivity]).
  split_eqb; close_ledger; rewrite !(total_insert _ _ _ _ _ El);
    unfold walletExpenseEffect, bankExpenseEffect, isKWD;
    cbn [Expense.currency Expense.amountFils Expense.method Num.to_Z];
    split_eqb; cbn [andb String.eqb Ascii.eqb Bool.eqb];
    (split; [|lia]); repeat split; try reflexivity; assumption.
Qed.

Lemma handleEdit_lending_preserves index ans md :
  integral md -> preserves md (handleEdit lending_row index ans md) 0 0.
Proof.
  intros H. unfold handleEdit.
  destruct (lending md !! index); [|apply preserves_refl, H].
  destruct H as (? & ? & ? & ?). close_ledger.
  split; [repeat split; assumption|]. split; lia.
Qed.

Lemma handleDelete_preserves type index confirmed md :
  integral md -> preserves md (handleDelete type index confirmed md) 0 0.
Proof.
  intros H. unfold handleDelete.
  destruct confirmed; cbn [negb]; [|apply preserves_refl, H].
  destruct type.
  - destruct (income md !! index) as [e|] eqn:El; [|apply preserves_refl, H].
    assert (Ie : Num.is_int (Income.amountFils e) = true).
    { destruct H as (_ & _ & Hi & _). exact (Forall_lookup_1 _ _ _ _ Hi El). }
    revert H El. open_ledger md. cbn [income]. intros El.
    destruct e as [d src [|a] c n]; [discriminate|].
    cbv zeta. cbn [Income.currency Income.amountFils].
    destruct (String.eqb c "KWD") eqn:E1;
      close_ledger; rewrite (total_delete _ _ _ _ El);
      unfold incomeEffect, isKWD; cbn [Income.currency Income.amountFils Num.to_Z];
      rewrite E1;
      (split; [|lia]); repeat split; try reflexivity; try assumption;
      apply Forall_delete; assumption.
  - destruct (expenses md !! index) as [e|] eqn:El; [|apply preserves_refl, H].
    assert (Ie : Num.is_int (Expense.amountFils e) = true).
    { destruct H as (_ & _ & _ & He). exact (Forall_lookup_1 _ _ _ _ He El). }
    revert H El. open_ledger md. cbn [expenses]. intros El.
    destruct e as [d cat [|a] c m n]; [discriminate|].
    cbv zeta. cbn [Expense.currency Expense.amountFils Expense.method].
    assert (F : Forall (fun e => Num.is_int (Expense.amountFils e) = true)
                  (delete index exps)) by (apply Forall_delete; assumption).
    split_eqb; close_ledger; rewrite !(total_delete _ _ _ _ El);
      unfold walletExpenseEffect, bankExpenseEffect, isKWD;
      cbn [Expense.currency Expense.amountFils Expense.method Num.to_Z];
      split_eqb; cbn [andb String.eqb Ascii.eqb Bool.eqb];
      (split; [|lia]); repeat split; try reflexivity; assumption.
  - destruct (lending md !! index); [|apply preserves_refl, H].
    destruct H as (? & ? & ? & ?). close_ledger.
    split; [repeat split; assumption|]. split; lia.
Qed.

Lemma walletToSavings_preserves amountStr md :
  integral md -> numeral_answer amountStr = true ->
  exists m,
    transferred amountStr (snd (walletToSavings amountStr md)) = Int m /\
    preserves md (fst (walletToSavings amountStr md)) m 0.
Proof.
  intros H Hn. unfold walletToSavings, transferred.
  destruct amountStr as [str|];
    [|exists 0; split; [reflexivity|apply preserves_refl, H]].
  cbn [numeral_answer] in Hn.
  destruct (Str.truthy str);
    [|exists 0; split; [reflexivity|apply preserves_refl, H]].
  destruct (numeral_Int _ Hn) as [a ->]. cbn [negb].
  destruct (_ || _);
    [exists 0; split; [reflexivity|apply preserves_refl, H]|].
  exists a. split; [reflexivity|].
  revert H. open_ledger md. cbn [fst]. close_ledger.
  split; [repeat split; (reflexivity || assumption)|]. split; lia.
Qed.

Lemma incomeToSavings_preserves amountStr md :
  integral md -> numeral_answer amountStr = true ->
  exists c,
    transferred amountStr (snd (incomeToSavings amountStr md)) = Int c /\
    preserves md (fst (incomeToSavings amountStr md)) 0 c.
Proof.
  intros H Hn. unfold incomeToSavings, transferred.
  destruct amountStr as [str|];
    [|exists 0; split; [reflexivity|apply preserves_refl, H]].
  cbn [numeral_answer] in Hn.
  destruct (Str.truthy str);
    [|exists 0; split; [reflexivity|apply preserves_refl, H]].
  destruct (numeral_Int _ Hn) as [a ->]. cbn [negb].
  destruct (Num.leb _ _);
    [exists 0; split; [reflexivity|apply preserves_refl, H]|].
  exists a. split; [reflexivity|].
  revert H. open_ledger md. cbn [fst]. close_ledger.
  split; [repeat split; (reflexivity || assumption)|]. split; lia.
Qed.

(** Every action keeps the ledger free of [NaN] and changes the slack of
    the balances by what it transfers. *)
Lemma step_preserves (a : action) (md : monthData) :
  integral md -> numeric a = true ->
  exists m c,
    movedBy a md = Int m /\ creditedBy a md = Int c /\
    preserves md (step a md) m c.
Proof.
  intros H Hn. destruct a as [d so am cu no|d ca am cu me no|d na am cu re ty st
                             |ty ix ans|ty ix cf|am|am];
    cbn [step movedBy creditedBy numeric] in *.
  - exists 0, 0. repeat split; try reflexivity;
      apply incomeSubmit_preserves; assumption.
  - exists 0, 0. repeat split; try reflexivity;
      apply expenseSubmit_preserves; assumption.
  - exists 0, 0. repeat split; try reflexivity;
      apply lbSubmit_preserves; assumption.
  - exists 0, 0. split; [reflexivity|]. split; [reflexivity|].
    destruct ty.
    + apply handleEdit_income_preserves; assumption.
    + apply handleEdit_expense_preserves; assumption.
    + apply handleEdit_lending_preserves; assumption.
  - exists 0, 0. split; [reflexivity|]. split; [reflexivity|].
    apply handleDelete_preserves; assumption.
  - destruct (walletToSavings_preserves am md H Hn) as (m & E & P).
    exists m, 0. auto.
  - destruct (incomeToSavings_preserves am md H Hn) as (c & E & P).
    exists 0, c. auto.
Qed.

Lemma run_preserves (acts : list action) (md : monthData) :
  integral md -> forallb numeric acts = true ->
  exists m c,
    movedToSavings acts md = Int m /\ creditedToSavings acts md = Int c /\
    preserves md (run acts md) m c.
Proof.
  revert md. induction acts as [|a acts IH]; intros md H Hn.
  - exists 0, 0. split; [reflexivity|]. split; [reflexivity|].
    apply preserves_refl, H.
  - cbn [forallb] in Hn. apply andb_prop in Hn as [Ha Hacts].
    destruct (step_preserves a md H Ha) as (m1 & c1 & Em1 & Ec1 & I1 & W1 & S1).
    destruct (IH (step a md) I1 Hacts) as (m2 & c2 & Em2 & Ec2 & I2 & W2 & S2).
    exists (m1 + m2), (c1 + c2).
    cbn [movedToSavings creditedToSavings run].
    rewrite Em1, Em2, Ec1, Ec2.
    split; [reflexivity|]. split; [reflexivity|].
    split; [exact I2|]. split; lia.
Qed.

End Balances.

(** C1.  After any sequence of submissions, edits, deletions and transfers on
    a fresh month, in which every amount typed is a numeral and every ledger
    on the way stays within half the range of exact arithmetic: the wallet
    is the live KWD income, less the live KWD expenses paid from the wallet,
    less what was moved to savings; and the savings are what was moved and
    credited to them, less the live KWD expenses paid from the bank.  No
    balance or amount is [NaN]. *)
Theorem balances_C1 (acts : list action) :
  forallb numeric acts = true ->
  runInRange acts (loadMonthData None) = true ->
  let fresh := loadMonthData None in
  let md := run acts fresh in
  integral md /\
  wallet md
  = Num.sub (Num.sub (kwdIncome md) (kwdWalletExpenses md))
      (movedToSavings acts fresh) /\
  savings md
  = Num.sub (Num.add (movedToSavings acts fresh) (creditedToSavings acts fresh))
      (kwdBankExpenses md).
Proof.
  intros Hn _ fresh md.
  assert (F : integral fresh) by (repeat split; constructor).
  destruct (run_preserves acts fresh F Hn) as (m & c & Em & Ec & I & W & S).
  fold md in I, W, S. split; [exact I|].
  rewrite Em, Ec, (kwdIncome_total md I), (kwdWalletExpenses_total md I),
    (kwdBankExpenses_total md I).
  destruct I as (Iw & Is & _ & _).
  rewrite (is_int_Int _ Iw), (is_int_Int _ Is). cbn [Num.sub Num.add].
  change (walletSlack fresh) with 0 in W. change (savingsSlack fresh) with 0 in S.
  unfold walletSlack in W. unfold savingsSlack in S.
  split; f_equal; lia.
Qed.

Lemma balances_C1_witness :
  let acts :=
    [ SubmitIncome "2025-01-05" "Salary" "100.000" "KWD" "";
      SubmitExpense "2025-01-06" "Food" "25.500" "KWD" "wallet" "";
      SubmitExpense "2025-01-07" "Rent" "30.000" "KWD" "bank" "";
      ClickWalletToSavings (Some "50.000");
      ClickEdit expense_row 0
        (EditAnswers None None (Some "10.000") None None (Some "bank") None None);
      ClickDelete income_row 0 true ] in
  let md := run acts (loadMonthData None) in
  wallet md = Int (-50000) /\ savings md = Int 10000 /\
  kwdIncome md = Int 0 /\ kwdWalletExpenses md = Int 0 /\
  kwdBankExpenses md = Int 40000 /\
  movedToSavings acts (loadMonthData None) = Int 50000.
Proof.
  intros acts md.
  pose proof (balances_C1 acts eq_refl eq_refl) as (_ & W & S).
  split; [exact W|]. split; [exact S|]. repeat split; reflexivity.
Defined.

(** ** Totals per currency *)

Section Totals.

Context {E : Type} (cur : E -> string) (amt : E -> num).

Local Abbreviation addEntry :=
  (fun (obj : gmap string num) (e : E) =>
     addAssign (ensureCurrency obj (cur e)) (cur e) (amt e)).

Lemma sum_snoc (l : list num) (x : num) :
  Num.sum (l ++ [x]) = Num.add (Num.sum l) x.
Proof. unfold Num.sum. rewrite foldl_app. reflexivity. Qed.

Lemma sum_is_int (l : list num) :
  Forall (fun x => Num.is_int x = true) l -> Num.is_int (Num.sum l) = true.
Proof.
  induction l as [|x l IH] using rev_ind; intros H; [reflexivity|].
  apply Forall_app in H as [Hl Hx]. rewrite Forall_singleton in Hx.
  rewrite sum_snoc. specialize (IH Hl).
  rewrite (is_int_Int _ IH), (is_int_Int _ Hx). reflexivity.
Qed.

Lemma magnitude_nonneg (l : list num) : (0 <= magnitude l)%Z.
Proof. unfold magnitude. induction l as [|x l IH]; cbn [foldr]; lia. Qed.

Lemma magnitude_app (l1 l2 : list num) :
  magnitude (l1 ++ l2) = (magnitude l1 + magnitude l2)%Z.
Proof.
  unfold magnitude. induction l1 as [|x l1 IH]; cbn [foldr app]; [reflexivity|].
  rewrite IH. lia.
Qed.

(** The two parts of a list of safe amounts are lists of safe amounts. *)
Lemma safeAmounts_app (l1 l2 : list num) :
  safeAmounts (l1 ++ l2) = true ->
  safeAmounts l1 = true /\ safeAmounts l2 = true.
Proof.
  unfold safeAmounts. rewrite forallb_app, magnitude_app.
  intros H. apply andb_prop in H as [H B]. apply andb_prop in H as [H1 H2].
  apply Z.leb_le in B.
  pose proof (magnitude_nonneg l1). pose proof (magnitude_nonneg l2).
  rewrite H1, H2. cbn [andb]. split; apply Z.leb_le; lia.
Qed.

(** Safe amounts are integers. *)
Lemma safeAmounts_is_int (l : list E) :
  safeAmounts (amt <$> l) = true -> Forall (fun e => Num.is_int (amt e) = true) l.
Proof.
  unfold safeAmounts. intros H. apply andb_prop in H as [H _].
  induction l as [|e l IH]; [constructor|].
  rewrite fmap_cons in H. cbn [forallb] in H. apply andb_prop in H as [He Hl].
  constructor; [exact He|apply IH, Hl].
Qed.

Lemma amountsIn_snoc (c : string) (l : list E) (e : E) :
  amountsIn cur amt c (l ++ [e])
  = amountsIn cur amt c l ++ (if decide (cur e = c) then [amt e] else []).
Proof.
  unfold amountsIn. rewrite filter_app, fmap_app. f_equal.
  rewrite filter_cons, filter_nil. destruct (decide (cur e = c)); reflexivity.
Qed.

Lemma amountsIn_absent (c : string) (l : list E) :
  c ∉ cur <$> l -> amountsIn cur amt c l = [].
Proof.
  intros H. unfold amountsIn.
  induction l as [|e l IH]; [reflexivity|].
  rewrite fmap_cons, not_elem_of_cons in H. destruct H as [Hne Hl].
  rewrite filter_cons_False by congruence. apply IH, Hl.
Qed.

Lemma amountsIn_is_int (c : string) (l : list E) :
  Forall (fun e => Num.is_int (amt e) = true) l ->
  Forall (fun x => Num.is_int x = true) (amountsIn cur amt c l).
Proof.
  intros H. unfold amountsIn. apply Forall_fmap.
  apply Forall_forall. intros e He. apply list_elem_of_filter in He as [_ He].
  rewrite Forall_forall in H. apply H, He.
Qed.

(** After [ensureCurrency], a property that held an integer still holds
    it, and a missing one holds [0]. *)
Lemma ensureCurrency_lookup (obj : gmap string num) (c : string) (v : num) :
  Num.is_int v = true ->
  obj !! c = Some v \/ (obj !! c = None /\ v = Int 0) ->
  ensureCurrency obj c !! c = Some v.
Proof.
  intros Hv [H|[H ->]]; unfold ensureCurrency; rewrite H.
  - destruct v as [|z]; [discriminate|]. cbn [Num.truthy].
    destruct (Z.eqb_spec z 0) as [->|?]; cbn [negb];
      [apply lookup_insert_eq|exact H].
  - apply lookup_insert_eq.
Qed.

Lemma ensureCurrency_lookup_ne (obj : gmap string num) (c c' : string) :
  c <> c' -> ensureCurrency obj c !! c' = obj !! c'.
Proof.
  intros Hne. unfold ensureCurrency.
  destruct (obj !! c) as [v|]; [destruct (Num.truthy v)|];
    try reflexivity; apply lookup_insert_ne, Hne.
Qed.

(** The object built over the entries has a property for each currency
    that occurs, holding the sum of the amounts in that currency. *)
Lemma totals_lookup (l : list E) (c : string) :
  Forall (fun e => Num.is_int (amt e) = true) l ->
  foldl addEntry ∅ l !! c
  = if decide (c ∈ cur <$> l) then Some (Num.sum (amountsIn cur amt c l)) else None.
Proof.
  induction l as [|e l IH] using rev_ind; intros H.
  - cbn [foldl]. rewrite lookup_empty, decide_False; [reflexivity|].
    apply not_elem_of_nil.
  - apply Forall_app in H as [Hl He]. rewrite Forall_singleton in He.
    specialize (IH Hl). rewrite foldl_app. cbn [foldl].
    set (obj := foldl addEntry ∅ l) in *.
    rewrite fmap_app, amountsIn_snoc. change (cur <$> [e]) with [cur e].
    unfold addAssign.
    destruct (decide (cur e = c)) as [Heq|Hne].
    + subst c. rewrite decide_True by (apply elem_of_app; right; apply list_elem_of_singleton;
                              reflexivity).
      rewrite lookup_insert_eq, sum_snoc. f_equal. f_equal.
      rewrite (ensureCurrency_lookup obj (cur e) (Num.sum (amountsIn cur amt (cur e) l)));
        [reflexivity|apply sum_is_int, amountsIn_is_int, Hl|].
      rewrite IH. destruct (decide (cur e ∈ cur <$> l)) as [Hin|Hout]; [left; reflexivity|].
      right. split; [reflexivity|]. rewrite (amountsIn_absent _ _ Hout). reflexivity.
    + rewrite lookup_insert_ne by exact Hne.
      rewrite ensureCurrency_lookup_ne by exact Hne.
      rewrite IH, app_nil_r.
      destruct (decide (c ∈ cur <$> l)) as [Hin|Hout].
      * rewrite decide_True by (apply elem_of_app; left; exact Hin). reflexivity.
      * rewrite decide_False; [reflexivity|].
        rewrite elem_of_app, list_elem_of_singleton. intros [?|?]; congruence.
Qed.

Lemma totals_dom (l : list E) :
  Forall (fun e => Num.is_int (amt e) = true) l ->
  dom (foldl addEntry ∅ l) = (list_to_set (cur <$> l) : gset string).
Proof.
  intros H. apply set_eq. intros c.
  rewrite elem_of_dom, elem_of_list_to_set, (totals_lookup l c H).
  destruct (decide (c ∈ cur <$> l)) as [Hin|Hout].
  - split; [intros _; exact Hin|intros _; eexists; reflexivity].
  - split; [intros [? ?]; discriminate|intros ?; contradiction].
Qed.

End Totals.



(** ** The lending summary *)

Section LendingSummary.

Local Abbreviation pendingLend :=
  (fun e : Lending.t => Lending.status e = "pending" /\ Lending.type e = "lend").

Local Abbreviation pendingBorrow :=
  (fun e : Lending.t => Lending.status e = "pending" /\ Lending.type e = "borrow").

Local Abbreviation addLending :=
  (fun (obj : gmap string num) (e : Lending.t) =>
     addAssign (ensureCurrency obj (Lending.currency e))
       (Lending.currency e) (Lending.amountFils e)).



End LendingSummary.



(** * Further properties of the code *)

(** ** Month keys *)

Section MonthKeys.

Local Open Scope Z_scope.

Lemma split_no_sep (sep : ascii) (s : string) :
  has_char sep s = false -> Str.split sep s = [s].
Proof.
  induction s as [|c s IH]; intros H; [reflexivity|].
  cbn [has_char] in H. apply orb_false_elim in H as [Hc Hs].
  cbn [Str.split]. rewrite Hc, (IH Hs). reflexivity.
Qed.

Lemma split_app_sep (sep : ascii) (a rest : string) :
  has_char sep a = false ->
  Str.split sep (a +:+ String sep rest) = a :: Str.split sep rest.
Proof.
  induction a as [|c a IH]; intros H.
  - rewrite app_empty_l. cbn [Str.split]. rewrite Ascii.eqb_refl. reflexivity.
  - cbn [has_char] in H. apply orb_false_elim in H as [Hc Ha].
    rewrite app_cons. cbn [Str.split]. rewrite Hc, (IH Ha). reflexivity.
Qed.

Lemma has_char_digits (c : ascii) (s : string) :
  Str.is_digit c = false -> Str.all_digits s = true -> has_char c s = false.
Proof.
  intros Hc. induction s as [|d s IH]; intros H; [reflexivity|].
  cbn [Str.all_digits] in H. apply andb_prop in H as [Hd Hs].
  cbn [has_char]. rewrite (IH Hs), orb_false_r.
  destruct (Ascii.eqb_spec d c) as [->|]; [congruence|reflexivity].
Qed.

Lemma String_nonneg (n : Z) : 0 <= n -> String_ (Int n) = Str.of_nonneg n.
Proof. intros H. unfold String_. destruct (Z.ltb_spec n 0); [lia|reflexivity]. Qed.

(** The two digits of the month in a key. *)
Lemma month_string (m : Z) :
  0 <= m <= 11 ->
  let mm := Str.padStart 2 "0" (String_ (Num.add (Int m) (Int 1))) in
  Str.all_digits mm = true /\ String.length mm = 2%nat /\ Str.value mm = m + 1.
Proof.
  intros Hm.
  assert (A : forallb
                (fun k : nat =>
                   let mm := Str.padStart 2 "0"
                               (String_ (Num.add (Int (Z.of_nat k)) (Int 1))) in
                   Str.all_digits mm
                   && Nat.eqb (String.length mm) 2
                   && (Str.value mm =? Z.of_nat k + 1))
                (seq 0 12) = true) by (vm_compute; reflexivity).
  rewrite forallb_forall in A.
  specialize (A (Z.to_nat m)). rewrite Z2Nat.id in A by lia.
  assert (I : In (Z.to_nat m) (seq 0 12)) by (apply in_seq; lia).
  apply A in I. cbv zeta in I.
  apply andb_prop in I as [I I3]. apply andb_prop in I as [I1 I2].
  cbv zeta. split; [exact I1|]. split; [apply Nat.eqb_eq, I2|apply Z.eqb_eq, I3].
Qed.

(** A key is the year's digits, a dash and the two digits of the month,
    and splits back into the two. *)
Lemma month_key_parts (date : Date) :
  0 <= getFullYear date -> 0 <= getMonth date <= 11 ->
  exists Y M,
    getMonthKeyFromDate date = Y +:+ String "-" M /\
    Str.split "-" (getMonthKeyFromDate date) = [Y; M] /\
    Str.all_digits Y = true /\ Str.value Y = getFullYear date /\
    Str.all_digits M = true /\ Str.value M = getMonth date + 1 /\
    String.length M = 2%nat.
Proof.
  intros Hy Hm. unfold getMonthKeyFromDate. rewrite (String_nonneg _ Hy).
  destruct (of_nonneg_spec _ Hy) as (Yd & Yv & _).
  destruct (month_string _ Hm) as (Md & Ml & Mv).
  eexists _, _. split; [reflexivity|].
  split; [|repeat split; eassumption].
  change ("-" +:+ ?x) with (String "-" x).
  rewrite split_app_sep by (apply has_char_digits; [reflexivity|exact Yd]).
  rewrite split_no_sep by (apply has_char_digits; [reflexivity|exact Md]).
  reflexivity.
Qed.

End MonthKeys.

(** X1.  From the year 100 on, [monthKeyToLabel] builds from the key of a
    date the first day of that date's year and month. *)
Theorem monthKeyToLabel_getMonthKeyFromDate (date : Date) :
  100 <= getFullYear date -> 0 <= getMonth date <= 11 ->
  monthKeyToLabel_dt (getMonthKeyFromDate date) = Some date.
Proof.
  intros Hy Hm.
  destruct (month_key_parts date) as (Y & M & _ & Hs & Yd & Yv & Md & Mv & _);
    [lia|exact Hm|].
  unfold monthKeyToLabel_dt. rewrite Hs. cbn [lookup list_lookup Number_element].
  rewrite (Number_digits Y Yd), (Number_digits M Md), Yv, Mv.
  cbn [Num.sub new_Date].
  destruct (Z.leb_spec (getFullYear date) 99); [lia|]. rewrite andb_false_r.
  destruct date as [y m]. cbn [getFullYear getMonth] in *. f_equal. f_equal.
  - rewrite Z.div_small by lia. lia.
  - rewrite Z.mod_small by lia. lia.
Qed.

Lemma monthKeyToLabel_getMonthKeyFromDate_witness :
  getMonthKeyFromDate (MkDate 2025 2) = "2025-03" /\
  monthKeyToLabel_dt "2025-03" = Some (MkDate 2025 2).
Proof.
  split; [reflexivity|].
  apply (monthKeyToLabel_getMonthKeyFromDate (MkDate 2025 2)); cbn; lia.
Defined.

(** X2.  Two dates of different months, from the year 0 on, have different
    keys. *)
Theorem getMonthKeyFromDate_inj (d1 d2 : Date) :
  0 <= getFullYear d1 -> 0 <= getMonth d1 <= 11 ->
  0 <= getFullYear d2 -> 0 <= getMonth d2 <= 11 ->
  getMonthKeyFromDate d1 = getMonthKeyFromDate d2 -> d1 = d2.
Proof.
  intros Hy1 Hm1 Hy2 Hm2 E.
  destruct (month_key_parts d1 Hy1 Hm1) as (Y1 & M1 & _ & S1 & _ & Yv1 & _ & Mv1 & _).
  destruct (month_key_parts d2 Hy2 Hm2) as (Y2 & M2 & _ & S2 & _ & Yv2 & _ & Mv2 & _).
  rewrite E, S2 in S1. injection S1 as -> ->.
  destruct d1 as [y1 m1], d2 as [y2 m2]. cbn [getFullYear getMonth] in *.
  f_equal; lia.
Qed.

Lemma getMonthKeyFromDate_inj_witness :
  MkDate 2025 2 = MkDate 2025 2.
Proof.
  apply (getMonthKeyFromDate_inj (MkDate 2025 2) (MkDate 2025 2));
    cbn; try lia; reflexivity.
Defined.

(** ** Local storage *)

Section Storage.

Context (JSON_parse : string -> monthData) (JSON_stringify : monthData -> string).

Lemma storage_key_inj (k k' : string) :
  k <> k' -> "budget-" +:+ k <> "budget-" +:+ k'.
Proof. intros Hne E. apply Hne. exact (String.app_inj "budget-" _ _ E). Qed.

Lemma loadMonthDataFrom_missing (k : string) (localStorage : gmap string string) :
  localStorage !! ("budget-" +:+ k) = None ->
  loadMonthDataFrom JSON_parse k localStorage = loadMonthData None.
Proof. intros H. unfold loadMonthDataFrom. rewrite H. reflexivity. Qed.

End Storage.

(** X4.  Saving one month does not change what any other month loads. *)
Theorem saveMonthData_other_month
  (JSON_parse : string -> monthData) (JSON_stringify : monthData -> string)
  (monthKey other : string) (data : monthData)
  (localStorage : gmap string string) :
  monthKey <> other ->
  loadMonthDataFrom JSON_parse other
    (saveMonthData JSON_stringify monthKey data localStorage)
  = loadMonthDataFrom JSON_parse other localStorage.
Proof.
  intros Hne. unfold loadMonthDataFrom, saveMonthData.
  rewrite lookup_insert_ne by (apply storage_key_inj, Hne). reflexivity.
Qed.

Lemma saveMonthData_other_month_witness :
  let parse := fun _ : string => loadMonthData None in
  let stringify := fun _ : monthData => "{}" in
  loadMonthDataFrom parse "2025-04"
    (saveMonthData stringify "2025-03" (loadMonthData None) ∅)
  = loadMonthDataFrom parse "2025-04" ∅.
Proof.
  intros parse stringify.
  apply (saveMonthData_other_month parse stringify "2025-03" "2025-04").
  discriminate.
Defined.

(** X5.  Clearing a month, once confirmed, leaves a fresh ledger on screen
    and in storage for that month and does not change what any other month
    loads; when it is not confirmed, nothing changes. *)
Theorem clearMonth_spec
  (JSON_parse : string -> monthData) (currentMonthKey : string)
  (data : monthData) (localStorage : gmap string string) :
  let cleared := clearMonth JSON_parse true currentMonthKey data localStorage in
  fst cleared = loadMonthData None /\
  loadMonthDataFrom JSON_parse currentMonthKey (snd cleared) = loadMonthData None /\
  (forall other, currentMonthKey <> other ->
     loadMonthDataFrom JSON_parse other (snd cleared)
     = loadMonthDataFrom JSON_parse other localStorage) /\
  clearMonth JSON_parse false currentMonthKey data localStorage
  = (data, localStorage).
Proof.
  cbv zeta. unfold clearMonth. cbn [negb fst snd].
  assert (L : loadMonthDataFrom JSON_parse currentMonthKey
                (delete ("budget-" +:+ currentMonthKey) localStorage)
              = loadMonthData None)
    by (apply loadMonthDataFrom_missing, lookup_delete_eq).
  split; [exact L|]. split; [exact L|]. split; [|reflexivity].
  intros other Hne. unfold loadMonthDataFrom.
  rewrite lookup_delete_ne by (apply storage_key_inj, Hne). reflexivity.
Qed.

Lemma clearMonth_spec_witness :
  let parse := fun _ : string => loadMonthData None in
  let store : gmap string string := {[ "budget-2025-04" := "{}" ]} in
  loadMonthDataFrom parse "2025-04"
    (snd (clearMonth parse true "2025-03" (loadMonthData None) store))
  = loadMonthDataFrom parse "2025-04" store.
Proof.
  intros parse store.
  apply (proj1 (proj2 (proj2 (clearMonth_spec parse "2025-03"
                                (loadMonthData None) store)))).
  discriminate.
Defined.

(** ** Amounts that are not numbers *)

Section NotANumber.

Lemma add_NaN_l (x : num) : Num.add NaN x = NaN.
Proof. reflexivity. Qed.

Lemma sub_NaN_l (x : num) : Num.sub NaN x = NaN.
Proof. reflexivity. Qed.

Ltac case_code :=
  repeat match goal with
         | |- context [match ?x with _ => _ end] =>
             lazymatch x with
             | context [match _ with _ => _ end] => fail
             | _ => destruct x eqn:?
             end
         end.

Lemma step_wallet_NaN (a : action) (md : monthData) :
  wallet md = NaN -> wallet (step a md) = NaN.
Proof.
  intros H. destruct md as [inc exps lend w s]. cbn [wallet] in H. subst w.
  destruct a; cbn [step];
    unfold incomeSubmit, expenseSubmit, lbSubmit, handleEdit, handleDelete,
      walletToSavings, incomeToSavings;
    cbn [wallet savings income expenses lending set_wallet set_savings
         set_income set_expenses set_lending];
    case_code; reflexivity.
Qed.

Lemma step_savings_NaN (a : action) (md : monthData) :
  savings md = NaN -> savings (step a md) = NaN.
Proof.
  intros H. destruct md as [inc exps lend w s]. cbn [savings] in H. subst s.
  destruct a; cbn [step];
    unfold incomeSubmit, expenseSubmit, lbSubmit, handleEdit, handleDelete,
      walletToSavings, incomeToSavings;
    cbn [wallet savings income expenses lending set_wallet set_savings
         set_income set_expenses set_lending];
    case_code; reflexivity.
Qed.

End NotANumber.

(** X6.  An answer that [amountToFils] turns into [NaN] passes the guards
    of both transfers without an alert: moving it from the wallet makes the
    wallet and the savings [NaN], and crediting it makes the savings
    [NaN]. *)
Theorem transfer_of_NaN (amountStr : string) (md : monthData) :
  Str.truthy amountStr = true ->
  amountToFils amountStr = NaN ->
  walletToSavings (Some amountStr) md
  = ({| income := income md; expenses := expenses md; lending := lending md;
        wallet := NaN; savings := NaN |}, None) /\
  incomeToSavings (Some amountStr) md
  = ({| income := income md; expenses := expenses md; lending := lending md;
        wallet := wallet md; savings := NaN |}, None).
Proof.
  intros Ht Ha. unfold walletToSavings, incomeToSavings. rewrite Ht, Ha.
  destruct md as [inc exps lend [|w] [|s]]; split; reflexivity.
Qed.

Lemma transfer_of_NaN_witness :
  let md := {| income := []; expenses := []; lending := [];
               wallet := Int 74500; savings := Int 50000 |} in
  walletToSavings (Some "abc") md
  = ({| income := []; expenses := []; lending := [];
        wallet := NaN; savings := NaN |}, None).
Proof.
  intros md. exact (proj1 (transfer_of_NaN "abc" md eq_refl eq_refl)).
Defined.

(** X7.  A wallet that is [NaN] stays [NaN] through every sequence of
    actions, and so do savings that are [NaN]. *)
Theorem NaN_balance_stays (acts : list action) (md : monthData) :
  (wallet md = NaN -> wallet (run acts md) = NaN) /\
  (savings md = NaN -> savings (run acts md) = NaN).
Proof.
  revert md. induction acts as [|a acts IH]; intros md; [split; auto|].
  cbn [run]. split; intros H.
  - apply (proj1 (IH (step a md))), step_wallet_NaN, H.
  - apply (proj2 (IH (step a md))), step_savings_NaN, H.
Qed.

Lemma NaN_balance_stays_witness :
  let md := fst (walletToSavings (Some "abc") (loadMonthData None)) in
  wallet md = NaN /\
  wallet (run [ SubmitIncome "2025-01-05" "Salary" "100.000" "KWD" "";
                ClickWalletToSavings (Some "1.000") ] md) = NaN.
Proof.
  intros md. split; [reflexivity|].
  apply (proj1 (NaN_balance_stays _ md)). reflexivity.
Defined.

(** ** Entries in other currencies *)

Section OtherCurrencies.

Lemma eqb_KWD_false (c : string) : c <> "KWD" -> String.eqb c "KWD" = false.
Proof. intros H. apply String.eqb_neq, H. Qed.

End OtherCurrencies.

(** X8.  An income or expense entry that is not in KWD never touches the
    balances: submitting it, editing it into a currency other than KWD and
    deleting it leave the wallet and the savings as they were, whatever its
    amount. *)
Theorem other_currency_keeps_balances (md : monthData) :
  (forall date source amountStr currency notes,
     currency <> "KWD" ->
     let md' := incomeSubmit date source amountStr currency notes md in
     wallet md' = wallet md /\ savings md' = savings md) /\
  (forall date category amountStr currency method notes,
     currency <> "KWD" ->
     let md' := expenseSubmit date category amountStr currency method notes md in
     wallet md' = wallet md /\ savings md' = savings md) /\
  (forall index ans e,
     income md !! index = Some e ->
     Income.currency e <> "KWD" ->
     orElse (newCurrency ans) (Income.currency e) <> "KWD" ->
     let md' := handleEdit income_row index ans md in
     wallet md' = wallet md /\ savings md' = savings md) /\
  (forall index ans e,
     expenses md !! index = Some e ->
     Expense.currency e <> "KWD" ->
     orElse (newCurrency ans) (Expense.currency e) <> "KWD" ->
     let md' := handleEdit expense_row index ans md in
     wallet md' = wallet md /\ savings md' = savings md) /\
  (forall index confirmed e,
     income md !! index = Some e ->
     Income.currency e <> "KWD" ->
     let md' := handleDelete income_row index confirmed md in
     wallet md' = wallet md /\ savings md' = savings md) /\
  (forall index confirmed e,
     expenses md !! index = Some e ->
     Expense.currency e <> "KWD" ->
     let md' := handleDelete expense_row index confirmed md in
     wallet md' = wallet md /\ savings md' = savings md).
Proof.
  refine (conj _ (conj _ (conj _ (conj _ (conj _ _))))).
  - intros date source amountStr currency notes Hc. unfold incomeSubmit.
    rewrite (eqb_KWD_false _ Hc). destruct (_ || _); split; reflexivity.
  - intros date category amountStr currency method notes Hc. unfold expenseSubmit.
    rewrite (eqb_KWD_false _ Hc). destruct (_ || _); split; reflexivity.
  - intros index ans e He Hc Hc'. unfold handleEdit. rewrite He.
    cbv zeta. cbn [Income.currency].
    rewrite (eqb_KWD_false _ Hc), (eqb_KWD_false _ Hc'). split; reflexivity.
  - intros index ans e He Hc Hc'. unfold handleEdit. rewrite He.
    cbv zeta. cbn [Expense.currency].
    rewrite (eqb_KWD_false _ Hc), (eqb_KWD_false _ Hc'). split; reflexivity.
  - intros index confirmed e He Hc. unfold handleDelete. rewrite He.
    rewrite (eqb_KWD_false _ Hc). destruct confirmed; split; reflexivity.
  - intros index confirmed e He Hc. unfold handleDelete. rewrite He.
    rewrite (eqb_KWD_false _ Hc). destruct confirmed; split; reflexivity.
Qed.

Lemma other_currency_keeps_balances_witness :
  let md := incomeSubmit "2025-01-05" "Salary" "abc" "USD" ""
              {| income := []; expenses := []; lending := [];
                 wallet := Int 700; savings := Int 300 |} in
  income md = [Income.Build "2025-01-05" "Salary" NaN "USD" ""] /\
  wallet (handleDelete income_row 0 true md) = Int 700 /\
  savings (handleDelete income_row 0 true md) = Int 300.
Proof.
  intros md. split; [reflexivity|].
  refine (proj1 (proj2 (proj2 (proj2 (proj2 (other_currency_keeps_balances md)))))
            0%nat true _ eq_refl _).
  discriminate.
Defined.

(** ** Actions that are ignored *)

(** X9.  A form submitted with an empty date, main field or amount, an
    edit or a delete of a row beyond the end of its table, a delete that is
    not confirmed, and a transfer whose prompt is cancelled or left empty,
    return the ledger as it was, without an alert. *)
Theorem ignored_actions (md : monthData) :
  (forall date source amountStr currency notes,
     date = "" \/ source = "" \/ amountStr = "" ->
     incomeSubmit date source amountStr currency notes md = md) /\
  (forall date category amountStr currency method notes,
     date = "" \/ category = "" \/ amountStr = "" ->
     expenseSubmit date category amountStr currency method notes md = md) /\
  (forall date name amountStr currency reason type status,
     date = "" \/ name = "" \/ amountStr = "" ->
     lbSubmit date name amountStr currency reason type status md = md) /\
  (forall type index ans,
     (rowCount type md <= index)%nat -> handleEdit type index ans md = md) /\
  (forall type index confirmed,
     (rowCount type md <= index)%nat \/ confirmed = false ->
     handleDelete type index confirmed md = md) /\
  (forall amountStr,
     amountStr = None \/ amountStr = Some "" ->
     walletToSavings amountStr md = (md, None) /\
     incomeToSavings amountStr md = (md, None)).
Proof.
  refine (conj _ (conj _ (conj _ (conj _ (conj _ _))))).
  - intros date source amountStr currency notes [->|[->| ->]]; unfold incomeSubmit;
      cbn [Str.truthy negb orb]; rewrite ?orb_true_r; reflexivity.
  - intros date category amountStr currency method notes [->|[->| ->]];
      unfold expenseSubmit;
      cbn [Str.truthy negb orb]; rewrite ?orb_true_r; reflexivity.
  - intros date name amountStr currency reason type status [->|[->| ->]];
      unfold lbSubmit;
      cbn [Str.truthy negb orb]; rewrite ?orb_true_r; reflexivity.
  - intros type index ans H. unfold handleEdit.
    destruct type; cbn [rowCount] in H;
      rewrite (lookup_ge_None_2 _ _ H); reflexivity.
  - intros type index confirmed [H| ->]; unfold handleDelete; [|reflexivity].
    destruct confirmed; [|reflexivity]. cbn [negb].
    destruct type; cbn [rowCount] in H;
      rewrite (lookup_ge_None_2 _ _ H); reflexivity.
  - intros amountStr [->| ->]; split; reflexivity.
Qed.

Lemma ignored_actions_witness :
  let md := {| income := [Income.Build "2025-01-05" "Salary" (Int 1000) "KWD" ""];
               expenses := []; lending := [];
               wallet := Int 1000; savings := Int 0 |} in
  incomeSubmit "2025-01-06" "" "5.000" "KWD" "" md = md /\
  handleDelete income_row 1 true md = md.
Proof.
  intros md. split.
  - apply (proj1 (ignored_actions md)). right. left. reflexivity.
  - apply (proj1 (proj2 (proj2 (proj2 (proj2 (ignored_actions md)))))).
    left. cbn. lia.
Defined.

(** ** Moving money to savings *)

(** X10.  Moving money from the wallet to savings, both within half the
    range of exact arithmetic, never changes their sum, never adds to the
    wallet, and leaves the wallet at zero or above whenever it moves
    anything; a wallet below zero is never drawn on. *)
Theorem walletToSavings_conserves (amountStr : answer) (md : monthData) (w s : Z) :
  wallet md = Int w -> savings md = Int s ->
  inRange (wallet md) = true -> inRange (savings md) = true ->
  numeral_answer amountStr = true ->
  exists w' s',
    wallet (fst (walletToSavings amountStr md)) = Int w' /\
    savings (fst (walletToSavings amountStr md)) = Int s' /\
    w' + s' = w + s /\ w' <= w /\ (w' <> w -> 0 <= w') /\ (w < 0 -> w' = w).
Proof.
  intros Hw Hs _ _ Hn. unfold walletToSavings.
  destruct amountStr as [str|]; [|exists w, s; cbn; repeat split; auto; lia].
  cbn [numeral_answer] in Hn.
  destruct (Str.truthy str); [|exists w, s; cbn; repeat split; auto; lia].
  unfold numeral in Hn. destruct (amountToFils str) as [|a]; [discriminate|].
  cbn [negb]. rewrite Hw.
  destruct (Num.leb (Int a) (Int 0) || Num.gtb (Int a) (Int w)) eqn:G.
  - exists w, s. cbn. repeat split; auto; lia.
  - apply orb_false_elim in G as [G1 G2]. unfold Num.gtb in G2.
    cbn [Num.leb Num.ltb] in G1, G2.
    apply Z.leb_gt in G1. apply Z.ltb_ge in G2.
    exists (w - a), (s + a).
    cbn [fst wallet savings set_wallet set_savings]. rewrite Hs. cbn [Num.sub Num.add].
    repeat split; lia.
Qed.

Lemma walletToSavings_conserves_witness :
  let md := {| income := []; expenses := []; lending := [];
               wallet := Int 74500; savings := Int 100 |} in
  exists w' s',
    wallet (fst (walletToSavings (Some "50.000") md)) = Int w' /\
    savings (fst (walletToSavings (Some "50.000") md)) = Int s' /\
    w' + s' = 74500 + 100 /\ w' <= 74500 /\
    (w' <> 74500 -> 0 <= w') /\ (74500 < 0 -> w' = 74500).
Proof.
  intros md.
  exact (walletToSavings_conserves (Some "50.000") md 74500 100
           eq_refl eq_refl eq_refl eq_refl eq_refl).
Defined.

(** ** Undoing a submission *)

(** X11.  Deleting the row a form has just added gives back the ledger as it
    was before the submission: for an income and for an expense entry when
    the amount typed and the balance it touches are within half the range
    of exact arithmetic, and for a lending entry always. *)
Theorem delete_after_submit (md : monthData) :
  (forall date source amountStr currency notes,
     inRange (wallet md) = true -> inRange (amountToFils amountStr) = true ->
     handleDelete income_row (length (income md)) true
       (incomeSubmit date source amountStr currency notes md) = md) /\
  (forall date category amountStr currency method notes,
     inRange (wallet md) = true -> inRange (savings md) = true ->
     inRange (amountToFils amountStr) = true ->
     handleDelete expense_row (length (expenses md)) true
       (expenseSubmit date category amountStr currency method notes md) = md) /\
  (forall date name amountStr currency reason type status,
     handleDelete lending_row (length (lending md)) true
       (lbSubmit date name amountStr currency reason type status md) = md).
Proof.
  destruct md as [inc exps lend w s].
  cbn [income expenses lending wallet savings].
  refine (conj _ (conj _ _)).
  - intros date source amountStr currency notes Hw Hn.
    destruct w as [|w]; [discriminate|].
    unfold incomeSubmit, handleDelete.
    destruct (amountToFils amountStr) as [|a]; [discriminate|].
    destruct (_ || _); cbn [negb].
    + cbn [income]. rewrite (lookup_ge_None_2 inc (length inc)) by lia. reflexivity.
    + destruct (String.eqb currency "KWD") eqn:E;
        cbn [income set_income set_wallet wallet expenses lending savings];
        rewrite (list_lookup_middle inc [] _ (length inc) eq_refl);
        cbn [Income.currency Income.amountFils]; rewrite E;
        cbn [income set_income set_wallet wallet expenses lending savings Num.add Num.sub];
        rewrite (delete_middle inc []), app_nil_r;
        unfold set_income, set_expenses, set_lending, set_wallet, set_savings;
        cbn [income expenses lending wallet savings]; repeat f_equal; lia.
  - intros date category amountStr currency method notes Hw Hs Hn.
    destruct w as [|w]; [discriminate|]. destruct s as [|s]; [discriminate|].
    unfold expenseSubmit, handleDelete.
    destruct (amountToFils amountStr) as [|a]; [discriminate|].
    destruct (_ || _); cbn [negb].
    + cbn [expenses]. rewrite (lookup_ge_None_2 exps (length exps)) by lia. reflexivity.
    + destruct (String.eqb currency "KWD") eqn:E;
        [destruct (String.eqb method "wallet") eqn:E1;
         [|destruct (String.eqb method "bank") eqn:E2]|];
        cbn [income set_expenses set_wallet set_savings wallet expenses lending savings];
        rewrite (list_lookup_middle exps [] _ (length exps) eq_refl);
        cbn [Expense.currency Expense.amountFils Expense.method];
        rewrite ?E, ?E1, ?E2;
        cbn [income set_expenses set_wallet set_savings wallet expenses lending
             savings Num.add Num.sub];
        rewrite (delete_middle exps []), app_nil_r;
        unfold set_income, set_expenses, set_lending, set_wallet, set_savings;
        cbn [income expenses lending wallet savings]; repeat f_equal; lia.
  - intros date name amountStr currency reason type status.
    unfold lbSubmit, handleDelete.
    destruct (_ || _); cbn [negb].
    + cbn [lending]. rewrite (lookup_ge_None_2 lend (length lend)) by lia. reflexivity.
    + cbn [lending set_lending].
      rewrite (list_lookup_middle lend [] _ (length lend) eq_refl).
      cbn [income set_lending wallet expenses lending savings].
      rewrite (delete_middle lend []), app_nil_r. reflexivity.
Qed.

Lemma delete_after_submit_witness :
  let md := {| income := [Income.Build "2025-01-05" "Salary" (Int 1000) "KWD" ""];
               expenses := []; lending := [];
               wallet := Int 1000; savings := Int 0 |} in
  handleDelete income_row 1 true
    (incomeSubmit "2025-01-06" "Gift" "5.250" "KWD" "" md) = md.
Proof.
  intros md.
  exact (proj1 (delete_after_submit md)
           "2025-01-06" "Gift" "5.250" "KWD" "" eq_refl eq_refl).
Defined.

(** ** Accepting the defaults of an edit *)

Section AcceptDefaults.

Local Open Scope Z_scope.

Lemma orElse_same (x : string) : orElse (Some x) x = x.
Proof. unfold orElse. destruct (Str.truthy x); reflexivity. Qed.

(** The amount shown in the prompt reads back as the amount, when it is
    not negative. *)
Lemma newAmountFils_default (a : Z) :
  0 <= a -> newAmountFils (Some (filsToAmountString (Int a))) (Int a) = Int a.
Proof.
  intros Ha. unfold newAmountFils.
  destruct (Str.truthy _); [|reflexivity].
  apply amountToFils_filsToAmountString_nonneg, Ha.
Qed.

(** A negative amount is shown with its sign in front and so read back
    with the sign on the whole part only. *)
Lemma newAmountFils_default_neg (a : Z) :
  a < 0 ->
  newAmountFils (Some (filsToAmountString (Int a))) (Int a)
  = Int (a + 2 * (Z.abs a mod 1000)).
Proof.
  intros Ha. unfold newAmountFils. rewrite filsToAmountString_Int.
  destruct (Z.ltb_spec a 0) as [_|?]; [|lia].
  destruct (of_nonneg_spec (Z.abs a / 1000)) as (Hd & Hv & Hne);
    [apply Z.div_pos; lia|].
  destruct (fraction_string (Z.abs a mod 1000)) as (Pd & Pl & Pv);
    [apply Z.mod_pos_bound; lia|].
  set (Q := Str.of_nonneg (Z.abs a / 1000)) in *.
  set (P := Str.padStart 3 "0" (String_ (Int (Z.abs a mod 1000)))) in *.
  change ("-" +:+ Q +:+ "." +:+ P) with (String "-" Q +:+ "." +:+ P).
  rewrite app_cons. cbn [Str.truthy]. rewrite <- app_cons.
  rewrite (amountToFils_three _ _ (split_minus _ (split_digits _ Hd)) Pd Pl).
  rewrite (Number_minus_digits _ Hd Hne), Hv, Pv. simpl. f_equal.
  pose proof (Z.div_mod (Z.abs a) 1000). lia.
Qed.

End AcceptDefaults.

(** X12.  Editing an income or an expense entry whose amount is not
    negative and accepting the default of every prompt gives back the
    ledger as it was, when the amount and the balances the entry can touch
    are within half the range of exact arithmetic. *)
Theorem edit_accepting_defaults (md : monthData) (index : nat) :
  (forall e a,
     income md !! index = Some e -> Income.amountFils e = Int a -> (0 <= a)%Z ->
     inRange (Income.amountFils e) = true -> inRange (wallet md) = true ->
     handleEdit income_row index (incomeDefaults e) md = md) /\
  (forall e a,
     expenses md !! index = Some e -> Expense.amountFils e = Int a -> (0 <= a)%Z ->
     inRange (Expense.amountFils e) = true ->
     inRange (wallet md) = true -> inRange (savings md) = true ->
     handleEdit expense_row index (expenseDefaults e) md = md).
Proof.
  destruct md as [inc exps lend w s].
  cbn [income expenses wallet savings]. split.
  - intros e a He Ha Hpos _ Hw. destruct w as [|w]; [discriminate|].
    unfold handleEdit. cbn [income]. rewrite He.
    destruct e as [d src amt c n]. cbn [Income.amountFils] in Ha. subst amt.
    unfold incomeDefaults.
    cbn [newDate newMainField newAmountStr newCurrency newNotes
         Income.date Income.source Income.amountFils Income.currency Income.notes].
    rewrite !orElse_same, (newAmountFils_default a Hpos). cbv zeta.
    cbn [Income.currency Income.amountFils].
    destruct (String.eqb c "KWD");
      unfold set_income, set_wallet; cbn [income expenses lending wallet savings Num.add Num.sub];
      rewrite (list_insert_id _ _ _ He); repeat f_equal; lia.
  - intros e a He Ha Hpos _ Hw Hs.
    destruct w as [|w]; [discriminate|]. destruct s as [|s]; [discriminate|].
    unfold handleEdit. cbn [expenses]. rewrite He.
    destruct e as [d cat amt c m n]. cbn [Expense.amountFils] in Ha. subst amt.
    unfold expenseDefaults.
    cbn [newDate newMainField newAmountStr newCurrency newNotes newMethod
         Expense.date Expense.category Expense.amountFils Expense.currency
         Expense.method Expense.notes].
    rewrite !orElse_same, (newAmountFils_default a Hpos). cbv zeta.
    cbn [Expense.currency Expense.amountFils Expense.method].
    destruct (String.eqb c "KWD");
      [destruct (String.eqb m "wallet"); [|destruct (String.eqb m "bank")]|];
      unfold set_expenses, set_wallet, set_savings;
      cbn [income expenses lending wallet savings Num.add Num.sub];
      rewrite (list_insert_id _ _ _ He); repeat f_equal; lia.
Qed.

Lemma edit_accepting_defaults_witness :
  let e := Expense.Build "2025-01-06" "Food" (Int 25500) "KWD" "wallet" "" in
  let md := {| income := []; expenses := [e]; lending := [];
               wallet := Int 74500; savings := Int 0 |} in
  expenseDefaults e
  = EditAnswers (Some "2025-01-06") (Some "Food") (Some "25.500") (Some "KWD")
      (Some "") (Some "wallet") None None /\
  handleEdit expense_row 0 (expenseDefaults e) md = md.
Proof.
  intros e md. split; [reflexivity|].
  apply (proj2 (edit_accepting_defaults md 0) e 25500);
    [reflexivity|reflexivity|lia|reflexivity|reflexivity|reflexivity].
Defined.

(** X13.  Editing a lending entry whose amount is a safe integer and
    accepting the default of every prompt keeps the date, the name, the
    currency, the type and the status and loses the reason: the notes
    prompt starts empty, and an empty answer stores no reason.  The amount
    is kept when it is not negative; a negative amount is read back from
    its printed form with the sign on the whole part only.  The rest of the
    ledger is as it was. *)
Theorem lending_edit_loses_reason (md : monthData) (index : nat)
  (e : Lending.t) (a : Z) :
  lending md !! index = Some e -> Lending.amountFils e = Int a ->
  isSafeInteger (Lending.amountFils e) = true ->
  handleEdit lending_row index (lendingDefaults e) md
  = set_lending
      (<[index := Lending.Build (Lending.date e) (Lending.name e)
                    (Int (if (a <? 0)%Z then (a + 2 * (Z.abs a mod 1000))%Z else a))
                    (Lending.currency e) None
                    (Lending.type e) (Lending.status e)]> (lending md))
      md.
Proof.
  intros He Ha _. unfold handleEdit. rewrite He.
  destruct e as [d nm amt c r t st]. cbn [Lending.amountFils] in Ha. subst amt.
  unfold lendingDefaults.
  cbn [newDate newMainField newAmountStr newCurrency newNotes newType newStatus
       Lending.date Lending.name Lending.amountFils Lending.currency
       Lending.type Lending.status Str.truthy].
  rewrite !orElse_same.
  destruct (Z.ltb_spec a 0) as [Hneg|Hpos].
  - rewrite (newAmountFils_default_neg a Hneg). reflexivity.
  - rewrite (newAmountFils_default a Hpos). reflexivity.
Qed.

Lemma lending_edit_loses_reason_witness :
  let e := Lending.Build "2025-01-05" "Ali" (Int (-1250)) "KWD" (Some "rent")
             "lend" "pending" in
  let md := {| income := []; expenses := []; lending := [e];
               wallet := Int 0; savings := Int 0 |} in
  lending (handleEdit lending_row 0 (lendingDefaults e) md)
  = [Lending.Build "2025-01-05" "Ali" (Int (-750)) "KWD" None "lend" "pending"].
Proof.
  intros e md.
  rewrite (lending_edit_loses_reason md 0 e (-1250) eq_refl eq_refl eq_refl).
  reflexivity.
Defined.

(** ** Savings per currency *)

Section SavingsTotals.

Lemma foldl_insert_lookup (f : string -> num) (l : list string) (c : string) :
  foldl (fun (m : gmap string num) cur => <[cur := f cur]> m) ∅ l !! c
  = if decide (c ∈ l) then Some (f c) else None.
Proof.
  induction l as [|x l IH] using rev_ind.
  - cbn [foldl]. rewrite lookup_empty, decide_False; [reflexivity|apply not_elem_of_nil].
  - rewrite foldl_app. cbn [foldl].
    destruct (decide (x = c)) as [->|Hne].
    + rewrite lookup_insert_eq, decide_True; [reflexivity|].
      apply elem_of_app. right. apply list_elem_of_singleton. reflexivity.
    + rewrite lookup_insert_ne by exact Hne. rewrite IH.
      destruct (decide (c ∈ l)) as [Hin|Hout].
      * rewrite decide_True; [reflexivity|]. apply elem_of_app. left. exact Hin.
      * rewrite decide_False; [reflexivity|].
        rewrite elem_of_app, list_elem_of_singleton. intros [?|?]; congruence.
Qed.

(** [savingsTotals] has a property for each currency of either totals
    object, holding income less expenses with a missing total as [0]. *)
Lemma savingsTotalsOf_lookup (incomeTotals expenseTotals : gmap string num)
    (c : string) :
  savingsTotalsOf incomeTotals expenseTotals !! c
  = if decide (c ∈ dom incomeTotals ∪ dom expenseTotals)
    then Some (Num.sub (orZero (incomeTotals !! c)) (orZero (expenseTotals !! c)))
    else None.
Proof.
  unfold savingsTotalsOf. cbv zeta.
  rewrite (foldl_insert_lookup
             (fun cur => Num.sub (orZero (incomeTotals !! cur))
                           (orZero (expenseTotals !! cur)))).
  destruct (decide (c ∈ elements (dom incomeTotals ∪ dom expenseTotals))) as [Hin|Hout].
  - rewrite decide_True; [reflexivity|]. apply elem_of_elements, Hin.
  - rewrite decide_False; [reflexivity|]. intros H. apply Hout, elem_of_elements, H.
Qed.

(** With integer amounts, a total read with [|| 0] is the sum of the
    amounts in the currency, present or not. *)
Lemma orZero_total {E : Type} (cur : E -> string) (amt : E -> num)
    (l : list E) (c : string) :
  Forall (fun e => Num.is_int (amt e) = true) l ->
  orZero (foldl (fun (obj : gmap string num) (e : E) =>
                   addAssign (ensureCurrency obj (cur e)) (cur e) (amt e))
            ∅ l !! c)
  = Num.sum (amountsIn cur amt c l).
Proof.
  intros H. rewrite (totals_lookup cur amt l c H).
  destruct (decide (c ∈ cur <$> l)) as [Hin|Hout].
  - pose proof (sum_is_int _ (amountsIn_is_int cur amt c l H)) as I.
    cbn [orZero]. destruct (Num.sum (amountsIn cur amt c l)) as [|z]; [discriminate|].
    cbn [Num.truthy]. destruct (Z.eqb_spec z 0) as [->|]; reflexivity.
  - rewrite (amountsIn_absent cur amt c l Hout). reflexivity.
Qed.

End SavingsTotals.

(** X14.  For income and expense entries whose currencies are not names
    that an object inherits and whose amounts are safe, all together: the
    savings shown per currency have a property for exactly the currencies
    of the income or expense entries, and each holds the sum of the income
    in that currency less the sum of the expenses in it, a side without
    entries counting as zero. *)
Theorem renderDashboard_savingsTotals_spec (md : monthData) :
  forallb (fun e => ownName (Income.currency e)) (income md) = true ->
  forallb (fun e => ownName (Expense.currency e)) (expenses md) = true ->
  safeAmounts ((Income.amountFils <$> income md)
               ++ (Expense.amountFils <$> expenses md)) = true ->
  forall c,
    renderDashboard_savingsTotals md !! c
    = if decide (c ∈ Income.currency <$> income md \/
                 c ∈ Expense.currency <$> expenses md)
      then Some (Num.sub
                   (Num.sum (amountsIn Income.currency Income.amountFils c (income md)))
                   (Num.sum (amountsIn Expense.currency Expense.amountFils c (expenses md))))
      else None.
Proof.
  intros _ _ S c. apply safeAmounts_app in S as [Si Se].
  pose proof (safeAmounts_is_int Income.amountFils _ Si) as Hi.
  pose proof (safeAmounts_is_int Expense.amountFils _ Se) as He.
  unfold renderDashboard_savingsTotals, calculateTotals.
  rewrite savingsTotalsOf_lookup.
  rewrite (orZero_total Income.currency Income.amountFils _ c Hi).
  rewrite (orZero_total Expense.currency Expense.amountFils _ c He).
  rewrite (totals_dom Income.currency Income.amountFils _ Hi).
  rewrite (totals_dom Expense.currency Expense.amountFils _ He).
  destruct (decide (c ∈ Income.currency <$> income md \/
                    c ∈ Expense.currency <$> expenses md)) as [Hin|Hout].
  - rewrite decide_True; [reflexivity|].
    rewrite elem_of_union, !elem_of_list_to_set. exact Hin.
  - rewrite decide_False; [reflexivity|].
    rewrite elem_of_union, !elem_of_list_to_set. exact Hout.
Qed.

Lemma renderDashboard_savingsTotals_spec_witness :
  let md :=
    {| income := [ Income.Build "2025-01-05" "Salary" (Int 5000) "USD" "";
                   Income.Build "2025-01-06" "Gift" (Int 1000) "KWD" "" ];
       expenses := [ Expense.Build "2025-01-08" "Food" (Int 300) "KWD" "wallet" "";
                     Expense.Build "2025-01-09" "Book" (Int 700) "EUR" "bank" "" ];
       lending := []; wallet := Int 700; savings := Int 0 |} in
  renderDashboard_savingsTotals md !! "KWD" = Some (Int 700) /\
  renderDashboard_savingsTotals md !! "USD" = Some (Int 5000) /\
  renderDashboard_savingsTotals md !! "EUR" = Some (Int (-700)) /\
  renderDashboard_savingsTotals md !! "GBP" = None.
Proof.
  intros md.
  pose proof (renderDashboard_savingsTotals_spec md eq_refl eq_refl eq_refl) as H.
  split; [exact (H "KWD")|]. split; [exact (H "USD")|].
  split; [exact (H "EUR")|exact (H "GBP")].
Defined.

(** ** The printed amount *)

Section PrintedAmount.

Local Open Scope Z_scope.

(** The parts of a printed amount. *)
Lemma filsToAmountString_parts (n : Z) :
  exists whole frac,
    filsToAmountString (Int n)
    = (if n <? 0 then "-" else "") +:+ whole +:+ "." +:+ frac /\
    Str.all_digits whole = true /\ whole <> EmptyString /\
    Str.all_digits frac = true /\ String.length frac = 3%nat /\
    Str.value whole * 1000 + Str.value frac = Z.abs n.
Proof.
  rewrite filsToAmountString_Int.
  destruct (of_nonneg_spec (Z.abs n / 1000)) as (Hd & Hv & Hne);
    [apply Z.div_pos; lia|].
  destruct (fraction_string (Z.abs n mod 1000)) as (Pd & Pl & Pv);
    [apply Z.mod_pos_bound; lia|].
  eexists _, _. split; [reflexivity|].
  repeat split; try assumption.
  rewrite Hv, Pv. pose proof (Z.div_mod (Z.abs n) 1000). lia.
Qed.

Lemma unsigned_amount_inj (w1 f1 w2 f2 : string) :
  Str.all_digits w1 = true -> Str.all_digits w2 = true ->
  Str.all_digits f1 = true -> Str.all_digits f2 = true ->
  w1 +:+ "." +:+ f1 = w2 +:+ "." +:+ f2 -> w1 = w2 /\ f1 = f2.
Proof.
  intros W1 W2 F1 F2 E. apply (f_equal (Str.split ".")) in E.
  change ("." +:+ ?x) with (String "." x) in E.
  rewrite !split_app_sep in E by (apply has_char_digits; [reflexivity|assumption]).
  rewrite !split_no_sep in E by (apply has_char_digits; [reflexivity|assumption]).
  injection E as -> ->. split; reflexivity.
Qed.

Lemma digits_not_minus (w rest : string) (t : string) :
  Str.all_digits w = true -> w <> EmptyString -> w +:+ rest <> "-" +:+ t.
Proof.
  intros Hd Hne E. destruct w as [|c w]; [congruence|].
  rewrite app_cons in E. injection E as -> _. discriminate.
Qed.

End PrintedAmount.

(** X15.  The printed amount of a safe integer [n] of fils is a minus sign
    when [n] is negative, then the digits of the whole part, a dot and
    exactly three digits; whole part and fraction together are the absolute
    value of [n]. *)
Theorem filsToAmountString_format (n : Z) :
  isSafeInteger (Int n) = true ->
  exists whole frac,
    filsToAmountString (Int n)
    = (if (n <? 0)%Z then "-" else "") +:+ whole +:+ "." +:+ frac /\
    Str.all_digits whole = true /\ whole <> EmptyString /\
    Str.all_digits frac = true /\ String.length frac = 3%nat /\
    (Str.value whole * 1000 + Str.value frac = Z.abs n)%Z.
Proof. intros _. apply filsToAmountString_parts. Qed.

Lemma filsToAmountString_format_witness :
  exists whole frac,
    filsToAmountString (Int (-1250)) = "-" +:+ whole +:+ "." +:+ frac /\
    Str.all_digits whole = true /\ whole <> EmptyString /\
    Str.all_digits frac = true /\ String.length frac = 3%nat /\
    (Str.value whole * 1000 + Str.value frac = 1250)%Z.
Proof. exact (filsToAmountString_format (-1250) eq_refl). Defined.

(** X16.  Different amounts are printed differently. *)
Theorem filsToAmountString_inj (n m : Z) :
  filsToAmountString (Int n) = filsToAmountString (Int m) -> n = m.
Proof.
  destruct (filsToAmountString_parts n) as (w1 & f1 & -> & W1 & N1 & F1 & _ & V1).
  destruct (filsToAmountString_parts m) as (w2 & f2 & -> & W2 & N2 & F2 & _ & V2).
  destruct (Z.ltb_spec n 0) as [Hn|Hn]; destruct (Z.ltb_spec m 0) as [Hm|Hm]; intros E.
  - change ("-" +:+ ?x) with (String "-" x) in E. injection E as E.
    destruct (unsigned_amount_inj _ _ _ _ W1 W2 F1 F2 E) as [-> ->]. lia.
  - rewrite app_empty_l in E. symmetry in E.
    exfalso. exact (digits_not_minus _ _ _ W2 N2 E).
  - rewrite app_empty_l in E.
    exfalso. exact (digits_not_minus _ _ _ W1 N1 E).
  - rewrite !app_empty_l in E.
    destruct (unsigned_amount_inj _ _ _ _ W1 W2 F1 F2 E) as [-> ->]. lia.
Qed.

Lemma filsToAmountString_inj_witness :
  filsToAmountString (Int (-750)) = "-0.750" /\ (-750 = -750)%Z.
Proof.
  split; [reflexivity|].
  apply (filsToAmountString_inj (-750) (-750)). reflexivity.
Defined.

(** ** Text after a second dot *)

(** X17.  [amountToFils] reads the text before the first dot and the text
    between the first and the second; whatever follows a second dot is
    ignored. *)
Theorem amountToFils_second_dot (a b rest : string) :
  has_char "." a = false -> has_char "." b = false ->
  amountToFils (a +:+ "." +:+ b +:+ "." +:+ rest) = amountToFils (a +:+ "." +:+ b).
Proof.
  intros Ha Hb. unfold amountToFils.
  change (a +:+ "." +:+ b +:+ "." +:+ rest)
    with (a +:+ String "." (b +:+ String "." rest)).
  change (a +:+ "." +:+ b) with (a +:+ String "." b).
  rewrite !(split_app_sep "." a) by exact Ha.
  rewrite (split_app_sep "." b) by exact Hb.
  rewrite (split_no_sep "." b) by exact Hb. reflexivity.
Qed.

Lemma amountToFils_second_dot_witness :
  amountToFils "1.2.3" = amountToFils "1.2" /\ amountToFils "1.2" = Int 1200.
Proof.
  split; [|reflexivity].
  exact (amountToFils_second_dot "1" "2" "3" eq_refl eq_refl).
Defined.

(** ** Totals with any amounts *)

Section AnyAmounts.

Context {E : Type} (cur : E -> string) (amt : E -> num).

#[local] Set Warnings "-clear-no-such-hyp".

Local Abbreviation addEntry :=
  (fun (obj : gmap string num) (e : E) =>
     addAssign (ensureCurrency obj (cur e)) (cur e) (amt e)).

Lemma addEntry_lookup_ne (obj : gmap string num) (e : E) (c : string) :
  cur e <> c -> addEntry obj e !! c = obj !! c.
Proof.
  intros Hne. unfold addAssign.
  rewrite lookup_insert_ne by exact Hne. apply ensureCurrency_lookup_ne, Hne.
Qed.

Lemma addEntry_lookup_eq (obj : gmap string num) (e : E) :
  addEntry obj e !! cur e = Some (Num.add (orZero (obj !! cur e)) (amt e)).
Proof.
  unfold addAssign. rewrite lookup_insert_eq. f_equal. f_equal.
  unfold ensureCurrency, orZero.
  destruct (obj !! cur e) as [v|] eqn:Hv.
  - destruct (Num.truthy v); [rewrite Hv|rewrite lookup_insert_eq]; reflexivity.
  - rewrite lookup_insert_eq. reflexivity.
Qed.

(** The total of a currency depends on the totals object it starts from
    through that currency's property only. *)
Lemma totals_depends (l : list E) (obj1 obj2 : gmap string num) (c : string) :
  obj1 !! c = obj2 !! c ->
  foldl addEntry obj1 l !! c = foldl addEntry obj2 l !! c.
Proof.
  revert obj1 obj2. induction l as [|e l IH]; intros obj1 obj2 H; [exact H|].
  cbn [foldl]. apply IH.
  destruct (decide (cur e = c)) as [<-|Hne].
  - rewrite !addEntry_lookup_eq, H. reflexivity.
  - rewrite !addEntry_lookup_ne by exact Hne. exact H.
Qed.

Lemma totals_filter (l : list E) (obj : gmap string num) (c : string) :
  foldl addEntry obj l !! c
  = foldl addEntry obj (filter (fun e => cur e = c) l) !! c.
Proof.
  revert obj. induction l as [|e l IH]; intros obj; [reflexivity|].
  cbn [foldl]. rewrite filter_cons.
  destruct (decide (cur e = c)) as [Heq|Hne].
  - cbn [foldl]. apply IH.
  - rewrite IH. apply totals_depends, addEntry_lookup_ne, Hne.
Qed.

Lemma totals_dom_any (l : list E) (obj : gmap string num) :
  dom (foldl addEntry obj l) = dom obj ∪ (list_to_set (cur <$> l) : gset string).
Proof.
  revert obj. induction l as [|e l IH]; intros obj.
  - cbn. set_solver.
  - cbn [foldl]. rewrite IH. unfold addAssign. rewrite dom_insert_L.
    assert (D : dom (ensureCurrency obj (cur e)) ⊆ {[cur e]} ∪ dom obj
                /\ dom obj ⊆ dom (ensureCurrency obj (cur e))).
    { unfold ensureCurrency.
      destruct (obj !! cur e) as [v|]; [destruct (Num.truthy v)|];
        rewrite ?dom_insert_L; set_solver. }
    rewrite fmap_cons, list_to_set_cons. set_solver.
Qed.

(** After an amount that is [NaN], the next entry of the same currency
    starts the total again from zero. *)
Lemma totals_restart (l : list E) (obj1 obj2 : gmap string num) (c : string) :
  orZero (obj1 !! c) = orZero (obj2 !! c) ->
  c ∈ cur <$> l ->
  foldl addEntry obj1 l !! c = foldl addEntry obj2 l !! c.
Proof.
  revert obj1 obj2. induction l as [|e l IH]; intros obj1 obj2 H Hin.
  - apply elem_of_nil in Hin. contradiction.
  - cbn [foldl]. destruct (decide (cur e = c)) as [<-|Hne].
    + apply totals_depends. rewrite !addEntry_lookup_eq, H. reflexivity.
    + rewrite fmap_cons in Hin. apply elem_of_cons in Hin as [Heq|Hin]; [congruence|].
      apply IH; [|exact Hin].
      rewrite !addEntry_lookup_ne by exact Hne. exact H.
Qed.

Lemma totals_after_NaN (l1 l2 : list E) (e : E) :
  amt e = NaN -> cur e ∈ cur <$> l2 ->
  foldl addEntry ∅ (l1 ++ e :: l2) !! cur e = foldl addEntry ∅ l2 !! cur e.
Proof.
  intros Ha Hin. rewrite foldl_app. cbn [foldl].
  apply totals_restart; [|exact Hin].
  rewrite addEntry_lookup_eq, Ha, lookup_empty.
  destruct (orZero (foldl addEntry ∅ l1 !! cur e)); reflexivity.
Qed.

End AnyAmounts.

(** X18.  For entries whose currencies are not names that an object
    inherits, and whatever their amounts, [NaN] included: the income totals
    have exactly the currencies of the income entries as properties, the
    total of a currency is the same when the entries of all other
    currencies are taken away, and likewise for the expense totals. *)
Theorem calculateTotals_per_currency (md : monthData) :
  forallb (fun e => ownName (Income.currency e)) (income md) = true ->
  forallb (fun e => ownName (Expense.currency e)) (expenses md) = true ->
  forall c,
    let only_income :=
      set_income (filter (fun e => Income.currency e = c) (income md)) md in
    let only_expenses :=
      set_expenses (filter (fun e => Expense.currency e = c) (expenses md)) md in
    dom (fst (calculateTotals md))
    = (list_to_set (Income.currency <$> income md) : gset string) /\
    fst (calculateTotals md) !! c = fst (calculateTotals only_income) !! c /\
    dom (snd (calculateTotals md))
    = (list_to_set (Expense.currency <$> expenses md) : gset string) /\
    snd (calculateTotals md) !! c = snd (calculateTotals only_expenses) !! c.
Proof.
  intros _ _ c.
  cbv zeta. unfold calculateTotals. cbn [fst snd income expenses set_income set_expenses].
  split; [|split; [|split]].
  - rewrite (totals_dom_any Income.currency Income.amountFils), dom_empty_L.
    apply union_empty_l_L.
  - apply (totals_filter Income.currency Income.amountFils).
  - rewrite (totals_dom_any Expense.currency Expense.amountFils), dom_empty_L.
    apply union_empty_l_L.
  - apply (totals_filter Expense.currency Expense.amountFils).
Qed.

Lemma calculateTotals_per_currency_witness :
  let md :=
    {| income := [ Income.Build "2025-01-05" "Salary" (Int 5000) "USD" "";
                   Income.Build "2025-01-06" "Gift" NaN "KWD" "";
                   Income.Build "2025-01-07" "Bonus" (Int 2000) "USD" "" ];
       expenses := []; lending := []; wallet := NaN; savings := Int 0 |} in
  dom (fst (calculateTotals md)) = (list_to_set ["USD"; "KWD"; "USD"] : gset string) /\
  fst (calculateTotals md) !! "USD"
  = fst (calculateTotals
           (set_income [ Income.Build "2025-01-05" "Salary" (Int 5000) "USD" "";
                         Income.Build "2025-01-07" "Bonus" (Int 2000) "USD" "" ] md))
    !! "USD".
Proof.
  intros md.
  destruct (calculateTotals_per_currency md eq_refl eq_refl "USD") as (D & L & _).
  split; [exact D|exact L].
Defined.

(** X19.  An income entry whose amount is [NaN], in a currency that is not
    a name an object inherits, wipes the total of its currency as soon as
    another entry of that currency follows: the total is then that of the
    entries after it alone.  The same holds for expenses. *)
Theorem calculateTotals_forgets_NaN (md : monthData) :
  (forall l1 e l2,
     income md = l1 ++ e :: l2 ->
     Income.amountFils e = NaN ->
     ownName (Income.currency e) = true ->
     Income.currency e ∈ Income.currency <$> l2 ->
     fst (calculateTotals md) !! Income.currency e
     = fst (calculateTotals (set_income l2 md)) !! Income.currency e) /\
  (forall l1 e l2,
     expenses md = l1 ++ e :: l2 ->
     Expense.amountFils e = NaN ->
     ownName (Expense.currency e) = true ->
     Expense.currency e ∈ Expense.currency <$> l2 ->
     snd (calculateTotals md) !! Expense.currency e
     = snd (calculateTotals (set_expenses l2 md)) !! Expense.currency e).
Proof.
  split; intros l1 e l2 Hl Ha _ Hin; unfold calculateTotals;
    cbn [fst snd income expenses set_income set_expenses]; rewrite Hl.
  - apply (totals_after_NaN Income.currency Income.amountFils l1 l2 e Ha Hin).
  - apply (totals_after_NaN Expense.currency Expense.amountFils l1 l2 e Ha Hin).
Qed.

Lemma calculateTotals_forgets_NaN_witness :
  let md :=
    {| income := [ Income.Build "2025-01-05" "Salary" (Int 5000) "KWD" "";
                   Income.Build "2025-01-06" "Gift" NaN "KWD" "";
                   Income.Build "2025-01-07" "Bonus" (Int 2000) "KWD" "" ];
       expenses := []; lending := []; wallet := NaN; savings := Int 0 |} in
  fst (calculateTotals md) !! "KWD" = Some (Int 2000).
Proof.
  intros md.
  exact (proj1 (calculateTotals_forgets_NaN md)
           [Income.Build "2025-01-05" "Salary" (Int 5000) "KWD" ""]
           (Income.Build "2025-01-06" "Gift" NaN "KWD" "")
           [Income.Build "2025-01-07" "Bonus" (Int 2000) "KWD" ""]
           eq_refl eq_refl eq_refl (list_elem_of_here _ _)).
Defined.

(** ** The lists an action leaves alone *)

Section Frames.

Ltac case_code :=
  repeat match goal with
         | |- context [match ?x with _ => _ end] =>
             lazymatch x with
             | context [match _ with _ => _ end] => fail
             | _ => destruct x eqn:?
             end
         end.

Ltac open_handlers :=
  unfold incomeSubmit, expenseSubmit, lbSubmit, handleEdit, handleDelete,
    walletToSavings, incomeToSavings;
  cbn [wallet savings income expenses lending set_wallet set_savings
       set_income set_expenses set_lending fst snd].

Lemma step_keeps_lending (a : action) (md : monthData) :
  changesLending a = false -> lending (step a md) = lending md.
Proof.
  intros H. destruct md as [inc exps lend w s].
  destruct a as [| | |[| |] ? ?|[| |] ? ?| |]; try discriminate; cbn [step];
    open_handlers; case_code; reflexivity.
Qed.

Lemma step_keeps_income_expenses (a : action) (md : monthData) :
  changesIncomeOrExpenses a = false ->
  income (step a md) = income md /\ expenses (step a md) = expenses md.
Proof.
  intros H. destruct md as [inc exps lend w s].
  destruct a as [| | |[| |] ? ?|[| |] ? ?| |]; try discriminate; cbn [step];
    open_handlers; case_code; split; reflexivity.
Qed.

End Frames.

(** X20.  A sequence of actions none of which submits, edits or deletes a
    lending entry leaves the lending list and the lending summary as they
    were; one none of which submits, edits or deletes an income or expense
    entry leaves those two lists and the totals per currency as they
    were. *)
Theorem run_frames (acts : list action) (md : monthData) :
  (forallb (fun a => negb (changesLending a)) acts = true ->
   lending (run acts md) = lending md /\
   renderLBSummary (run acts md) = renderLBSummary md) /\
  (forallb (fun a => negb (changesIncomeOrExpenses a)) acts = true ->
   income (run acts md) = income md /\
   expenses (run acts md) = expenses md /\
   calculateTotals (run acts md) = calculateTotals md).
Proof.
  split; intros H.
  - assert (L : lending (run acts md) = lending md).
    { revert md. induction acts as [|a acts IH]; intros md; [reflexivity|].
      cbn [forallb] in H. apply andb_prop in H as [Ha Hacts].
      cbn [run]. rewrite (IH Hacts). apply step_keeps_lending.
      apply negb_true_iff, Ha. }
    split; [exact L|]. unfold renderLBSummary. rewrite L. reflexivity.
  - assert (L : income (run acts md) = income md /\
                expenses (run acts md) = expenses md).
    { revert md. induction acts as [|a acts IH]; intros md; [split; reflexivity|].
      cbn [forallb] in H. apply andb_prop in H as [Ha Hacts].
      cbn [run]. destruct (IH Hacts (step a md)) as [-> ->].
      apply step_keeps_income_expenses. apply negb_true_iff, Ha. }
    destruct L as [Li Le]. split; [exact Li|]. split; [exact Le|].
    unfold calculateTotals. rewrite Li, Le. reflexivity.
Qed.

Lemma run_frames_witness :
  let md := {| income := [Income.Build "2025-01-05" "Salary" (Int 100000) "KWD" ""];
               expenses := []; lending := [];
               wallet := Int 100000; savings := Int 0 |} in
  let acts := [ SubmitLending "2025-01-06" "Ali" "5.000" "KWD" "" "lend" "pending";
                ClickWalletToSavings (Some "50.000") ] in
  wallet (run acts md) = Int 50000 /\
  calculateTotals (run acts md) = calculateTotals md.
Proof.
  intros md acts. split; [reflexivity|].
  apply (proj2 (run_frames acts md)). reflexivity.
Defined.

(** ** Repeating an edit *)

Section RepeatedEdit.

Local Open Scope Z_scope.

Lemma orElse_idem (a : answer) (x : string) :
  orElse a (orElse a x) = orElse a x.
Proof. unfold orElse. destruct a as [s|]; [destruct (Str.truthy s) eqn:E; rewrite ?E|]; reflexivity. Qed.

Lemma newAmountFils_idem (a : answer) (old : num) :
  newAmountFils a (newAmountFils a old) = newAmountFils a old.
Proof.
  unfold newAmountFils. destruct a as [s|]; [destruct (Str.truthy s) eqn:E; rewrite ?E|];
    reflexivity.
Qed.

Lemma add_sub_add (x a : num) :
  Num.add (Num.sub (Num.add x a) a) a = Num.add x a.
Proof. destruct x, a; cbn; try reflexivity. f_equal. lia. Qed.

Lemma sub_add_sub (x a : num) :
  Num.sub (Num.add (Num.sub x a) a) a = Num.sub x a.
Proof. destruct x, a; cbn; try reflexivity. f_equal. lia. Qed.

Lemma handleEdit_income_idem index ans md :
  handleEdit income_row index ans (handleEdit income_row index ans md)
  = handleEdit income_row index ans md.
Proof.
  unfold handleEdit at 2 3.
  destruct (income md !! index) as [e|] eqn:He;
    [|unfold handleEdit; rewrite He; reflexivity].
  pose proof (lookup_lt_Some _ _ _ He) as Hlt.
  destruct md as [inc exps lend w s]. cbn [income] in He, Hlt.
  destruct e as [d src a c n]. cbv zeta. cbn [Income.currency Income.amountFils
    Income.date Income.source Income.notes].
  set (c' := orElse (newCurrency ans) c).
  set (a' := newAmountFils (newAmountStr ans) a).
  assert (E : forall w1,
             handleEdit income_row index ans
               {| income := <[index := Income.Build (orElse (newDate ans) d)
                                (orElse (newMainField ans) src) a' c'
                                (orElse (newNotes ans) n)]> inc;
                  expenses := exps; lending := lend;
                  wallet := (if String.eqb c' "KWD" then Num.add w1 a' else w1);
                  savings := s |}
             = {| income := <[index := Income.Build (orElse (newDate ans) d)
                               (orElse (newMainField ans) src) a' c'
                               (orElse (newNotes ans) n)]> inc;
                  expenses := exps; lending := lend;
                  wallet := (if String.eqb c' "KWD" then Num.add w1 a' else w1);
                  savings := s |}).
  { intros w1. unfold handleEdit. cbn [income].
    rewrite list_lookup_insert_eq by exact Hlt. cbv zeta.
    cbn [Income.currency Income.amountFils Income.date Income.source Income.notes].
    subst c' a'. rewrite !orElse_idem, newAmountFils_idem.
    set (c' := orElse (newCurrency ans) c).
    set (a' := newAmountFils (newAmountStr ans) a).
    destruct (String.eqb c' "KWD");
      unfold set_income, set_wallet; cbn [income expenses lending wallet savings];
      rewrite list_insert_insert_eq, ?add_sub_add; reflexivity. }
  destruct (String.eqb c "KWD");
    unfold set_income, set_wallet; cbn [income expenses lending wallet savings];
    [specialize (E (Num.sub w a))|specialize (E w)];
    destruct (String.eqb c' "KWD"); exact E.
Qed.

Lemma handleEdit_expense_idem index ans md :
  handleEdit expense_row index ans (handleEdit expense_row index ans md)
  = handleEdit expense_row index ans md.
Proof.
  unfold handleEdit at 2 3.
  destruct (expenses md !! index) as [e|] eqn:He;
    [|unfold handleEdit; rewrite He; reflexivity].
  pose proof (lookup_lt_Some _ _ _ He) as Hlt.
  destruct md as [inc exps lend w s]. cbn [expenses] in He, Hlt.
  destruct e as [d cat a c m n]. cbv zeta. cbn [Expense.currency Expense.amountFils
    Expense.date Expense.category Expense.notes Expense.method].
  set (c' := orElse (newCurrency ans) c).
  set (m' := orElse (newMethod ans) m).
  set (a' := newAmountFils (newAmountStr ans) a).
  set (e' := Expense.Build (orElse (newDate ans) d) (orElse (newMainField ans) cat)
               a' c' m' (orElse (newNotes ans) n)).
  assert (E : forall w1 s1,
             let w2 := if String.eqb c' "KWD" && String.eqb m' "wallet"
                       then Num.sub w1 a' else w1 in
             let s2 := if String.eqb c' "KWD" && negb (String.eqb m' "wallet")
                          && String.eqb m' "bank"
                       then Num.sub s1 a' else s1 in
             handleEdit expense_row index ans
               {| income := inc; expenses := <[index := e']> exps; lending := lend;
                  wallet := w2; savings := s2 |}
             = {| income := inc; expenses := <[index := e']> exps; lending := lend;
                  wallet := w2; savings := s2 |}).
  { intros w1 s1. cbv zeta. unfold handleEdit. cbn [expenses].
    rewrite list_lookup_insert_eq by exact Hlt. cbv zeta. subst e'.
    cbn [Expense.currency Expense.amountFils Expense.date Expense.category
         Expense.notes Expense.method].
    subst c' m' a'. rewrite !orElse_idem, newAmountFils_idem.
    set (c' := orElse (newCurrency ans) c).
    set (m' := orElse (newMethod ans) m).
    set (a' := newAmountFils (newAmountStr ans) a).
    destruct (String.eqb c' "KWD"); [destruct (String.eqb m' "wallet");
      [|destruct (String.eqb m' "bank")]|];
      unfold set_expenses, set_wallet, set_savings;
      cbn [income expenses lending wallet savings andb negb];
      rewrite list_insert_insert_eq, ?sub_add_sub; reflexivity. }
  destruct (String.eqb c "KWD");
    [destruct (String.eqb m "wallet"); [|destruct (String.eqb m "bank")]|];
    unfold set_expenses, set_wallet, set_savings;
    cbn [income expenses lending wallet savings];
    [specialize (E (Num.add w a) s)|specialize (E w (Num.add s a))
     |specialize (E w s)|specialize (E w s)];
    cbv zeta in E;
    (destruct (String.eqb c' "KWD"); [destruct (String.eqb m' "wallet");
       [|destruct (String.eqb m' "bank")]|]);
    cbn [andb negb] in E; exact E.
Qed.

Lemma handleEdit_lending_idem index ans md :
  handleEdit lending_row index ans (handleEdit lending_row index ans md)
  = handleEdit lending_row index ans md.
Proof.
  unfold handleEdit at 2 3.
  destruct (lending md !! index) as [e|] eqn:He;
    [|unfold handleEdit; rewrite He; reflexivity].
  pose proof (lookup_lt_Some _ _ _ He) as Hlt.
  destruct md as [inc exps lend w s]. cbn [lending] in He, Hlt.
  unfold handleEdit, set_lending. cbn [income expenses lending wallet savings].
  rewrite list_lookup_insert_eq by exact Hlt.
  cbn [Lending.date Lending.name Lending.amountFils Lending.currency
       Lending.type Lending.status].
  rewrite !orElse_idem, newAmountFils_idem, list_insert_insert_eq. reflexivity.
Qed.

End RepeatedEdit.

(** X21.  Giving an edit the same answers a second time changes nothing
    further: the ledger after the two edits is the ledger after the first,
    for every row and every answer, when the ledger is within half the
    range of exact arithmetic before and after the first edit. *)
Theorem handleEdit_idempotent (type : dataType) (index : nat)
  (ans : editAnswers) (md : monthData) :
  ledgerInRange md = true ->
  ledgerInRange (handleEdit type index ans md) = true ->
  handleEdit type index ans (handleEdit type index ans md)
  = handleEdit type index ans md.
Proof.
  intros _ _. destruct type.
  - apply handleEdit_income_idem.
  - apply handleEdit_expense_idem.
  - apply handleEdit_lending_idem.
Qed.

Lemma handleEdit_idempotent_witness :
  let md :=
    {| income := [];
       expenses := [ Expense.Build "2025-01-06" "Food" (Int 25500) "KWD" "wallet" "" ];
       lending := []; wallet := Int 74500; savings := Int 0 |} in
  let ans := EditAnswers None None (Some "10.000") None None (Some "bank") None None in
  handleEdit expense_row 0 ans md
  = {| income := [];
       expenses := [ Expense.Build "2025-01-06" "Food" (Int 10000) "KWD" "bank" "" ];
       lending := []; wallet := Int 100000; savings := Int (-10000) |} /\
  handleEdit expense_row 0 ans (handleEdit expense_row 0 ans md)
  = handleEdit expense_row 0 ans md.
Proof.
  intros md ans. split; [reflexivity|].
  exact (handleEdit_idempotent expense_row 0 ans md eq_refl eq_refl).
Defined.

(** ** What transfers move *)

Section TransferAmounts.

Local Open Scope Z_scope.

Lemma movedBy_nonneg (a : action) (md : monthData) :
  numeric a = true -> exists m, movedBy a md = Int m /\ 0 <= m.
Proof.
  intros Hn. destruct a; cbn [movedBy]; try (exists 0; split; [reflexivity|lia]).
  cbn [numeric] in Hn. unfold walletToSavings, transferred.
  destruct amountStr as [str|]; [|exists 0; split; [reflexivity|lia]].
  cbn [numeral_answer] in Hn.
  destruct (Str.truthy str); [|exists 0; split; [reflexivity|lia]].
  unfold numeral in Hn. destruct (amountToFils str) as [|x]; [discriminate|].
  cbn [negb]. destruct (Num.leb (Int x) (Int 0) || _) eqn:G; cbn [snd].
  - exists 0. split; [reflexivity|lia].
  - exists x. split; [reflexivity|].
    apply orb_false_elim in G as [G _]. cbn [Num.leb] in G. apply Z.leb_gt in G. lia.
Qed.

Lemma creditedBy_nonneg (a : action) (md : monthData) :
  numeric a = true -> exists c, creditedBy a md = Int c /\ 0 <= c.
Proof.
  intros Hn. destruct a; cbn [creditedBy]; try (exists 0; split; [reflexivity|lia]).
  cbn [numeric] in Hn. unfold incomeToSavings, transferred.
  destruct amountStr as [str|]; [|exists 0; split; [reflexivity|lia]].
  cbn [numeral_answer] in Hn.
  destruct (Str.truthy str); [|exists 0; split; [reflexivity|lia]].
  unfold numeral in Hn. destruct (amountToFils str) as [|x]; [discriminate|].
  cbn [negb]. destruct (Num.leb (Int x) (Int 0)) eqn:G; cbn [snd].
  - exists 0. split; [reflexivity|lia].
  - exists x. split; [reflexivity|].
    cbn [Num.leb] in G. apply Z.leb_gt in G. lia.
Qed.

End TransferAmounts.

(** X22.  Along a sequence of actions whose amounts are numerals, what the
    transfers move from the wallet to savings and what they credit to
    savings are integers that are never negative: no transfer takes money
    out of savings. *)
Theorem transfers_never_negative (acts : list action) (md : monthData) :
  forallb numeric acts = true ->
  exists m c,
    movedToSavings acts md = Int m /\ creditedToSavings acts md = Int c /\
    (0 <= m)%Z /\ (0 <= c)%Z.
Proof.
  revert md. induction acts as [|a acts IH]; intros md Hn.
  - exists 0%Z, 0%Z. repeat split; lia.
  - cbn [forallb] in Hn. apply andb_prop in Hn as [Ha Hacts].
    destruct (movedBy_nonneg a md Ha) as (m1 & Em1 & Hm1).
    destruct (creditedBy_nonneg a md Ha) as (c1 & Ec1 & Hc1).
    destruct (IH (step a md) Hacts) as (m2 & c2 & Em2 & Ec2 & Hm2 & Hc2).
    exists (m1 + m2)%Z, (c1 + c2)%Z.
    cbn [movedToSavings creditedToSavings]. rewrite Em1, Em2, Ec1, Ec2.
    repeat split; lia.
Qed.

Lemma transfers_never_negative_witness :
  let md := {| income := []; expenses := []; lending := [];
               wallet := Int 74500; savings := Int 0 |} in
  let acts := [ ClickWalletToSavings (Some "50.000");
                ClickWalletToSavings (Some "-5.000");
                ClickIncomeToSavings (Some "10.500") ] in
  exists m c,
    movedToSavings acts md = Int m /\ creditedToSavings acts md = Int c /\
    (0 <= m)%Z /\ (0 <= c)%Z.
Proof.
  intros md acts. exact (transfers_never_negative acts md eq_refl).
Defined.

(** ** Objects in the order of their properties *)

Section OrderedObjects.

Lemma getProp_setProp (obj : list (string * num)) (k c : string) (v : num) :
  getProp (setProp obj k v) c = if decide (k = c) then Some v else getProp obj c.
Proof.
  induction obj as [|[k' v'] obj IH]; cbn [setProp getProp].
  - destruct (String.eqb_spec k c), (decide (k = c)); congruence.
  - destruct (String.eqb_spec k' k) as [->|Hk]; cbn [getProp].
    + destruct (String.eqb_spec k c), (decide (k = c)); congruence.
    + rewrite IH. destruct (String.eqb_spec k' c), (decide (k = c)); congruence.
Qed.

Lemma getProp_Some_key (obj : list (string * num)) (k : string) (v : num) :
  getProp obj k = Some v -> k ∈ fst <$> obj.
Proof.
  induction obj as [|[k' v'] obj IH]; cbn [getProp]; [discriminate|].
  rewrite fmap_cons. cbn [fst]. destruct (String.eqb_spec k' k) as [->|Hk].
  - intros _. apply list_elem_of_here.
  - intros H. apply list_elem_of_further, IH, H.
Qed.

Lemma keys_setProp (obj : list (string * num)) (k : string) (v : num) :
  fst <$> setProp obj k v
  = if bool_decide (k ∈ fst <$> obj) then fst <$> obj else (fst <$> obj) ++ [k].
Proof.
  induction obj as [|[k' v'] obj IH]; cbn [setProp]; [reflexivity|].
  rewrite fmap_cons. cbn [fst]. destruct (String.eqb_spec k' k) as [->|Hk].
  - clear IH. rewrite fmap_cons. cbn [fst]. case_bool_decide as B; [reflexivity|].
    exfalso. apply B, list_elem_of_here.
  - rewrite fmap_cons, IH. cbn [fst]. clear IH.
    case_bool_decide as B; case_bool_decide as B'; try reflexivity.
    + exfalso. apply B', list_elem_of_further, B.
    + exfalso. apply elem_of_cons in B' as [?|?]; [congruence|contradiction].
Qed.

Lemma keys_setProp_present (obj : list (string * num)) (k : string) (v : num) :
  k ∈ fst <$> obj -> fst <$> setProp obj k v = fst <$> obj.
Proof. intros H. rewrite keys_setProp. case_bool_decide; [reflexivity|contradiction]. Qed.

Lemma key_in_setProp (obj : list (string * num)) (k : string) (v : num) :
  k ∈ fst <$> setProp obj k v.
Proof.
  rewrite keys_setProp. case_bool_decide as B; [exact B|].
  apply elem_of_app. right. apply list_elem_of_here.
Qed.

Lemma getProp_NoDup (obj : list (string * num)) (k : string) (v : num) :
  NoDup (fst <$> obj) -> (k, v) ∈ obj -> getProp obj k = Some v.
Proof.
  induction obj as [|[k' v'] obj IH]; intros Hnd Hin.
  - apply elem_of_nil in Hin. contradiction.
  - rewrite fmap_cons in Hnd. cbn [fst] in Hnd. apply NoDup_cons in Hnd as [Hk Hnd].
    cbn [getProp]. apply elem_of_cons in Hin as [Heq|Hin].
    + injection Heq as -> ->. rewrite String.eqb_refl. reflexivity.
    + destruct (String.eqb_spec k' k) as [->|Hne]; [|apply IH; assumption].
      exfalso. apply Hk. apply (list_elem_of_fmap_2 fst) in Hin. exact Hin.
Qed.

(** The step of a set: a key already there is skipped. *)
Lemma newSet_snoc (l : list string) (x : string) :
  newSet (l ++ [x])
  = if bool_decide (x ∈ newSet l) then newSet l else newSet l ++ [x].
Proof. unfold newSet. rewrite foldl_app. reflexivity. Qed.

Lemma elem_of_newSet (l : list string) (x : string) : x ∈ newSet l <-> x ∈ l.
Proof.
  induction l as [|y l IH] using rev_ind; [reflexivity|].
  rewrite newSet_snoc, elem_of_app, list_elem_of_singleton, <- IH.
  case_bool_decide as B.
  - split; [tauto|]. intros [?| ->]; assumption.
  - rewrite elem_of_app, list_elem_of_singleton. tauto.
Qed.

Lemma NoDup_newSet (l : list string) : NoDup (newSet l).
Proof.
  induction l as [|y l IH] using rev_ind; [constructor|].
  rewrite newSet_snoc. case_bool_decide as B; [exact IH|].
  apply NoDup_app. split; [exact IH|]. split; [|apply NoDup_singleton].
  intros x Hx Hy. apply list_elem_of_singleton in Hy. subst x. contradiction.
Qed.

Lemma newSet_NoDup (l : list string) : NoDup l -> newSet l = l.
Proof.
  induction l as [|y l IH] using rev_ind; intros H; [reflexivity|].
  apply NoDup_app in H as (Hl & Hy & _).
  rewrite newSet_snoc, (IH Hl). case_bool_decide as B; [|reflexivity].
  exfalso. apply (Hy y B), list_elem_of_here.
Qed.

End OrderedObjects.

Section OrderedTotals.

Context {E : Type} (cur : E -> string) (amt : E -> num).

Local Abbreviation addEntry :=
  (fun (obj : gmap string num) (e : E) =>
     addAssign (ensureCurrency obj (cur e)) (cur e) (amt e)).

Local Abbreviation addEntryIn :=
  (fun (obj : list (string * num)) (e : E) =>
     addAssignIn (ensureCurrencyIn obj (cur e)) (cur e) (amt e)).

Lemma addEntryIn_agrees (obj : list (string * num)) (m : gmap string num) (e : E) :
  (forall c, getProp obj c = m !! c) ->
  forall c, getProp (addEntryIn obj e) c = addEntry m e !! c.
Proof.
  intros H c.
  assert (H1 : forall c, getProp (ensureCurrencyIn obj (cur e)) c
                         = ensureCurrency m (cur e) !! c).
  { intros c'. unfold ensureCurrencyIn, ensureCurrency. rewrite H.
    destruct (m !! cur e) as [v|]; [destruct (Num.truthy v)|];
      rewrite ?getProp_setProp, ?lookup_insert; try apply H;
      destruct (decide (cur e = c')); auto. }
  unfold addAssignIn, addAssign.
  rewrite getProp_setProp, lookup_insert, !H1.
  destruct (decide (cur e = c)); auto.
Qed.

Lemma addEntryIn_keys (obj : list (string * num)) (e : E) :
  fst <$> addEntryIn obj e
  = if bool_decide (cur e ∈ fst <$> obj) then fst <$> obj else (fst <$> obj) ++ [cur e].
Proof.
  unfold addAssignIn, ensureCurrencyIn.
  destruct (getProp obj (cur e)) as [v|] eqn:G; [destruct (Num.truthy v)|].
  - apply keys_setProp.
  - rewrite keys_setProp_present by apply key_in_setProp. apply keys_setProp.
  - rewrite keys_setProp_present by apply key_in_setProp. apply keys_setProp.
Qed.

Lemma totalsIn_agrees (l : list E) (c : string) :
  getProp (foldl addEntryIn [] l) c = foldl addEntry ∅ l !! c.
Proof.
  revert c. induction l as [|e l IH] using rev_ind; intros c.
  - cbn. rewrite lookup_empty. reflexivity.
  - rewrite !foldl_app. cbn [foldl]. apply addEntryIn_agrees, IH.
Qed.

Lemma totalsIn_keys (l : list E) :
  fst <$> foldl addEntryIn [] l = newSet (cur <$> l).
Proof.
  induction l as [|e l IH] using rev_ind; [reflexivity|].
  rewrite foldl_app, fmap_app. cbn [foldl]. change (cur <$> [e]) with [cur e].
  rewrite newSet_snoc, addEntryIn_keys, IH. reflexivity.
Qed.

End OrderedTotals.

(** The totals in property order hold, for every currency, what the totals
    hold, and list the currencies once each in the order in which they were
    first set. *)
Lemma calculateTotalsIn_agrees (md : monthData) :
  (forall c, getProp (fst (calculateTotalsIn md)) c = fst (calculateTotals md) !! c) /\
  fst <$> fst (calculateTotalsIn md) = newSet (Income.currency <$> income md) /\
  (forall c, getProp (snd (calculateTotalsIn md)) c = snd (calculateTotals md) !! c) /\
  fst <$> snd (calculateTotalsIn md) = newSet (Expense.currency <$> expenses md).
Proof.
  unfold calculateTotalsIn, calculateTotals. cbn [fst snd].
  split; [|split; [|split]].
  - intros c. apply (totalsIn_agrees Income.currency Income.amountFils).
  - apply (totalsIn_keys Income.currency Income.amountFils).
  - intros c. apply (totalsIn_agrees Expense.currency Expense.amountFils).
  - apply (totalsIn_keys Expense.currency Expense.amountFils).
Qed.

(** ** The texts of the dashboard *)

Section DashboardTexts.

Lemma formatCurrency_text (v : num) (c : string) :
  formatCurrency v c = c +:+ " " +:+ filsToAmountString v.
Proof. unfold formatCurrency. destruct (String.eqb_spec c "KWD") as [->|]; reflexivity. Qed.

(** The display of an object whose properties are listed once each. *)
Lemma totalsToDisplayString_keys (obj : list (string * num)) :
  NoDup (fst <$> obj) ->
  totalsToDisplayString obj
  = join " | " ((fun c => c +:+ " " +:+ filsToAmountString (default NaN (getProp obj c)))
                  <$> (fst <$> obj)).
Proof.
  intros Hnd. unfold totalsToDisplayString. cbv zeta. f_equal.
  rewrite <- list_fmap_compose. apply Forall_fmap_ext_1, Forall_forall.
  intros [k v] Hin. cbn [compose fst].
  rewrite formatCurrency_text, (getProp_NoDup obj k v Hnd Hin). reflexivity.
Qed.

Lemma setProp_fold_keys (f : string -> num) (cs : list string)
    (obj : list (string * num)) :
  fst <$> foldl (fun st cur => setProp st cur (f cur)) obj cs
  = foldl (fun set key => if bool_decide (key ∈ set) then set else set ++ [key])
      (fst <$> obj) cs.
Proof.
  revert obj. induction cs as [|c cs IH]; intros obj; [reflexivity|].
  cbn [foldl]. rewrite IH, keys_setProp. reflexivity.
Qed.

Lemma setProp_fold_lookup (f : string -> num) (cs : list string) (c : string) :
  getProp (foldl (fun st cur => setProp st cur (f cur)) [] cs) c
  = if decide (c ∈ cs) then Some (f c) else None.
Proof.
  induction cs as [|x cs IH] using rev_ind.
  - cbn. rewrite decide_False; [reflexivity|apply not_elem_of_nil].
  - rewrite foldl_app. cbn [foldl]. rewrite getProp_setProp, IH.
    destruct (decide (x = c)) as [->|Hne].
    + rewrite decide_True; [reflexivity|].
      apply elem_of_app. right. apply list_elem_of_here.
    + destruct (decide (c ∈ cs)) as [Hin|Hout].
      * rewrite decide_True; [reflexivity|]. apply elem_of_app. left. exact Hin.
      * rewrite decide_False; [reflexivity|].
        rewrite elem_of_app, list_elem_of_singleton. intros [?|?]; congruence.
Qed.

Lemma fmap_ext_in {A B : Type} (f g : A -> B) (l : list A) :
  (forall x, x ∈ l -> f x = g x) -> f <$> l = g <$> l.
Proof. intros H. apply Forall_fmap_ext_1, Forall_forall, H. Qed.

End DashboardTexts.

(** X24.  For income and expense entries whose currencies are plain names
    and whose amounts are safe, all together, and for a wallet and savings
    that are safe integers, the dashboard shows: for income, the currencies
    in the order of their first entry, each with the sum of its entries,
    joined by " | ", or a dash when there is no income; the same for
    expenses; for savings, the income currencies followed by the expense
    currencies not among them, each with income less expenses; and the
    wallet and the savings as KWD amounts. *)
Theorem renderDashboard_texts (md : monthData) :
  forallb (fun e => plainName (Income.currency e)) (income md) = true ->
  forallb (fun e => plainName (Expense.currency e)) (expenses md) = true ->
  safeAmounts ((Income.amountFils <$> income md)
               ++ (Expense.amountFils <$> expenses md)) = true ->
  isSafeInteger (wallet md) = true -> isSafeInteger (savings md) = true ->
  let incomeCurrencies := newSet (Income.currency <$> income md) in
  let expenseCurrencies := newSet (Expense.currency <$> expenses md) in
  let incomeIn c :=
    Num.sum (amountsIn Income.currency Income.amountFils c (income md)) in
  let expensesIn c :=
    Num.sum (amountsIn Expense.currency Expense.amountFils c (expenses md)) in
  let display (total : string -> num) (currencies : list string) :=
    if Nat.eqb (length currencies) 0 then "–"
    else join " | " ((fun c => c +:+ " " +:+ filsToAmountString (total c))
                       <$> currencies) in
  renderDashboard md
  = {| totalIncomeDisplay := display incomeIn incomeCurrencies;
       totalExpensesDisplay := display expensesIn expenseCurrencies;
       totalSavingsDisplay :=
         display (fun c => Num.sub (incomeIn c) (expensesIn c))
           (newSet (incomeCurrencies ++ expenseCurrencies));
       walletBalanceDisplay := "KWD " +:+ filsToAmountString (wallet md);
       savingsBalanceDisplay := "KWD " +:+ filsToAmountString (savings md) |}.
Proof.
  intros _ _ S _ _. apply safeAmounts_app in S as [Si Se].
  pose proof (safeAmounts_is_int Income.amountFils _ Si) as Hi.
  pose proof (safeAmounts_is_int Expense.amountFils _ Se) as He.
  cbv zeta. unfold renderDashboard.
  destruct (calculateTotalsIn_agrees md) as (Ai & Ki & Ae & Ke).
  destruct (calculateTotalsIn md) as [inc exp]. cbn [fst snd] in Ai, Ki, Ae, Ke.
  unfold calculateTotals in Ai, Ae. cbn [fst snd] in Ai, Ae.
  assert (Vi : forall c, orZero (getProp inc c)
                         = Num.sum (amountsIn Income.currency Income.amountFils c (income md))).
  { intros c. rewrite Ai. apply (orZero_total Income.currency Income.amountFils _ c Hi). }
  assert (Ve : forall c, orZero (getProp exp c)
                         = Num.sum (amountsIn Expense.currency Expense.amountFils c (expenses md))).
  { intros c. rewrite Ae. apply (orZero_total Expense.currency Expense.amountFils _ c He). }
  assert (Ks : fst <$> savingsTotalsIn inc exp
               = newSet (newSet (Income.currency <$> income md)
                         ++ newSet (Expense.currency <$> expenses md))).
  { unfold savingsTotalsIn. cbv zeta. rewrite setProp_fold_keys, Ki, Ke.
    fold (newSet (newSet (newSet (Income.currency <$> income md)
                          ++ newSet (Expense.currency <$> expenses md)))).
    apply newSet_NoDup, NoDup_newSet. }
  f_equal.
  - rewrite <- (length_fmap fst inc), Ki.
    destruct (Nat.eqb _ 0); [reflexivity|].
    rewrite totalsToDisplayString_keys by (rewrite Ki; apply NoDup_newSet).
    rewrite Ki. f_equal. apply fmap_ext_in. intros c Hc.
    rewrite elem_of_newSet in Hc.
    rewrite Ai, (totals_lookup Income.currency Income.amountFils _ c Hi).
    rewrite decide_True by exact Hc. reflexivity.
  - rewrite <- (length_fmap fst exp), Ke.
    destruct (Nat.eqb _ 0); [reflexivity|].
    rewrite totalsToDisplayString_keys by (rewrite Ke; apply NoDup_newSet).
    rewrite Ke. f_equal. apply fmap_ext_in. intros c Hc.
    rewrite elem_of_newSet in Hc.
    rewrite Ae, (totals_lookup Expense.currency Expense.amountFils _ c He).
    rewrite decide_True by exact Hc. reflexivity.
  - rewrite <- (length_fmap fst (savingsTotalsIn inc exp)), Ks.
    destruct (Nat.eqb _ 0); [reflexivity|].
    rewrite totalsToDisplayString_keys by (rewrite Ks; apply NoDup_newSet).
    rewrite Ks. f_equal. apply fmap_ext_in. intros c Hc.
    unfold savingsTotalsIn. cbv zeta. rewrite setProp_fold_lookup, Ki, Ke.
    rewrite decide_True by exact Hc.
    cbn [default]. rewrite Vi, Ve. reflexivity.
Qed.

Lemma renderDashboard_texts_witness :
  let md :=
    {| income := [ Income.Build "2025-01-05" "Salary" (Int 5000) "USD" "";
                   Income.Build "2025-01-06" "Gift" (Int 1000) "KWD" "";
                   Income.Build "2025-01-07" "Bonus" (Int 1250) "USD" "" ];
       expenses := [ Expense.Build "2025-01-08" "Food" (Int 300) "KWD" "wallet" "";
                     Expense.Build "2025-01-09" "Book" (Int 700) "EUR" "bank" "" ];
       lending := []; wallet := Int 700; savings := Int 0 |} in
  renderDashboard md
  = {| totalIncomeDisplay := "USD 6.250 | KWD 1.000";
       totalExpensesDisplay := "KWD 0.300 | EUR 0.700";
       totalSavingsDisplay := "USD 6.250 | KWD 0.700 | EUR -0.700";
       walletBalanceDisplay := "KWD 0.700";
       savingsBalanceDisplay := "KWD 0.000" |}.
Proof.
  intros md.
  exact (renderDashboard_texts md eq_refl eq_refl eq_refl eq_refl eq_refl).
Defined.

(** ** The PDF statement *)

Section Statement.

Local Open Scope Z_scope.

Lemma textsOf_app (doc1 doc2 : list docCall) :
  textsOf (doc1 ++ doc2) = textsOf doc1 ++ textsOf doc2.
Proof. apply omap_app. Qed.

Lemma printedWithin_app (top bottom : Z) (doc1 doc2 : list docCall) :
  printedWithin top bottom doc1 -> printedWithin top bottom doc2 ->
  printedWithin top bottom (doc1 ++ doc2).
Proof. intros H1 H2. apply Forall_app. split; assumption. Qed.

(** A loop over the entries started between 40 and a bound of at least 780
    ends between 40 and that bound, prints every line within it, and adds a
    text for each entry, in order. *)
Lemma printEntries_spec {E : Type} (line : E -> string) (entries : list E)
    (bound y : Z) (doc : list docCall) (y' : Z) (doc' : list docCall) :
  780 <= bound <= 830 -> 40 <= y <= bound ->
  printedWithin 40 830 doc ->
  printEntries line entries (y, doc) = (y', doc') ->
  40 <= y' <= bound /\
  printedWithin 40 830 doc' /\
  textsOf doc' = textsOf doc ++ (line <$> entries).
Proof.
  intros Hb. revert y doc.
  induction entries as [|e entries IH]; intros y doc Hy Hdoc Hrun.
  - cbn in Hrun. injection Hrun as <- <-.
    split; [exact Hy|]. split; [exact Hdoc|]. rewrite app_nil_r. reflexivity.
  - unfold printEntries in Hrun. cbn [foldl] in Hrun.
    fold (printEntries line entries) in Hrun.
    assert (Hdoc1 : printedWithin 40 830 (doc ++ [Text (line e) 50 y])).
    { apply printedWithin_app; [exact Hdoc|]. repeat constructor; lia. }
    destruct (Z.ltb_spec 780 (y + 12)) as [Hnew|Hsame].
    + destruct (IH 40 _ ltac:(lia)
                  (printedWithin_app 40 830 _ [AddPage] Hdoc1
                     ltac:(repeat constructor)) Hrun) as (Hy' & Hd' & Ht').
      split; [exact Hy'|]. split; [exact Hd'|].
      rewrite Ht', !textsOf_app. cbn [textsOf omap]. rewrite fmap_cons.
      rewrite app_nil_r, <- app_assoc. reflexivity.
    + destruct (IH (y + 12) _ ltac:(lia) Hdoc1 Hrun) as (Hy' & Hd' & Ht').
      split; [exact Hy'|]. split; [exact Hd'|].
      rewrite Ht', !textsOf_app. cbn [textsOf omap]. rewrite fmap_cons.
      rewrite <- app_assoc. reflexivity.
Qed.

(** The export, step by step: where it prints and what. *)
Lemma exportPdf_spec (label currentMonthKey : string) (md : monthData) :
  printedWithin 40 830 (exportPdf label currentMonthKey md) /\
  textsOf (exportPdf label currentMonthKey md)
  = [ "Personal Budget Statement - " +:+ label;
      "Dashboard:";
      "Total Income: "
        +:+ orText (totalsToDisplayString (fst (calculateTotalsIn md))) "-";
      "Total Expenses: "
        +:+ orText (totalsToDisplayString (snd (calculateTotalsIn md))) "-";
      "Total Savings: "
        +:+ orText (totalsToDisplayString
                      (savingsTotalsIn (fst (calculateTotalsIn md))
                         (snd (calculateTotalsIn md)))) "-";
      "Wallet (KWD): " +:+ filsToAmountString (wallet md);
      "Savings (KWD): " +:+ filsToAmountString (savings md) ]
    ++ "Income:" :: (incomeLine <$> income md)
    ++ "Expenses:" :: (expenseLine <$> expenses md)
    ++ "Lending & Borrowing:" :: (lendingLine <$> lending md).
Proof.
  unfold exportPdf. destruct (calculateTotalsIn md) as [inc exp]. cbn [fst snd].
  cbv zeta. cbn [app].
  match goal with
  | |- context [printEntries incomeLine (income md) (?y, ?doc)] =>
      destruct (printEntries incomeLine (income md) (y, doc)) as [y1 doc1] eqn:E1;
      destruct (printEntries_spec incomeLine (income md) 780 y doc y1 doc1
                  ltac:(lia) ltac:(lia) ltac:(repeat constructor; lia) E1)
        as (Hy1 & Hd1 & Ht1)
  end.
  match goal with
  | |- context [printEntries expenseLine (expenses md) (?y, ?doc)] =>
      destruct (printEntries expenseLine (expenses md) (y, doc)) as [y2 doc2] eqn:E2;
      destruct (printEntries_spec expenseLine (expenses md) 805 y doc y2 doc2
                  ltac:(lia) ltac:(lia)
                  ltac:(repeat apply printedWithin_app; try exact Hd1;
                        repeat constructor; lia) E2)
        as (Hy2 & Hd2 & Ht2)
  end.
  match goal with
  | |- context [printEntries lendingLine (lending md) (?y, ?doc)] =>
      destruct (printEntries lendingLine (lending md) (y, doc)) as [y3 doc3] eqn:E3;
      destruct (printEntries_spec lendingLine (lending md) 830 y doc y3 doc3
                  ltac:(lia) ltac:(lia)
                  ltac:(repeat apply printedWithin_app; try exact Hd2;
                        repeat constructor; lia) E3)
        as (Hy3 & Hd3 & Ht3)
  end.
  split.
  - apply printedWithin_app; [exact Hd3|repeat constructor].
  - rewrite textsOf_app, Ht3, !textsOf_app, Ht2, !textsOf_app, Ht1.
    cbn [textsOf omap app]. rewrite !app_nil_r, <- !app_assoc. reflexivity.
Qed.

End Statement.

(** X25.  The PDF export prints every text between y = 40 and y = 830,
    whatever the number of entries: a loop starts a new page as soon as y
    passes 780, and the headings and first lines after a loop come at most
    50 further down. *)
Theorem exportPdf_layout (label currentMonthKey : string) (md : monthData) :
  printedWithin 40 830 (exportPdf label currentMonthKey md).
Proof. apply exportPdf_spec. Qed.

(** X26.  The texts of the PDF export are, in order: the title, the
    dashboard heading and its five lines, then under each of the three
    headings one line for every entry of the list, in the order of the
    list; page breaks drop and repeat nothing. *)
Theorem exportPdf_texts (label currentMonthKey : string) (md : monthData) :
  textsOf (exportPdf label currentMonthKey md)
  = [ "Personal Budget Statement - " +:+ label;
      "Dashboard:";
      "Total Income: "
        +:+ orText (totalsToDisplayString (fst (calculateTotalsIn md))) "-";
      "Total Expenses: "
        +:+ orText (totalsToDisplayString (snd (calculateTotalsIn md))) "-";
      "Total Savings: "
        +:+ orText (totalsToDisplayString
                      (savingsTotalsIn (fst (calculateTotalsIn md))
                         (snd (calculateTotalsIn md)))) "-";
      "Wallet (KWD): " +:+ filsToAmountString (wallet md);
      "Savings (KWD): " +:+ filsToAmountString (savings md) ]
    ++ "Income:" :: (incomeLine <$> income md)
    ++ "Expenses:" :: (expenseLine <$> expenses md)
    ++ "Lending & Borrowing:" :: (lendingLine <$> lending md).
Proof. apply exportPdf_spec. Qed.

(** ** The texts of the lending summary *)

Section LendingTexts.

Context {E : Type} (cur : E -> string) (amt : E -> num).

(** The display of the totals of a list of entries with integer amounts. *)
Lemma totalsIn_display (l : list E) :
  Forall (fun e => Num.is_int (amt e) = true) l ->
  let obj := foldl (fun (obj : list (string * num)) (e : E) =>
                      addAssignIn (ensureCurrencyIn obj (cur e)) (cur e) (amt e))
               [] l in
  (if Nat.eqb (length obj) 0 then "–" else totalsToDisplayString obj)
  = if Nat.eqb (length (newSet (cur <$> l))) 0 then "–"
    else join " | " ((fun c => c +:+ " " +:+ filsToAmountString
                                 (Num.sum (amountsIn cur amt c l)))
                       <$> newSet (cur <$> l)).
Proof.
  intros H obj. pose proof (totalsIn_keys cur amt l) as K. fold obj in K.
  rewrite <- (length_fmap fst obj), K.
  destruct (Nat.eqb _ 0); [reflexivity|].
  rewrite totalsToDisplayString_keys by (rewrite K; apply NoDup_newSet).
  rewrite K. f_equal. apply fmap_ext_in. intros c Hc. rewrite elem_of_newSet in Hc.
  unfold obj. rewrite (totalsIn_agrees cur amt l c), (totals_lookup cur amt l c H).
  rewrite decide_True by exact Hc. reflexivity.
Qed.

End LendingTexts.

Section LendingFold.

Local Abbreviation pendingLend :=
  (fun e : Lending.t => Lending.status e = "pending" /\ Lending.type e = "lend").

Local Abbreviation pendingBorrow :=
  (fun e : Lending.t => Lending.status e = "pending" /\ Lending.type e = "borrow").

Local Abbreviation addLendingIn :=
  (fun (obj : list (string * num)) (e : Lending.t) =>
     addAssignIn (ensureCurrencyIn obj (Lending.currency e))
       (Lending.currency e) (Lending.amountFils e)).

Lemma renderLBSummaryIn_fold (l : list Lending.t) (a b : list (string * num)) :
  foldl (fun '(toReceive, toPayBack) entry =>
           if String.eqb (Lending.status entry) "pending" then
             if String.eqb (Lending.type entry) "lend" then
               (addAssignIn (ensureCurrencyIn toReceive (Lending.currency entry))
                  (Lending.currency entry) (Lending.amountFils entry),
                toPayBack)
             else if String.eqb (Lending.type entry) "borrow" then
               (toReceive,
                addAssignIn (ensureCurrencyIn toPayBack (Lending.currency entry))
                  (Lending.currency entry) (Lending.amountFils entry))
             else (toReceive, toPayBack)
           else (toReceive, toPayBack))
    (a, b) l
  = (foldl addLendingIn a (filter pendingLend l),
     foldl addLendingIn b (filter pendingBorrow l)).
Proof.
  revert a b. induction l as [|e l IH]; intros a b; [reflexivity|].
  cbn [foldl].
  destruct (String.eqb_spec (Lending.status e) "pending") as [Hs|Hs].
  - destruct (String.eqb_spec (Lending.type e) "lend") as [Ht|Ht].
    + rewrite IH, (filter_cons_True pendingLend) by (split; assumption).
      rewrite (filter_cons_False pendingBorrow); [reflexivity|].
      intros [_ Hb]. rewrite Ht in Hb. discriminate.
    + destruct (String.eqb_spec (Lending.type e) "borrow") as [Hb|Hb].
      * rewrite IH, (filter_cons_True pendingBorrow) by (split; assumption).
        rewrite (filter_cons_False pendingLend); [reflexivity|].
        intros [_ ?]. contradiction.
      * rewrite IH, (filter_cons_False pendingLend), (filter_cons_False pendingBorrow);
          [reflexivity|intros [_ ?]; contradiction|intros [_ ?]; contradiction].
  - rewrite IH, (filter_cons_False pendingLend), (filter_cons_False pendingBorrow);
      [reflexivity|intros [? _]; contradiction|intros [? _]; contradiction].
Qed.

End LendingFold.

(** X27.  The lending summary reads "To receive: " followed by the
    currencies of the pending entries lent, in the order of their first
    entry, each with the sum of those entries, joined by " | ", or by a
    dash when there is none; and "To pay back: " likewise for the pending
    entries borrowed.  The pending entries lent and borrowed have
    currencies that are plain names, and safe amounts; the other entries
    are free. *)
Theorem renderLBSummary_texts_spec (md : monthData) :
  let lent :=
    filter (fun e => Lending.status e = "pending" /\ Lending.type e = "lend")
      (lending md) in
  let borrowed :=
    filter (fun e => Lending.status e = "pending" /\ Lending.type e = "borrow")
      (lending md) in
  forallb (fun e => plainName (Lending.currency e)) (lent ++ borrowed) = true ->
  safeAmounts (Lending.amountFils <$> lent) = true ->
  safeAmounts (Lending.amountFils <$> borrowed) = true ->
  let display (entries : list Lending.t) :=
    let currencies := newSet (Lending.currency <$> entries) in
    if Nat.eqb (length currencies) 0 then "–"
    else join " | "
           ((fun c => c +:+ " " +:+ filsToAmountString
                        (Num.sum (amountsIn Lending.currency Lending.amountFils c entries)))
              <$> currencies) in
  renderLBSummary_texts md
  = ("To receive: " +:+ display lent, "To pay back: " +:+ display borrowed).
Proof.
  intros lent borrowed _ Sl Sb.
  pose proof (safeAmounts_is_int Lending.amountFils _ Sl) as Hl.
  pose proof (safeAmounts_is_int Lending.amountFils _ Sb) as Hb.
  cbv zeta. unfold renderLBSummary_texts, renderLBSummaryIn.
  rewrite renderLBSummaryIn_fold.
  f_equal; f_equal;
    apply (totalsIn_display Lending.currency Lending.amountFils); assumption.
Qed.

Lemma renderLBSummary_texts_spec_witness :
  let md :=
    {| income := []; expenses := [];
       lending :=
         [ Lending.Build "2025-01-05" "Ali" (Int 5000) "USD" (Some "") "lend" "pending";
           Lending.Build "2025-01-06" "Sara" (Int 2000) "KWD" (Some "") "lend" "pending";
           Lending.Build "2025-01-07" "Omar" (Int 1500) "USD" (Some "") "lend" "pending";
           Lending.Build "2025-01-08" "Noor" NaN "0" (Some "") "borrow" "returned" ];
       wallet := Int 0; savings := Int 0 |} in
  renderLBSummary_texts md
  = ("To receive: USD 6.500 | KWD 2.000", "To pay back: –").
Proof.
  intros md.
  exact (renderLBSummary_texts_spec md eq_refl eq_refl eq_refl).
Defined.
